(** * streamChatAI: the OpenAI response handler

    A shallow embedding of [OpenAIResponseHandler] (src/streamchat/src/index.ts,
    lines 25-271): the coordinator that consumes the event stream of an
    assistant run, invokes the web search tool, throttles partial message
    updates and disposes itself.

    Conventions of the embedding.
    - Every call the handler makes on a collaborator (chat client, channel,
      OpenAI client, axios, console) is recorded, in program order, in a trace
      of [Effect]s.
    - A handler method is a computation [M A]: from the handler's fields to a
      [Result] (returned value, thrown value, or out of fuel), the new fields
      and the effects made.
    - Calls on the chat platform ([sendEvent], [partialUpdateMessage], [off])
      are taken to resolve.  The failures the source handles with a [try] are
      modelled: [JSON.parse], the axios request, the cancellation of a run and
      the stream iterator.
    - A method body runs without interleaving with another method of the same
      handler. *)

From Stdlib Require Import List String Ascii ZArith Bool Lia Sorted DecimalString.
Import ListNotations.
Set Warnings "-register-all".
Open Scope string_scope.
Open Scope Z_scope.

(** ** JavaScript values *)

(** A JSON document, as [JSON.parse] and axios produce it.  Numbers are kept
    to the integers, which is all the handler looks at (an HTTP status). *)
Inductive JsValue : Type :=
| JNull
| JBool (b : bool)
| JNum (n : Z)
| JStr (s : string)
| JArr (items : list JsValue)
| JObj (fields : list (string * JsValue)).

(** JavaScript truthiness, as [||] and [!] test it. *)
Definition truthy (v : JsValue) : bool :=
  match v with
  | JNull => false
  | JBool b => b
  | JNum n => negb (n =? 0)
  | JStr s => negb (s =? EmptyString)%string
  | JArr _ => true
  | JObj _ => true
  end.

(** A thrown value: a value whose properties can be read, with its [message]
    (absent when the value is not an [Error]) and what its [toString] gives;
    or [undefined] or [null], of which no property can be read. *)
Inductive JsError : Type :=
| mkJsError (message_of : option string) (toString : string)
| JsNullish (is_null : bool).

(** [new Error(msg)] *)
Definition new_Error (msg : string) : JsError :=
  mkJsError (Some msg)
            (if (msg =? EmptyString)%string then "Error" else "Error: " ++ msg).

Definition TypeError (msg : string) : JsError :=
  mkJsError (Some msg) ("TypeError: " ++ msg).

(** Own property lookup on the fields of an object. *)
Fixpoint get_field (k : string) (fields : list (string * JsValue)) : option JsValue :=
  match fields with
  | [] => None
  | (k', v) :: rest => if (k =? k')%string then Some v else get_field k rest
  end.

(** Whether a template literal can make a string of a JSON value.  The
    conversion throws a TypeError for an object with an own [toString]
    property, which coming from JSON is not callable and hides the inherited
    one, and for an array that holds such an object. *)
Fixpoint converts_to_string (v : JsValue) : bool :=
  match v with
  | JArr items =>
      (fix all (l : list JsValue) : bool :=
         match l with
         | [] => true
         | x :: r => converts_to_string x && all r
         end) items
  | JObj fields =>
      match get_field "toString" fields with
      | Some _ => false
      | None => true
      end
  | _ => true
  end.

(** [args.query]: [None] is [undefined]; reading a property of [null] throws. *)
Definition get_query (args : JsValue) : JsError + option JsValue :=
  match args with
  | JNull => inl (TypeError "Cannot read properties of null (reading 'query')")
  | JObj fields => inr (get_field "query" fields)
  | _ => inr None
  end.

(** ** Data of the assistant API *)

Record ToolCall : Type := mkToolCall {
  tc_id : string;
  tc_function_name : string;
  tc_function_arguments : string
}.

Record ToolOutput : Type := mkToolOutput {
  tool_call_id : string;
  output : string
}.

Record RequiredAction : Type := mkRequiredAction {
  ra_type : string;
  ra_tool_calls : list ToolCall
}.

(** [event.data] of a [thread.run.*] event. *)
Record Run : Type := mkRun {
  run_data_id : string;
  required_action : option RequiredAction;
  last_error : option string
}.

(** One block of [delta.content]: a text block with its optional [text]
    object and that object's optional [value], or a block of another type. *)
Inductive ContentDelta : Type :=
| TextDeltaBlock (text : option (option string))
| OtherDeltaBlock (type : string).

(** One block of the [content] of a completed message. *)
Inductive ContentBlock : Type :=
| TextContent (value : string)
| OtherContent (type : string).

Inductive StepDetails : Type :=
| MessageCreation
| ToolCalls.

Inductive AssistantStreamEvent : Type :=
| ThreadRunCreated (data : Run)
| ThreadMessageDelta (content : option (list ContentDelta))
| ThreadMessageCompleted (content : list ContentBlock)
| ThreadRunStepCreated (step_details : StepDetails)
| ThreadRunRequiresAction (data : Run)
| ThreadRunCompleted (data : Run)
| ThreadRunFailed (data : Run)
| OtherEvent (tag : string).

(** An event together with the value [Date.now()] has while it is handled. *)
Record Arrival : Type := mkArrival {
  arr_event : AssistantStreamEvent;
  arr_now : Z
}.

(** How one [for await] over a stream ends once its events are consumed. *)
Inductive IterationEnd : Type :=
| IterDone
| IterThrows (e : JsError).

Record Pass : Type := mkPass {
  pass_events : list Arrival;
  pass_end : IterationEnd
}.

(** An [AssistantStream] is given by what each successive [for await] over it
    yields.  A stream with no pass left yields nothing more: an iteration
    that ends at once and one that never resolves make the same calls, none,
    and neither lets [run] return while the run is not completed. *)
Definition AssistantStream : Type := list Pass.

Definition next_pass (s : AssistantStream) : Pass * AssistantStream :=
  match s with
  | [] => (mkPass [] IterDone, [])
  | p :: rest => (p, rest)
  end.

(** ** Effects *)

Inductive LogLine : Type :=
| LogPerformingSearch (query : option JsValue)
| LogSearchSuccessful (query : option JsValue)
| LogSearchFailed (query : option JsValue)
| LogAxiosError (detail : JsValue)
| LogUnexpectedSearchError (query : option JsValue) (e : JsError)
| LogToolCallError (e : JsError)
| LogCancelError (e : JsError)
| LogRunError (e : JsError).

Inductive Effect : Type :=
| SendEvent (type : string) (ai_state : option string) (cid message_id : string)
| PartialUpdateMessage (id text : string) (messaage : option string)
| RunsCancel (run_id thread_id : string)
| SubmitToolOutputsStream (run_id thread_id : string) (tool_outputs : list ToolOutput)
| ChatClientOff (event_type : string)
| OnDispose
| AxiosPost (url : string) (query : option JsValue) (authorization : string)
| ConsoleLog (l : LogLine)
| ConsoleError (l : LogLine).

Definition Trace : Type := list Effect.

(** ** The handler's fields *)

Record MessageResponse : Type := mkMessage {
  msg_cid : string;
  msg_id : string;
  msg_text : string
}.

Record Handler : Type := mkHandler {
  message_text : string;
  chunk_counter : Z;
  run_id : string;
  is_done : bool;
  last_update_time : Z;
  openAiThread_id : string;
  message : MessageResponse
}.

Definition set_run_id (v : string) (h : Handler) : Handler :=
  mkHandler (message_text h) (chunk_counter h) v (is_done h)
            (last_update_time h) (openAiThread_id h) (message h).

Definition set_is_done (v : bool) (h : Handler) : Handler :=
  mkHandler (message_text h) (chunk_counter h) (run_id h) v
            (last_update_time h) (openAiThread_id h) (message h).

Definition set_last_update_time (v : Z) (h : Handler) : Handler :=
  mkHandler (message_text h) (chunk_counter h) (run_id h) (is_done h)
            v (openAiThread_id h) (message h).

Definition set_chunk_counter (v : Z) (h : Handler) : Handler :=
  mkHandler (message_text h) v (run_id h) (is_done h)
            (last_update_time h) (openAiThread_id h) (message h).

Definition set_message_text_field (v : string) (h : Handler) : Handler :=
  mkHandler (message_text h) (chunk_counter h) (run_id h) (is_done h)
            (last_update_time h) (openAiThread_id h)
            (mkMessage (msg_cid (message h)) (msg_id (message h)) v).

(** The fields as the class initialises them. *)
Definition new_handler (thread_id : string) (m : MessageResponse) : Handler :=
  mkHandler EmptyString 0 EmptyString false 0 thread_id m.

(** ** The collaborators *)

Inductive AxiosOutcome : Type :=
| AxiosResolved (data : JsValue)
| AxiosRejected (response : option (Z * JsValue)) (message : string)
| OtherRejected (e : JsError).

Record World : Type := mkWorld {
  TAVILY_API_KEY : option string;
  JSON_parse : string -> JsError + JsValue;
  JSON_stringify : JsValue -> string;
  axios_post : option JsValue -> string -> AxiosOutcome;
  runs_cancel : string -> string -> option JsError;
  submitToolOutputsStream : string -> string -> list ToolOutput -> AssistantStream
}.

(** ** The monad of handler methods *)

Inductive Result (A : Type) : Type :=
| Ok (a : A)
| Throw (e : JsError)
| OutOfFuel.
Arguments Ok {A} a.
Arguments Throw {A} e.
Arguments OutOfFuel {A}.

Definition M (A : Type) : Type := Handler -> Result A * Handler * Trace.

Definition ret {A} (a : A) : M A := fun h => (Ok a, h, []).

Definition bind {A B} (m : M A) (k : A -> M B) : M B :=
  fun h =>
    match m h with
    | (Ok a, h1, t1) =>
        match k a h1 with
        | (r, h2, t2) => (r, h2, (t1 ++ t2)%list)
        end
    | (Throw e, h1, t1) => (Throw e, h1, t1)
    | (OutOfFuel, h1, t1) => (OutOfFuel, h1, t1)
    end.

Declare Scope handler_scope.
Delimit Scope handler_scope with handler.
Notation "x <- c1 ;; c2" := (bind c1 (fun x => c2))
  (at level 61, c1 at next level, right associativity) : handler_scope.
Notation "c1 ;; c2" := (bind c1 (fun _ => c2))
  (at level 61, right associativity) : handler_scope.
Open Scope handler_scope.

Definition throw {A} (e : JsError) : M A := fun h => (Throw e, h, []).
Definition out_of_fuel {A} : M A := fun h => (OutOfFuel, h, []).
Definition emit (e : Effect) : M unit := fun h => (Ok tt, h, [e]).
Definition get : M Handler := fun h => (Ok h, h, []).
Definition modify (f : Handler -> Handler) : M unit := fun h => (Ok tt, f h, []).

(** [try { m } catch (e) { handler e }] *)
Definition try_catch {A} (m : M A) (handler : JsError -> M A) : M A :=
  fun h =>
    match m h with
    | (Throw e, h1, t1) =>
        match handler e h1 with
        | (r, h2, t2) => (r, h2, (t1 ++ t2)%list)
        end
    | other => other
    end.

(** [try { m } finally { fin }]: [fin] runs once [m] has returned or thrown. *)
Definition try_finally {A} (m : M A) (fin : M unit) : M A :=
  fun h =>
    match m h with
    | (OutOfFuel, h1, t1) => (OutOfFuel, h1, t1)
    | (r, h1, t1) =>
        match fin h1 with
        | (Ok _, h2, t2) => (r, h2, (t1 ++ t2)%list)
        | (Throw e, h2, t2) => (Throw e, h2, (t1 ++ t2)%list)
        | (OutOfFuel, h2, t2) => (OutOfFuel, h2, (t1 ++ t2)%list)
        end
    end.

(** A call of an async method whose promise is dropped: the effects of its
    body stay, a rejection is not seen by the caller. *)
Definition not_awaited {A} (m : M A) : M unit :=
  fun h =>
    match m h with
    | (OutOfFuel, h1, t1) => (OutOfFuel, h1, t1)
    | (_, h1, t1) => (Ok tt, h1, t1)
    end.

(** ** The methods of [OpenAIResponseHandler] *)

(** [dispose] (lines 126-131) *)
Definition dispose : M unit :=
  h <- get;;
  if is_done h then ret tt
  else
    modify (set_is_done true);;
    emit (ChatClientOff "ai_indicator.stop");;
    emit OnDispose.

(** [this.openAi.beta.threads.runs.cancel(this.run_id, {thread_id})] *)
Definition cancel_run (w : World) : M unit :=
  h <- get;;
  emit (RunsCancel (run_id h) (openAiThread_id h));;
  match runs_cancel w (run_id h) (openAiThread_id h) with
  | None => ret tt
  | Some e => throw e
  end.

(** [event.message_id !== this.message.id], [message_id] being optional. *)
Definition message_id_differs (event_message_id : option string) (id : string) : bool :=
  match event_message_id with
  | Some m => negb (m =? id)%string
  | None => true
  end.

(** [handleStopGenerating] (lines 133-154) *)
Definition handleStopGenerating (w : World) (event_message_id : option string) : M unit :=
  h <- get;;
  if is_done h || message_id_differs event_message_id (msg_id (message h)) then ret tt
  else
    try_catch (cancel_run w)
              (fun error => emit (ConsoleError (LogCancelError error)));;
    emit (SendEvent "ai_indicator.clear" None (msg_cid (message h)) (msg_id (message h)));;
    dispose.

(** [event.data.delta.content?.[0]] *)
Definition first_delta (content : option (list ContentDelta)) : option ContentDelta :=
  match content with
  | Some blocks => nth_error blocks 0
  | None => None
  end.

(** [textDelta.text.value || ""] *)
Definition value_or_empty (value : option string) : string :=
  match value with
  | Some v => v
  | None => EmptyString
  end.

(** [handleStreamEvent] (lines 156-199); [now] is what [Date.now()] returns. *)
Definition handleStreamEvent (event : AssistantStreamEvent) (now : Z) : M unit :=
  h <- get;;
  let cid := msg_cid (message h) in
  let id := msg_id (message h) in
  match event with
  | ThreadRunCreated data => modify (set_run_id (run_data_id data))
  | ThreadMessageDelta content =>
      match first_delta content with
      | Some (TextDeltaBlock (Some value)) =>
          modify (set_message_text_field (msg_text (message h) ++ value_or_empty value));;
          (if now - last_update_time h >? 1000 then
             emit (PartialUpdateMessage id (msg_text (message h) ++ value_or_empty value) None);;
             modify (set_last_update_time now)
           else ret tt);;
          modify (fun h' => set_chunk_counter (chunk_counter h' + 1) h')
      | _ => ret tt
      end
  | ThreadMessageCompleted content =>
      match nth_error content 0 with
      | None => throw (TypeError "Cannot read properties of undefined (reading 'type')")
      | Some block =>
          emit (PartialUpdateMessage id
                  (match block with
                   | TextContent value => value
                   | OtherContent _ => msg_text (message h)
                   end) None);;
          emit (SendEvent "ai_indicator.clear" None cid id)
      end
  | ThreadRunStepCreated step_details =>
      match step_details with
      | MessageCreation =>
          emit (SendEvent "ai_indicator.update" (Some "AI_STATE_CHECKING_SOURCES") cid id)
      | ToolCalls => ret tt
      end
  | _ => ret tt
  end.

(** [error.message ?? `An error occurred while generating the message.`] *)
Definition error_text (message_of : option string) : string :=
  match message_of with
  | Some m => m
  | None => "An error occurred while generating the message."
  end.

(** [handleError] (lines 201-219).  The object passed to
    [partialUpdateMessage] is built from [error.message] and
    [error.toString()]: for [undefined] or [null] reading [message] throws,
    after the ERROR signal was sent. *)
Definition handleError (error : JsError) : M unit :=
  h <- get;;
  if is_done h then ret tt
  else
    emit (SendEvent "ai_indicator.update" (Some "AI_STATE_ERROR")
                    (msg_cid (message h)) (msg_id (message h)));;
    match error with
    | mkJsError message_of toString =>
        emit (PartialUpdateMessage (msg_id (message h)) (error_text message_of)
                                   (Some toString));;
        dispose
    | JsNullish is_null =>
        throw (TypeError (if is_null
                          then "Cannot read properties of null (reading 'message')"
                          else "Cannot read properties of undefined (reading 'message')"))
    end.

(** [!TAVILY_API_KEY]: the variable is unset or empty. *)
Definition configured_key (w : World) : option string :=
  match TAVILY_API_KEY w with
  | Some key => if (key =? EmptyString)%string then None else Some key
  | None => None
  end.

(** [`${error.response?.status}`] *)
Definition status_text (response : option (Z * JsValue)) : string :=
  match response with
  | Some (status, _) => NilZero.string_of_int (Z.to_int status)
  | None => "undefined"
  end.

(** [error.response?.data || error.message] *)
Definition response_details (response : option (Z * JsValue)) (message : string) : JsValue :=
  match response with
  | Some (_, data) => if truthy data then data else JStr message
  | None => JStr message
  end.

Definition not_configured_payload : JsValue :=
  JObj [("error", JStr "Web Search is not available. The API Key is not configured.")].

Definition search_failed_payload (response : option (Z * JsValue)) (message : string) : JsValue :=
  JObj [("error", JStr ("Failed to perform web search with status " ++ status_text response));
        ("details", response_details response message)].

Definition unexpected_payload : JsValue :=
  JObj [("error", JStr "An unexpected error occurred during web search.")].

(** A template literal [`... ${v} ...`] being evaluated; [None] is
    [undefined], which converts. *)
Definition template_literal (v : option JsValue) : M unit :=
  match v with
  | Some x =>
      if converts_to_string x then ret tt
      else throw (TypeError "Cannot convert object to primitive value")
  | None => ret tt
  end.

(** [performWebSearch] (lines 221-270).  The request goes to the Tavily
    endpoint with the query, [search_depth: "advanced"], [max_results: 5],
    [include_answer: true], [include_raw_content: false] and the bearer key.
    The log of line 230 stands before the [try] and that of line 256 inside
    the [catch]: a TypeError raised by their template literals leaves the
    function. *)
Definition performWebSearch (w : World) (query : option JsValue) : M string :=
  match configured_key w with
  | None => ret (JSON_stringify w not_configured_payload)
  | Some key =>
      template_literal query;;
      emit (ConsoleLog (LogPerformingSearch query));;
      emit (AxiosPost "https://api.tavily.com/search" query ("Bearer " ++ key));;
      match axios_post w query key with
      | AxiosResolved data =>
          emit (ConsoleLog (LogSearchSuccessful query));;
          ret (JSON_stringify w data)
      | AxiosRejected response message =>
          emit (ConsoleLog (LogSearchFailed query));;
          template_literal (Some (response_details response message));;
          emit (ConsoleError (LogAxiosError (response_details response message)));;
          ret (JSON_stringify w (search_failed_payload response message))
      | OtherRejected error =>
          emit (ConsoleError (LogUnexpectedSearchError query error));;
          ret (JSON_stringify w unexpected_payload)
      end
  end.

Definition tool_failed_payload : JsValue :=
  JObj [("error", JStr "Failed to call tool")].

(** The body of the [for (const toolCall of toolCalls)] loop for a call of
    [web_search] (lines 70-84): the output pushed on [toolOutputs]. *)
Definition web_search_output (w : World) (toolCall : ToolCall) : M ToolOutput :=
  try_catch
    (match JSON_parse w (tc_function_arguments toolCall) with
     | inl syntax_error => throw syntax_error
     | inr args =>
         match get_query args with
         | inl type_error => throw type_error
         | inr query =>
             searchResult <- performWebSearch w query;;
             ret (mkToolOutput (tc_id toolCall) searchResult)
         end
     end)
    (fun error =>
       emit (ConsoleError (LogToolCallError error));;
       ret (mkToolOutput (tc_id toolCall) (JSON_stringify w tool_failed_payload))).

(** The loop over [toolCalls] (lines 68-86), pushing on [toolOutputs]. *)
Fixpoint collect_tool_outputs (w : World) (toolCalls : list ToolCall)
         (toolOutputs : list ToolOutput) : M (list ToolOutput) :=
  match toolCalls with
  | [] => ret toolOutputs
  | toolCall :: rest =>
      if (tc_function_name toolCall =? "web_search")%string then
        out <- web_search_output w toolCall;;
        collect_tool_outputs w rest (toolOutputs ++ [out])%list
      else collect_tool_outputs w rest toolOutputs
  end.

(** The local variables of [run]. *)
Record Locals : Type := mkLocals {
  isCompleted : bool;
  toolOutputs : list ToolOutput;
  currentStream : AssistantStream
}.

(** The test of line 55: the tool calls of a [thread.run.requires_action]
    event whose required action is of type [submit_tool_outputs]. *)
Definition requires_tool_outputs (event : AssistantStreamEvent) : option (Run * list ToolCall) :=
  match event with
  | ThreadRunRequiresAction data =>
      match required_action data with
      | Some ra =>
          if (ra_type ra =? "submit_tool_outputs")%string
          then Some (data, ra_tool_calls ra) else None
      | None => None
      end
  | _ => None
  end.

(** [event.data.last_error?.message ?? "Run Failed"] *)
Definition failure_message (data : Run) : string :=
  match last_error data with
  | Some m => m
  | None => "Run Failed"
  end.

(** The [for await (const event of currentStream)] loop (lines 52-116) over
    the events one iteration of the stream yields.  Returning is leaving the
    loop, by [break] or at the end of the iteration. *)
Fixpoint for_await (w : World) (events : list Arrival) (iter_end : IterationEnd)
         (l : Locals) : M Locals :=
  match events with
  | [] =>
      match iter_end with
      | IterDone => ret l
      | IterThrows e => throw e
      end
  | a :: rest =>
      not_awaited (handleStreamEvent (arr_event a) (arr_now a));;
      match requires_tool_outputs (arr_event a) with
      | Some (data, toolCalls) =>
          modify (set_run_id (run_data_id data));;
          h <- get;;
          emit (SendEvent "ai_indicator.update" (Some "AI_STATE_EXTERNAL_SOURCES")
                          (msg_cid (message h)) (msg_id (message h)));;
          outs <- collect_tool_outputs w toolCalls [];;
          ret (mkLocals (isCompleted l) outs (currentStream l))
      | None =>
          match arr_event a with
          | ThreadRunCompleted _ =>
              ret (mkLocals true (toolOutputs l) (currentStream l))
          | ThreadRunFailed data =>
              handleError (new_Error (failure_message data));;
              ret (mkLocals true (toolOutputs l) (currentStream l))
          | _ =>
              if isCompleted l then ret l
              else
                match toolOutputs l with
                | [] => for_await w rest iter_end l
                | _ :: _ =>
                    h <- get;;
                    emit (SubmitToolOutputsStream (run_id h) (openAiThread_id h)
                                                  (toolOutputs l));;
                    for_await w rest iter_end
                      (mkLocals (isCompleted l) []
                         (submitToolOutputsStream w (run_id h) (openAiThread_id h)
                                                  (toolOutputs l)))
                end
          end
      end
  end.

(** The [while (!isCompleted)] loop (lines 51-117); [fuel] bounds the number
    of iterations. *)
Fixpoint while_not_completed (w : World) (fuel : nat) (l : Locals) : M unit :=
  if isCompleted l then ret tt
  else
    match fuel with
    | O => out_of_fuel
    | S fuel' =>
        let (p, remaining) := next_pass (currentStream l) in
        l' <- for_await w (pass_events p) (pass_end p)
                (mkLocals (isCompleted l) (toolOutputs l) remaining);;
        while_not_completed w fuel' l'
    end.

(** [run] (lines 44-124) *)
Definition run (w : World) (assistantStream : AssistantStream) (fuel : nat) : M unit :=
  try_finally
    (try_catch
       (while_not_completed w fuel (mkLocals false [] assistantStream))
       (fun error =>
          emit (ConsoleError (LogRunError error));;
          handleError error))
    dispose.

(** ** Observations on traces and on sequences of events *)

Definition result_of {A} (x : Result A * Handler * Trace) : Result A := fst (fst x).
Definition handler_of {A} (x : Result A * Handler * Trace) : Handler := snd (fst x).
Definition trace_of {A} (x : Result A * Handler * Trace) : Trace := snd x.

Definition is_partial_update (e : Effect) : bool :=
  match e with PartialUpdateMessage _ _ _ => true | _ => false end.

Definition is_submit (e : Effect) : bool :=
  match e with SubmitToolOutputsStream _ _ _ => true | _ => false end.

Definition is_axios_post (e : Effect) : bool :=
  match e with AxiosPost _ _ _ => true | _ => false end.

Definition is_on_dispose (e : Effect) : bool :=
  match e with OnDispose => true | _ => false end.

Definition is_off (e : Effect) : bool :=
  match e with ChatClientOff _ => true | _ => false end.

Definition count (p : Effect -> bool) (t : Trace) : nat := List.length (filter p t).

(** The texts pushed with [partialUpdateMessage], in order. *)
Fixpoint pushed_texts (t : Trace) : list string :=
  match t with
  | [] => []
  | PartialUpdateMessage _ text _ :: rest => text :: pushed_texts rest
  | _ :: rest => pushed_texts rest
  end.

(** [dispose] called [n] times in a row. *)
Fixpoint dispose_times (n : nat) : M unit :=
  match n with
  | O => ret tt
  | S k => dispose;; dispose_times k
  end.

(** The calls of [handleStreamEvent] the loop of [run] makes for a sequence
    of events, none of them awaited. *)
Fixpoint handle_events (arrivals : list Arrival) : M unit :=
  match arrivals with
  | [] => ret tt
  | a :: rest =>
      not_awaited (handleStreamEvent (arr_event a) (arr_now a));;
      handle_events rest
  end.

(** A [thread.message.delta] event carrying one text block. *)
Definition text_delta (value : string) : AssistantStreamEvent :=
  ThreadMessageDelta (Some [TextDeltaBlock (Some (Some value))]).

Definition delta_arrival (d : string * Z) : Arrival :=
  mkArrival (text_delta (fst d)) (snd d).

Definition is_delta (event : AssistantStreamEvent) : bool :=
  match event with ThreadMessageDelta _ => true | _ => false end.

(** The clock readings of the delta events that pushed the accumulated text. *)
Fixpoint delta_push_times (arrivals : list Arrival) (h : Handler) : list Z :=
  match arrivals with
  | [] => []
  | a :: rest =>
      let x := handleStreamEvent (arr_event a) (arr_now a) h in
      (if is_delta (arr_event a) && existsb is_partial_update (trace_of x)
       then [arr_now a] else [])
        ++ delta_push_times rest (handler_of x)
  end%list.

(** An event on which the loop of [run] neither breaks nor fails. *)
Definition is_plain (event : AssistantStreamEvent) : bool :=
  match event with
  | ThreadRunCompleted _ => false
  | ThreadRunFailed _ => false
  | _ => match requires_tool_outputs event with Some _ => false | None => true end
  end.

(** The effects of the [try]/[catch] around the cancellation of the run. *)
Definition cancel_effects (w : World) (h : Handler) : Trace :=
  RunsCancel (run_id h) (openAiThread_id h)
    :: match runs_cancel w (run_id h) (openAiThread_id h) with
       | None => []
       | Some error => [ConsoleError (LogCancelError error)]
       end.

(** The concatenation of a list of texts, in order. *)
Fixpoint concat_all (texts : list string) : string :=
  match texts with
  | [] => EmptyString
  | t :: rest => t ++ concat_all rest
  end.

(** The stream of a run that answers with text only: the deltas, the
    completed message, the completed run, in one iteration. *)
Definition text_run_stream (deltas : list (string * Z)) (content : list ContentBlock)
           (t_message : Z) (data : Run) (t_run : Z) : AssistantStream :=
  [mkPass (map delta_arrival deltas
             ++ [mkArrival (ThreadMessageCompleted content) t_message;
                 mkArrival (ThreadRunCompleted data) t_run])%list
          IterDone].

(** A requires-action event asking for the outputs of [toolCalls]. *)
Definition requires_action_event (id : string) (toolCalls : list ToolCall)
           (error : option string) : AssistantStreamEvent :=
  ThreadRunRequiresAction
    (mkRun id (Some (mkRequiredAction "submit_tool_outputs" toolCalls)) error).

(** ** Sample data for the scenarios *)

Module Sample.

Definition dq : string := String (ascii_of_nat 34) EmptyString.

Definition quoted (s : string) : string := dq ++ s ++ dq.

(** A serializer for the scenarios (it does not escape). *)
Fixpoint stringify (v : JsValue) : string :=
  match v with
  | JNull => "null"
  | JBool b => if b then "true" else "false"
  | JNum n => NilZero.string_of_int (Z.to_int n)
  | JStr s => quoted s
  | JArr items =>
      "[" ++ (fix go (l : list JsValue) : string :=
                match l with
                | [] => EmptyString
                | x :: r =>
                    stringify x ++ match r with [] => EmptyString | _ => "," ++ go r end
                end) items ++ "]"
  | JObj fields =>
      "{" ++ (fix go (l : list (string * JsValue)) : string :=
                match l with
                | [] => EmptyString
                | (k, x) :: r =>
                    quoted k ++ ":" ++ stringify x
                      ++ match r with [] => EmptyString | _ => "," ++ go r end
                end) fields ++ "}"
  end.

Definition weather_args : string := stringify (JObj [("query", JStr "weather")]).

(** Arguments whose query is an object that hides [toString]. *)
Definition odd_query_args : string :=
  stringify (JObj [("query", JObj [("toString", JNum 1)])]).

(** A decoder that knows the argument blobs of the scenarios. *)
Definition parse (s : string) : JsError + JsValue :=
  if (s =? weather_args)%string then inr (JObj [("query", JStr "weather")])
  else if (s =? odd_query_args)%string
  then inr (JObj [("query", JObj [("toString", JNum 1)])])
  else if (s =? "7")%string then inr (JNum 7)
  else if (s =? "null")%string then inr JNull
  else inl (mkJsError (Some "Unexpected token") "SyntaxError: Unexpected token").

Definition run_1 : Run := mkRun "run_1" None None.

Definition resumed : AssistantStream :=
  [mkPass [mkArrival (ThreadRunCompleted run_1) 50] IterDone].

(** Search answers, cancellation succeeds, a resumed run completes. *)
Definition world : World :=
  mkWorld (Some "tvly-key") parse stringify
          (fun _ _ => AxiosResolved (JObj [("answer", JStr "sunny")]))
          (fun _ _ => None)
          (fun _ _ _ => resumed).

Definition world_without_key : World :=
  mkWorld None parse stringify
          (fun _ _ => AxiosResolved JNull) (fun _ _ => None) (fun _ _ _ => resumed).

Definition world_search_down : World :=
  mkWorld (Some "tvly-key") parse stringify
          (fun _ _ => AxiosRejected (Some (429, JStr "slow down")) "Request failed")
          (fun _ _ => Some (new_Error "run already finished"))
          (fun _ _ _ => resumed).

(** The provider refuses the request with a body that hides [toString]. *)
Definition world_odd_error_body : World :=
  mkWorld (Some "tvly-key") parse stringify
          (fun _ _ => AxiosRejected (Some (500, JObj [("toString", JNum 1)])) "Request failed")
          (fun _ _ => None)
          (fun _ _ _ => resumed).

Definition reply : MessageResponse := mkMessage "messaging:c1" "m1" EmptyString.

Definition handler : Handler := new_handler "thread_1" reply.

Definition web_search_call : ToolCall := mkToolCall "call_1" "web_search" weather_args.

Definition other_tool_call : ToolCall := mkToolCall "call_2" "get_weather" weather_args.

(** Scenario B: the run asks for one web search. *)
Definition scenario_B_stream : AssistantStream :=
  [mkPass [mkArrival (requires_action_event "run_1" [web_search_call] None) 10] IterDone].

End Sample.

(** ** Sequences of method calls on one handler *)

(** A call a handler can receive: its public methods, the stop listener, and
    the two private methods the loop of [run] calls. *)
Inductive Op : Type :=
| OpDispose
| OpStopGenerating (event_message_id : option string)
| OpStreamEvent (event : AssistantStreamEvent) (now : Z)
| OpError (error : JsError)
| OpRun (assistantStream : AssistantStream) (fuel : nat).

Definition perform (w : World) (op : Op) : M unit :=
  match op with
  | OpDispose => dispose
  | OpStopGenerating event_message_id => handleStopGenerating w event_message_id
  | OpStreamEvent event now => not_awaited (handleStreamEvent event now)
  | OpError error => handleError error
  | OpRun assistantStream fuel => run w assistantStream fuel
  end.

Fixpoint perform_all (w : World) (ops : list Op) : M unit :=
  match ops with
  | [] => ret tt
  | op :: rest => perform w op;; perform_all w rest
  end.

(** ** Calls that overlap *)

(** [perform_all] runs each call to its end before the next one starts.  An
    async method in fact runs up to its next [await] and is resumed later,
    and other calls on the handler can run in between: the stop listener is
    called by the chat client while [run] waits for the stream.  A call in
    progress is given by the place it has reached: just called, suspended at
    one of its [await]s, or over. *)
Inductive CallState : Type :=
| StopCalled (event_message_id : option string)
| StopAtCancel (outcome : option JsError)
| StopAtClear
| ErrorCalled (error : JsError)
| ErrorAtSignal (error : JsError)
| ErrorAtUpdate
| DisposeCalled
| StreamEventCalled (event : AssistantStreamEvent) (now : Z)
| Over.

(** The code of a call from the place it has reached up to its next [await]
    (or its end), and the place it reaches.  [StopAtCancel] is the [await] of
    line 138, with what the cancellation will answer; [StopAtClear] that of
    line 146; [ErrorAtSignal] that of line 203; [ErrorAtUpdate] that of line
    210.  [dispose] and [handleStreamEvent] hold no [await]. *)
Definition resume (w : World) (c : CallState) : M CallState :=
  match c with
  | StopCalled event_message_id =>
      h <- get;;
      if is_done h || message_id_differs event_message_id (msg_id (message h)) then ret Over
      else
        emit (RunsCancel (run_id h) (openAiThread_id h));;
        ret (StopAtCancel (runs_cancel w (run_id h) (openAiThread_id h)))
  | StopAtCancel outcome =>
      match outcome with
      | None => ret tt
      | Some error => emit (ConsoleError (LogCancelError error))
      end;;
      h <- get;;
      emit (SendEvent "ai_indicator.clear" None (msg_cid (message h)) (msg_id (message h)));;
      ret StopAtClear
  | StopAtClear => dispose;; ret Over
  | ErrorCalled error =>
      h <- get;;
      if is_done h then ret Over
      else
        emit (SendEvent "ai_indicator.update" (Some "AI_STATE_ERROR")
                        (msg_cid (message h)) (msg_id (message h)));;
        ret (ErrorAtSignal error)
  | ErrorAtSignal error =>
      h <- get;;
      match error with
      | mkJsError message_of toString =>
          emit (PartialUpdateMessage (msg_id (message h)) (error_text message_of)
                                     (Some toString));;
          ret ErrorAtUpdate
      | JsNullish is_null =>
          throw (TypeError (if is_null
                            then "Cannot read properties of null (reading 'message')"
                            else "Cannot read properties of undefined (reading 'message')"))
      end
  | ErrorAtUpdate => dispose;; ret Over
  | DisposeCalled => dispose;; ret Over
  | StreamEventCalled event now => handleStreamEvent event now;; ret Over
  | Over => ret Over
  end.

(** A call resumed again and again, with nothing in between. *)
Fixpoint resume_to_end (w : World) (steps : nat) (c : CallState) : M unit :=
  match steps with
  | O => ret tt
  | S n => c' <- resume w c;; resume_to_end w n c'
  end.

Fixpoint replace_nth {A} (i : nat) (x : A) (l : list A) : list A :=
  match l, i with
  | [], _ => []
  | _ :: rest, O => x :: rest
  | y :: rest, S j => y :: replace_nth j x rest
  end.

(** The calls in progress on one handler, resumed in the order a schedule
    gives (each entry names the call to resume by its position).  A call that
    throws is over: its promise is rejected, the other calls go on. *)
Fixpoint interleave (w : World) (calls : list CallState) (schedule : list nat)
  : M (list CallState) :=
  match schedule with
  | [] => ret calls
  | i :: later =>
      match nth_error calls i with
      | Some c =>
          c' <- try_catch (resume w c) (fun _ => ret Over);;
          interleave w (replace_nth i c' calls) later
      | None => interleave w calls later
      end
  end.

Definition just_called (c : CallState) : bool :=
  match c with
  | StopCalled _ => true
  | ErrorCalled _ => true
  | DisposeCalled => true
  | StreamEventCalled _ _ => true
  | _ => false
  end.

(** The terminal calls a call in progress can still make on a handler that
    is disposed or not: a call that has not made its test of [is_done] makes
    none on a disposed handler. *)
Definition terminal_left (done : bool) (c : CallState) : nat :=
  match c with
  | StopCalled _ => if done then 0 else 1
  | ErrorCalled _ => if done then 0 else 1
  | ErrorAtSignal _ => 1
  | _ => 0
  end.

(** The calls that end a reply: the cancellation of the run and the
    overwrite of the text by [handleError] (the update that carries the
    diagnostic field). *)
Definition is_terminal (e : Effect) : bool :=
  match e with
  | RunsCancel _ _ => true
  | PartialUpdateMessage _ _ (Some _) => true
  | _ => false
  end.

(** The effect, when it names a channel or a message, names these. *)
Definition addressed_to (cid id : string) (e : Effect) : Prop :=
  match e with
  | SendEvent _ _ c m => c = cid /\ m = id
  | PartialUpdateMessage i _ _ => i = id
  | _ => True
  end.

(** The effect is a call on the thread the handler was built with. *)
Definition on_thread (thread_id : string) (e : Effect) : Prop :=
  match e with
  | RunsCancel _ t => t = thread_id
  | SubmitToolOutputsStream _ t _ => t = thread_id
  | _ => True
  end.

(** The text a stream event appends to the message: the value of the first
    content block of a delta when that block is a text block with its text
    object. *)
Definition appended_text (event : AssistantStreamEvent) : option string :=
  match event with
  | ThreadMessageDelta content =>
      match first_delta content with
      | Some (TextDeltaBlock (Some value)) => Some (value_or_empty value)
      | _ => None
      end
  | _ => None
  end.



(** The effect is a console call or the search request. *)
Definition is_search_effect (e : Effect) : bool :=
  match e with
  | AxiosPost _ _ _ => true
  | ConsoleLog _ => true
  | ConsoleError _ => true
  | _ => false
  end.

(** The search request a call of [web_search] leads to, with the key [key]:
    none when its arguments do not decode or the query cannot be printed. *)
Definition call_requests (w : World) (key : string) (toolCall : ToolCall) : list Effect :=
  match JSON_parse w (tc_function_arguments toolCall) with
  | inl _ => []
  | inr JNull => []
  | inr (JObj fields) =>
      match find (fun field => ("query" =? fst field)%string) fields with
      | Some (_, query) =>
          if converts_to_string query
          then [AxiosPost "https://api.tavily.com/search" (Some query) ("Bearer " ++ key)]
          else []
      | None => [AxiosPost "https://api.tavily.com/search" None ("Bearer " ++ key)]
      end
  | inr _ => [AxiosPost "https://api.tavily.com/search" None ("Bearer " ++ key)]
  end.

(** The run identifier once the [for await] loop of [run] has gone over a
    sequence of events: [handleStreamEvent] takes that of a
    [thread.run.created] event, the loop itself that of an event that asks
    for tool outputs (line 56), where it breaks, as it does on the end of the
    run. *)
Fixpoint tracked_run_id (events : list Arrival) (current : string) : string :=
  match events with
  | [] => current
  | a :: rest =>
      match arr_event a with
      | ThreadRunCreated data => tracked_run_id rest (run_data_id data)
      | ThreadRunRequiresAction data =>
          match required_action data with
          | Some ra =>
              if (ra_type ra =? "submit_tool_outputs")%string then run_data_id data
              else tracked_run_id rest current
          | None => tracked_run_id rest current
          end
      | ThreadRunCompleted _ => current
      | ThreadRunFailed _ => current
      | _ => tracked_run_id rest current
      end
  end.

(** What a method keeps, from the handler [h] it starts on to the handler
    [h'] it leaves and the calls [t] it made: the reply message and the
    thread are the same; a disposed handler stays disposed; the disposal
    callback is invoked once when the handler goes from live to disposed and
    not otherwise, with a deregistration each time; a terminal call is made
    only along with a disposal; and the calls name the handler's own message
    and thread. *)
Definition keeps (h h' : Handler) (t : Trace) : Prop :=
  msg_id (message h') = msg_id (message h)
  /\ msg_cid (message h') = msg_cid (message h)
  /\ openAiThread_id h' = openAiThread_id h
  /\ (is_done h = true -> is_done h' = true)
  /\ count is_on_dispose t = (if is_done h then 0 else if is_done h' then 1 else 0)%nat
  /\ count is_off t = count is_on_dispose t
  /\ (count is_terminal t <= count is_on_dispose t)%nat
  /\ Forall (addressed_to (msg_cid (message h)) (msg_id (message h))) t
  /\ Forall (on_thread (openAiThread_id h)) t.

Definition kept_at {A} (m : M A) (h : Handler) : Prop :=
  keeps h (handler_of (m h)) (trace_of (m h)).

(** ** The agent *)

(** [OpenAIAgent] (src/unnamed/part_001): it owns the assistant and the
    thread, listens for new chat messages and builds one response handler per
    reply.  Handler objects live in a store and are named by their position
    in it; the agent's [handlers] array holds such names.  The calls on the
    OpenAI API can reject; the calls on the chat platform are taken to
    resolve, as for the handler. *)
Module Agent.

(** [e.message] of a [message.new] event: its text, its [ai_generated] mark,
    and its [custom] object with the optional [writingTask]. *)
Record NewMessage : Type := mkNewMessage {
  nm_text : option string;
  nm_ai_generated : option bool;
  nm_custom : option (option string)
}.

(** A handler object: its fields and the stream it was built with. *)
Record HandlerObject : Type := mkHandlerObject {
  ho_fields : Handler;
  ho_assistantStream : AssistantStream
}.

(** The fields of the agent; the clients are named by the key or the
    identifier they were obtained with. *)
Record OpenAIAgent : Type := mkAgent {
  openAI : option string;
  assistant : option string;
  openAIThread : option string;
  lastInteractions : Z;
  handlers : list nat
}.

Record Process : Type := mkProcess {
  agent : OpenAIAgent;
  objects : list HandlerObject
}.

Inductive AgentEffect : Type :=
| ChatClientOn (event_type : string)
| ChatClientOffAgent (event_type : string)
| DisconnectUser
| AssistantsCreate (name instructions model : string)
| ThreadsCreate
| MessagesCreate (thread_id role content : string)
| ChannelSendMessage (text : string) (ai_generated : bool)
| ChannelSendEvent (type : string) (ai_state : option string) (cid message_id : string)
| CreateAndStream (thread_id assistant_id : string)
| HandlerOn (ref : nat) (event_type : string)
| HandlerCall (ref : nat) (e : Effect)
| AgentConsoleLog (text : string).

Record AgentWorld : Type := mkAgentWorld {
  OPENAI_API_KEY : option string;
  assistants_create : JsError + string;
  threads_create : JsError + string;
  messages_create : string -> string -> option JsError;
  sendMessage : MessageResponse;
  createAndStream : string -> string -> AssistantStream;
  currentDate : string
}.

(** The monad of agent methods, over the process. *)
Definition P (X : Type) : Type := Process -> Result X * Process * list AgentEffect.

Definition p_ret {X} (x : X) : P X := fun p => (Ok x, p, []).

Definition p_bind {X Y} (m : P X) (k : X -> P Y) : P Y :=
  fun p =>
    match m p with
    | (Ok x, p1, t1) =>
        match k x p1 with
        | (r, p2, t2) => (r, p2, (t1 ++ t2)%list)
        end
    | (Throw e, p1, t1) => (Throw e, p1, t1)
    | (OutOfFuel, p1, t1) => (OutOfFuel, p1, t1)
    end.

Declare Scope agent_scope.
Delimit Scope agent_scope with agent.
Notation "x <- c1 ;; c2" := (p_bind c1 (fun x => c2))
  (at level 61, c1 at next level, right associativity) : agent_scope.
Notation "c1 ;; c2" := (p_bind c1 (fun _ => c2))
  (at level 61, right associativity) : agent_scope.
Open Scope agent_scope.

Definition p_throw {X} (e : JsError) : P X := fun p => (Throw e, p, []).
Definition p_emit (e : AgentEffect) : P unit := fun p => (Ok tt, p, [e]).
Definition p_get : P Process := fun p => (Ok p, p, []).
Definition modify_agent (f : OpenAIAgent -> OpenAIAgent) : P unit :=
  fun p => (Ok tt, mkProcess (f (agent p)) (objects p), []).

Definition set_openAI (v : option string) (a : OpenAIAgent) : OpenAIAgent :=
  mkAgent v (assistant a) (openAIThread a) (lastInteractions a) (handlers a).

Definition set_assistant (v : option string) (a : OpenAIAgent) : OpenAIAgent :=
  mkAgent (openAI a) v (openAIThread a) (lastInteractions a) (handlers a).

Definition set_openAIThread (v : option string) (a : OpenAIAgent) : OpenAIAgent :=
  mkAgent (openAI a) (assistant a) v (lastInteractions a) (handlers a).

Definition set_lastInteractions (v : Z) (a : OpenAIAgent) : OpenAIAgent :=
  mkAgent (openAI a) (assistant a) (openAIThread a) v (handlers a).

Definition set_handlers (v : list nat) (a : OpenAIAgent) : OpenAIAgent :=
  mkAgent (openAI a) (assistant a) (openAIThread a) (lastInteractions a) v.

(** The agent as its constructor leaves it; [now] is what [Date.now()]
    returns when the field initialiser runs. *)
Definition new_agent (now : Z) : OpenAIAgent := mkAgent None None None now [].

Definition new_process (now : Z) : Process := mkProcess (new_agent now) [].


Definition double_quote : string := String (ascii_of_nat 34) EmptyString.

Definition prompt_head : string :=
"You are an expert AI Writing Assistant. Your primary purpose is to be a collaborative writing partner.

**Your Core Capabilities:**
- Content Creation, Improvement, Style Adaptation, Brainstorming, and Writing Coaching.
- **Web Search**: You have the ability to search the web for up-to-date information using the 'web_search' tool.
- **Current Date**: Today's date is ".

Definition prompt_middle : string :=
". Please use this for any time-sensitive queries.

**Crucial Instructions:**
1.  **ALWAYS use the 'web_search' tool when the user asks for current information, news, or facts.** Your internal knowledge is outdated.
2.  When you use the 'web_search' tool, you will receive a JSON object with search results. **You MUST base your response on the information provided in that search result.** Do not rely on your pre-existing knowledge for topics that require current information.
3.  Synthesize the information from the web search to provide a comprehensive and accurate answer. Cite sources if the results include URLs.

**Response Format:**
- Be direct and production-ready.
- Use clear formatting.
- Never begin responses with phrases like " ++ double_quote ++ "Here's the edit:" ++ double_quote
++ ", " ++ double_quote ++ "Here are the changes:" ++ double_quote
++ ", or similar introductory statements.
- Provide responses directly and professionally without unnecessary preambles.

**Writing Context**: ".

Definition prompt_tail : string :=
"

Your goal is to provide accurate, current, and helpful written content. Failure to use web search for recent topics will result in an incorrect answer.".

(** [context || "General writing assistance."] *)
Definition context_or_default (context : option string) : string :=
  match context with
  | Some c => if (c =? EmptyString)%string then "General writing assistance." else c
  | None => "General writing assistance."
  end.

(** [getWritingAssistantPrompt] (lines 132-160); [date] is the current date
    as [toLocaleDateString] formats it. *)
Definition getWritingAssistantPrompt (date : string) (context : option string) : string :=
  prompt_head ++ date ++ prompt_middle ++ context_or_default context ++ prompt_tail.

(** [!apiKey] *)
Definition configured_api_key (aw : AgentWorld) : option string :=
  match OPENAI_API_KEY aw with
  | Some key => if (key =? EmptyString)%string then None else Some key
  | None => None
  end.

(** [init] (lines 33-71).  The assistant is created with the tools
    [code_interpreter] and the function [web_search] (one required string
    parameter [query]) and temperature 0.7. *)
Definition init (aw : AgentWorld) : P unit :=
  match configured_api_key aw with
  | None => p_throw (new_Error "Open AI API Key is required")
  | Some apiKey =>
      modify_agent (set_openAI (Some apiKey));;
      p_emit (AssistantsCreate "AI Writing Assistant"
                (getWritingAssistantPrompt (currentDate aw) None) "gpt-4.1");;
      match assistants_create aw with
      | inl e => p_throw e
      | inr assistant_id =>
          modify_agent (set_assistant (Some assistant_id));;
          p_emit ThreadsCreate;;
          match threads_create aw with
          | inl e => p_throw e
          | inr thread_id =>
              modify_agent (set_openAIThread (Some thread_id));;
              p_emit (ChatClientOn "message.new")
          end
      end
  end.

(** [removeHandler] (lines 162-166): handlers are compared by identity. *)
Definition removeHandler (handlerToRemove : nat) (a : OpenAIAgent) : OpenAIAgent :=
  set_handlers (filter (fun handler => negb (handler =? handlerToRemove)%nat) (handlers a)) a.

(** [writingTask ? `Writing Task: ${writingTask}` : undefined] *)
Definition writing_context (custom : option (option string)) : option string :=
  match custom with
  | Some (Some writingTask) =>
      if (writingTask =? EmptyString)%string then None
      else Some ("Writing Task: " ++ writingTask)
  | _ => None
  end.

(** [new OpenAIResponseHandler(...)]: the object is stored under a new name
    and its constructor registers the stop listener. *)
Definition new_OpenAIResponseHandler (thread_id : string) (stream : AssistantStream)
           (channelMessage : MessageResponse) : P nat :=
  fun p =>
    (Ok (List.length (objects p)),
     mkProcess (agent p)
               (objects p ++ [mkHandlerObject (new_handler thread_id channelMessage) stream]),
     [HandlerOn (List.length (objects p)) "ai_indicator.stop"]).

(** [handleMessage] (lines 73-130); [now] is what [Date.now()] returns.  The
    handler's [run] is started and not awaited: it makes no call before the
    stream yields, and goes on as [run_handler]. *)
Definition handleMessage (aw : AgentWorld) (e_message : option NewMessage) (now : Z) : P unit :=
  p <- p_get;;
  match openAI (agent p), openAIThread (agent p), assistant (agent p) with
  | Some _, Some thread_id, Some assistant_id =>
      match e_message with
      | None => p_ret tt
      | Some m =>
          match nm_ai_generated m with
          | Some true => p_ret tt
          | _ =>
              match nm_text m with
              | None => p_ret tt
              | Some message =>
                  if (message =? EmptyString)%string then p_ret tt
                  else
                    modify_agent (set_lastInteractions now);;
                    let context := writing_context (nm_custom m) in
                    let insturctions := getWritingAssistantPrompt (currentDate aw) context in
                    p_emit (MessagesCreate thread_id "user" message);;
                    match messages_create aw thread_id message with
                    | Some error => p_throw error
                    | None =>
                        p_emit (ChannelSendMessage EmptyString true);;
                        let channelMessage := sendMessage aw in
                        p_emit (ChannelSendEvent "ai_indicator.update"
                                  (Some "AI_STATE_THINKING")
                                  (msg_cid channelMessage) (msg_id channelMessage));;
                        p_emit (CreateAndStream thread_id assistant_id);;
                        handler <- new_OpenAIResponseHandler thread_id
                                     (createAndStream aw thread_id assistant_id)
                                     channelMessage;;
                        modify_agent
                          (fun a => set_handlers (handlers a ++ [handler])%list a)
                    end
              end
          end
      end
  | _, _, _ => p_emit (AgentConsoleLog "AI is not initialized")
  end.

(** The object stored under [ref], with its fields replaced. *)
Fixpoint store (ref : nat) (h : Handler) (objs : list HandlerObject) : list HandlerObject :=
  match objs, ref with
  | [], _ => []
  | o :: rest, O => mkHandlerObject h (ho_assistantStream o) :: rest
  | o :: rest, S k => o :: store k h rest
  end.

(** The disposal callback the agent gives a handler:
    [() => this.removeHandler(handler)], run for each [onDispose] call. *)
Definition run_callbacks (ref : nat) (t : Trace) (a : OpenAIAgent) : OpenAIAgent :=
  fold_left (fun a' e => if is_on_dispose e then removeHandler ref a' else a') t a.

(** A method of the handler stored under [ref]: its calls are the handler's,
    and its disposal callback acts on the agent. *)
Definition on_handler (ref : nat) (m : M unit) : P unit :=
  fun p =>
    match nth_error (objects p) ref with
    | None => (Ok tt, p, [])
    | Some o =>
        match m (ho_fields o) with
        | (r, h', t) =>
            (r, mkProcess (run_callbacks ref t (agent p)) (store ref h' (objects p)),
             map (HandlerCall ref) t)
        end
    end.

(** [handler.run()] going on, for the handler stored under [ref]. *)
Definition run_handler (w : World) (ref : nat) (fuel : nat) : P unit :=
  fun p =>
    match nth_error (objects p) ref with
    | None => (Ok tt, p, [])
    | Some o => on_handler ref (run w (ho_assistantStream o) fuel) p
    end.

(** [this.handlers.forEach((handler) => handler.dispose())]: the array is
    the one the loop started with; the promises are dropped. *)
Fixpoint forEach_dispose (refs : list nat) : P unit :=
  match refs with
  | [] => p_ret tt
  | ref :: rest =>
      (fun p =>
         match on_handler ref dispose p with
         | (_, p1, t1) => (Ok tt, p1, t1)
         end);;
      forEach_dispose rest
  end.

(** [dispose] (lines 19-25) *)
Definition dispose : P unit :=
  p_emit (ChatClientOffAgent "message.new");;
  p_emit DisconnectUser;;
  p <- p_get;;
  forEach_dispose (handlers (agent p));;
  modify_agent (set_handlers []).

Definition result_in {X} (x : Result X * Process * list AgentEffect) : Result X :=
  fst (fst x).
Definition process_after {X} (x : Result X * Process * list AgentEffect) : Process :=
  snd (fst x).
Definition calls_of {X} (x : Result X * Process * list AgentEffect) : list AgentEffect :=
  snd x.

(** The agent has its client, its assistant and its thread. *)
Definition initialized (a : OpenAIAgent) : bool :=
  match openAI a, openAIThread a, assistant a with
  | Some _, Some _, Some _ => true
  | _, _, _ => false
  end.

(** The fields of the handler stored under [ref]. *)
Definition fields_at (ref : nat) (p : Process) : option Handler :=
  option_map ho_fields (nth_error (objects p) ref).

(** What the process can be asked to do. *)
Inductive ProcessOp : Type :=
| DoInit
| DoMessage (e_message : option NewMessage) (now : Z)
| DoHandler (ref : nat) (ops : list Op)
| DoRun (ref : nat) (fuel : nat)
| DoDispose.

Definition step (w : World) (aw : AgentWorld) (op : ProcessOp) (p : Process) : Process :=
  match op with
  | DoInit => snd (fst (init aw p))
  | DoMessage e_message now => snd (fst (handleMessage aw e_message now p))
  | DoHandler ref ops => snd (fst (on_handler ref (perform_all w ops) p))
  | DoRun ref fuel => snd (fst (run_handler w ref fuel p))
  | DoDispose => snd (fst (dispose p))
  end.

Definition steps (w : World) (aw : AgentWorld) (ops : list ProcessOp) (p : Process) : Process :=
  fold_left (fun p' op => step w aw op p') ops p.

(** Every handler the agent holds is stored, is not disposed, and is held
    once. *)
Definition holds_live_handlers (p : Process) : Prop :=
  NoDup (handlers (agent p))
  /\ forall ref, In ref (handlers (agent p)) ->
                 exists o, nth_error (objects p) ref = Some o
                           /\ is_done (ho_fields o) = false.

Close Scope agent_scope.

End Agent.

Module AgentSample.

Definition reply : MessageResponse := mkMessage "messaging:c1" "m1" EmptyString.

Definition stream : AssistantStream :=
  [mkPass [mkArrival (ThreadRunCreated Sample.run_1) 5000;
           mkArrival (text_delta "Hi") 5010;
           mkArrival (ThreadMessageCompleted [TextContent "Hi"]) 5020;
           mkArrival (ThreadRunCompleted Sample.run_1) 5030] IterDone].

Definition world : Agent.AgentWorld :=
  Agent.mkAgentWorld (Some "sk-key") (inr "asst_1") (inr "thread_1")
                     (fun _ _ => None) reply (fun _ _ => stream) "November 3, 2026".

Definition world_without_key : Agent.AgentWorld :=
  Agent.mkAgentWorld None (inr "asst_1") (inr "thread_1")
                     (fun _ _ => None) reply (fun _ _ => stream) "November 3, 2026".

Definition ready : Agent.Process :=
  Agent.mkProcess (Agent.mkAgent (Some "sk-key") (Some "asst_1") (Some "thread_1") 1000 []) [].

Definition user_message : Agent.NewMessage :=
  Agent.mkNewMessage (Some "Write a haiku") None (Some (Some "poem")).

End AgentSample.

(** ** Disposal *)

Lemma dispose_fresh (h : Handler) :
  is_done h = false ->
  dispose h = (Ok tt, set_is_done true h, [ChatClientOff "ai_indicator.stop"; OnDispose]).
Proof.
  intros Hd. unfold dispose, bind, get, modify, emit. rewrite Hd. reflexivity.
Qed.

Lemma dispose_done (h : Handler) :
  is_done h = true -> dispose h = (Ok tt, h, []).
Proof.
  intros Hd. unfold dispose, bind, get, ret. rewrite Hd. reflexivity.
Qed.

Lemma dispose_times_done (n : nat) (h : Handler) :
  is_done h = true -> dispose_times n h = (Ok tt, h, []).
Proof.
  intros Hd. induction n as [|n IH]; [reflexivity|].
  cbn [dispose_times]. unfold bind. rewrite (dispose_done h Hd), IH. reflexivity.
Qed.

(** C9. [dispose] is idempotent: however many times it is called on a handler
    that is not yet disposed, the stop listener is deregistered once and the
    disposal callback is invoked once, both by the first call; a call on a
    disposed handler changes nothing and has no effect. *)
Theorem dispose_idempotent (h : Handler) (n : nat) :
  is_done h = false ->
  dispose_times (S n) h
    = (Ok tt, set_is_done true h, [ChatClientOff "ai_indicator.stop"; OnDispose])
  /\ count is_on_dispose (trace_of (dispose_times (S n) h)) = 1%nat
  /\ count is_off (trace_of (dispose_times (S n) h)) = 1%nat
  /\ dispose (handler_of (dispose h)) = (Ok tt, handler_of (dispose h), []).
Proof.
  intros Hd.
  assert (E : dispose_times (S n) h
              = (Ok tt, set_is_done true h, [ChatClientOff "ai_indicator.stop"; OnDispose])).
  { cbn [dispose_times]. unfold bind. rewrite (dispose_fresh h Hd).
    rewrite dispose_times_done by reflexivity. reflexivity. }
  rewrite E. repeat split.
  rewrite (dispose_fresh h Hd). apply dispose_done. reflexivity.
Qed.

Lemma dispose_idempotent_witness :
  dispose_times 2 Sample.handler
    = (Ok tt, set_is_done true Sample.handler,
       [ChatClientOff "ai_indicator.stop"; OnDispose])
  /\ count is_on_dispose (trace_of (dispose_times 2 Sample.handler)) = 1%nat
  /\ count is_off (trace_of (dispose_times 2 Sample.handler)) = 1%nat
  /\ dispose (handler_of (dispose Sample.handler))
     = (Ok tt, handler_of (dispose Sample.handler), []).
Proof. apply (dispose_idempotent Sample.handler 1). reflexivity. Defined.

(** ** Cancellation *)

Lemma message_id_differs_false (mid : option string) (id : string) :
  message_id_differs mid id = false <-> mid = Some id.
Proof.
  destruct mid as [m|]; cbn.
  - rewrite negb_false_iff, String.eqb_eq. split; congruence.
  - split; discriminate.
Qed.

(** C8. A stop-generating signal does nothing when the handler is disposed or
    when the signal names another message.  Otherwise the run is cancelled
    (a failure of the cancellation is logged and goes no further), then the
    indicator of this message is cleared, then the handler is disposed. *)
Theorem handleStopGenerating_contract (w : World) (mid : option string) (h : Handler) :
  (is_done h = true \/ mid <> Some (msg_id (message h)) ->
   handleStopGenerating w mid h = (Ok tt, h, []))
  /\ (is_done h = false /\ mid = Some (msg_id (message h)) ->
      handleStopGenerating w mid h
      = (Ok tt, set_is_done true h,
         cancel_effects w h
           ++ [SendEvent "ai_indicator.clear" None (msg_cid (message h)) (msg_id (message h));
               ChatClientOff "ai_indicator.stop";
               OnDispose])%list).
Proof.
  split.
  - intros Hc. unfold handleStopGenerating, bind, get.
    assert (G : is_done h || message_id_differs mid (msg_id (message h)) = true).
    { destruct Hc as [Hd | Hm]; [rewrite Hd; reflexivity|].
      apply orb_true_iff. right.
      destruct (message_id_differs mid (msg_id (message h))) eqn:E; [reflexivity|].
      apply message_id_differs_false in E. contradiction. }
    rewrite G. reflexivity.
  - intros [Hd Hm]. apply message_id_differs_false in Hm.
    unfold handleStopGenerating, bind, get, try_catch, cancel_run, cancel_effects, emit.
    cbn. rewrite Hd, Hm. cbn.
    destruct (runs_cancel w (run_id h) (openAiThread_id h)) as [error|]; cbn;
      unfold dispose, bind, get, modify, emit; rewrite Hd; reflexivity.
Qed.

Example stop_generating_other_message :
  handleStopGenerating Sample.world (Some "m2") Sample.handler
  = (Ok tt, Sample.handler, []).
Proof. reflexivity. Qed.

Example stop_generating_cancel_fails :
  handleStopGenerating Sample.world_search_down (Some "m1") Sample.handler
  = (Ok tt, set_is_done true Sample.handler,
     [RunsCancel EmptyString "thread_1";
      ConsoleError (LogCancelError (new_Error "run already finished"));
      SendEvent "ai_indicator.clear" None "messaging:c1" "m1";
      ChatClientOff "ai_indicator.stop";
      OnDispose]).
Proof. reflexivity. Qed.

(** ** Handling of stream events *)

Lemma handleStreamEvent_completed (block : ContentBlock) (rest : list ContentBlock)
      (now : Z) (h : Handler) :
  handleStreamEvent (ThreadMessageCompleted (block :: rest)) now h
  = (Ok tt, h,
     [PartialUpdateMessage (msg_id (message h))
        (match block with
         | TextContent value => value
         | OtherContent _ => msg_text (message h)
         end) None;
      SendEvent "ai_indicator.clear" None (msg_cid (message h)) (msg_id (message h))]).
Proof. reflexivity. Qed.

Lemma handleStreamEvent_completed_empty (now : Z) (h : Handler) :
  handleStreamEvent (ThreadMessageCompleted []) now h
  = (Throw (TypeError "Cannot read properties of undefined (reading 'type')"), h, []).
Proof. reflexivity. Qed.

(** C10. The first content block of a message-completed event is read without
    a test.  When the content array is not empty the read succeeds: the
    handler returns normally, having pushed the final text and cleared the
    indicator.  The read fails, and nothing is pushed, only for an empty
    array. *)
Theorem message_completed_needs_content (content : list ContentBlock) (now : Z) (h : Handler) :
  content <> [] ->
  (exists block, nth_error content 0 = Some block)
  /\ result_of (handleStreamEvent (ThreadMessageCompleted content) now h) = Ok tt
  /\ (exists text,
        trace_of (handleStreamEvent (ThreadMessageCompleted content) now h)
        = [PartialUpdateMessage (msg_id (message h)) text None;
           SendEvent "ai_indicator.clear" None (msg_cid (message h)) (msg_id (message h))])
  /\ (forall now' h',
        result_of (handleStreamEvent (ThreadMessageCompleted []) now' h')
        = Throw (TypeError "Cannot read properties of undefined (reading 'type')")
        /\ trace_of (handleStreamEvent (ThreadMessageCompleted []) now' h') = []).
Proof.
  intros Hne. destruct content as [|block rest]; [contradiction|].
  rewrite handleStreamEvent_completed. cbn.
  repeat split; eauto.
Qed.

Lemma message_completed_needs_content_witness :
  (exists block, nth_error [TextContent "Hello world!"] 0 = Some block)
  /\ result_of (handleStreamEvent (ThreadMessageCompleted [TextContent "Hello world!"])
                                  5040 Sample.handler) = Ok tt
  /\ (exists text,
        trace_of (handleStreamEvent (ThreadMessageCompleted [TextContent "Hello world!"])
                                    5040 Sample.handler)
        = [PartialUpdateMessage (msg_id (message Sample.handler)) text None;
           SendEvent "ai_indicator.clear" None (msg_cid (message Sample.handler))
                     (msg_id (message Sample.handler))])
  /\ (forall now' h',
        result_of (handleStreamEvent (ThreadMessageCompleted []) now' h')
        = Throw (TypeError "Cannot read properties of undefined (reading 'type')")
        /\ trace_of (handleStreamEvent (ThreadMessageCompleted []) now' h') = []).
Proof.
  apply (message_completed_needs_content [TextContent "Hello world!"] 5040 Sample.handler).
  discriminate.
Defined.

(** C3, as the code has it.  [handleStopGenerating] and [handleError] test
    the disposed flag first and do nothing on a disposed handler.
    [handleStreamEvent] does not test it: on a disposed handler a
    message-completed event still pushes a message update and sends a channel
    event, and a text delta still pushes the accumulated text once the
    throttle allows it. *)
Theorem stream_event_after_disposal (w : World) (h : Handler)
        (value : string) (rest : list ContentBlock) (now : Z) :
  is_done (set_is_done true h) = true
  /\ handleStopGenerating w (Some (msg_id (message h))) (set_is_done true h)
     = (Ok tt, set_is_done true h, [])
  /\ handleError (new_Error value) (set_is_done true h) = (Ok tt, set_is_done true h, [])
  /\ handleStreamEvent (ThreadMessageCompleted (TextContent value :: rest)) now
                       (set_is_done true h)
     = (Ok tt, set_is_done true h,
        [PartialUpdateMessage (msg_id (message h)) value None;
         SendEvent "ai_indicator.clear" None (msg_cid (message h)) (msg_id (message h))])
  /\ trace_of (handleStreamEvent (text_delta value)
                                 (last_update_time h + 1001) (set_is_done true h))
     = [PartialUpdateMessage (msg_id (message h)) (msg_text (message h) ++ value) None].
Proof.
  repeat split.
  unfold handleStreamEvent, text_delta, bind, get, modify, emit, trace_of. cbn.
  replace (last_update_time h + 1001 - last_update_time h >? 1000) with true
    by (symmetry; apply Z.gtb_lt; lia).
  reflexivity.
Qed.

Example late_delta_is_pushed :
  handleStreamEvent (text_delta "late") 5000 (set_is_done true Sample.handler)
  = (Ok tt,
     set_chunk_counter 1
       (set_last_update_time 5000
          (set_message_text_field "late" (set_is_done true Sample.handler))),
     [PartialUpdateMessage "m1" "late" None]).
Proof. reflexivity. Qed.

(** A stop signal handled before the stream yields its events: the handler
    is disposed, and the events that follow are still pushed. *)
Example events_after_stop_are_still_pushed :
  bind (handleStopGenerating Sample.world (Some "m1"))
       (fun _ =>
          run Sample.world
              [mkPass [mkArrival (ThreadMessageCompleted [TextContent "Hello"]) 5040;
                       mkArrival (ThreadRunCompleted Sample.run_1) 5050] IterDone]
              1)
       Sample.handler
  = (Ok tt, set_is_done true Sample.handler,
     [RunsCancel EmptyString "thread_1";
      SendEvent "ai_indicator.clear" None "messaging:c1" "m1";
      ChatClientOff "ai_indicator.stop";
      OnDispose;
      PartialUpdateMessage "m1" "Hello" None;
      SendEvent "ai_indicator.clear" None "messaging:c1" "m1"]).
Proof. reflexivity. Qed.

(** ** The event loop on events that do not leave it *)

Lemma handleStreamEvent_returns (event : AssistantStreamEvent) (now : Z) (h : Handler) :
  result_of (handleStreamEvent event now h) <> OutOfFuel.
Proof.
  destruct event as [d|c|c|s|d|d|d|t]; cbn; try discriminate.
  - destruct c as [[|[[v|]|ty] bs]|]; cbn; try discriminate.
    destruct (now - last_update_time h >? 1000); cbn; discriminate.
  - destruct c; cbn; discriminate.
  - destruct s; cbn; discriminate.
Qed.

Lemma not_awaited_handleStreamEvent (event : AssistantStreamEvent) (now : Z) (h : Handler) :
  not_awaited (handleStreamEvent event now) h
  = (Ok tt, handler_of (handleStreamEvent event now h),
     trace_of (handleStreamEvent event now h)).
Proof.
  pose proof (handleStreamEvent_returns event now h) as Hr.
  unfold not_awaited, result_of, handler_of, trace_of in *.
  destruct (handleStreamEvent event now h) as [[[[]|e|] h1] t1]; cbn in *;
    try reflexivity; contradiction.
Qed.

Lemma handleStreamEvent_keeps (event : AssistantStreamEvent) (now : Z) (h : Handler) :
  is_done (handler_of (handleStreamEvent event now h)) = is_done h
  /\ msg_id (message (handler_of (handleStreamEvent event now h))) = msg_id (message h)
  /\ msg_cid (message (handler_of (handleStreamEvent event now h))) = msg_cid (message h).
Proof.
  destruct event as [d|c|c|s|d|d|d|t]; cbn; auto.
  - destruct c as [[|[[v|]|ty] bs]|]; cbn; auto.
    destruct (now - last_update_time h >? 1000); cbn; auto.
  - destruct c; cbn; auto.
  - destruct s; cbn; auto.
Qed.

Lemma handle_events_cons (a : Arrival) (rest : list Arrival) (h : Handler) :
  handle_events (a :: rest) h
  = (result_of (handle_events rest (handler_of (handleStreamEvent (arr_event a) (arr_now a) h))),
     handler_of (handle_events rest (handler_of (handleStreamEvent (arr_event a) (arr_now a) h))),
     (trace_of (handleStreamEvent (arr_event a) (arr_now a) h)
        ++ trace_of (handle_events rest
                       (handler_of (handleStreamEvent (arr_event a) (arr_now a) h))))%list).
Proof.
  cbn [handle_events]. unfold bind. rewrite not_awaited_handleStreamEvent.
  unfold result_of, handler_of, trace_of.
  destruct (handle_events rest (snd (fst (handleStreamEvent (arr_event a) (arr_now a) h))))
    as [[r h2] t2]. reflexivity.
Qed.

Lemma handle_events_returns (arrivals : list Arrival) (h : Handler) :
  result_of (handle_events arrivals h) = Ok tt
  /\ is_done (handler_of (handle_events arrivals h)) = is_done h
  /\ msg_id (message (handler_of (handle_events arrivals h))) = msg_id (message h)
  /\ msg_cid (message (handler_of (handle_events arrivals h))) = msg_cid (message h).
Proof.
  revert h. induction arrivals as [|a rest IH]; intros h; [cbn; auto|].
  rewrite handle_events_cons. cbn [result_of handler_of fst snd].
  destruct (IH (handler_of (handleStreamEvent (arr_event a) (arr_now a) h)))
    as (R & D & I & C).
  destruct (handleStreamEvent_keeps (arr_event a) (arr_now a) h) as (D' & I' & C').
  repeat split; congruence.
Qed.

Lemma handle_events_eq (arrivals : list Arrival) (h : Handler) :
  handle_events arrivals h
  = (Ok tt, handler_of (handle_events arrivals h), trace_of (handle_events arrivals h)).
Proof.
  pose proof (handle_events_returns arrivals h) as (R & _).
  unfold result_of, handler_of, trace_of in *.
  destruct (handle_events arrivals h) as [[r h1] t1]. cbn in *. congruence.
Qed.

Lemma for_await_cons_plain (w : World) (a : Arrival) (rest : list Arrival)
      (iter_end : IterationEnd) (l : Locals) (h : Handler) :
  is_plain (arr_event a) = true ->
  toolOutputs l = [] ->
  isCompleted l = false ->
  for_await w (a :: rest) iter_end l h
  = bind (not_awaited (handleStreamEvent (arr_event a) (arr_now a)))
         (fun _ => for_await w rest iter_end l) h.
Proof.
  intros Hp Ht Hc. cbn [for_await]. destruct a as [event now]. cbn [arr_event arr_now] in *.
  unfold is_plain in Hp.
  destruct (requires_tool_outputs event) as [[d c]|] eqn:R.
  - destruct event; discriminate.
  - destruct event; try discriminate; rewrite Hc, Ht; reflexivity.
Qed.

Lemma for_await_plain (w : World) (arrivals tail : list Arrival)
      (iter_end : IterationEnd) (l : Locals) (h : Handler) :
  forallb (fun a => is_plain (arr_event a)) arrivals = true ->
  toolOutputs l = [] ->
  isCompleted l = false ->
  for_await w (arrivals ++ tail) iter_end l h
  = bind (handle_events arrivals) (fun _ => for_await w tail iter_end l) h.
Proof.
  intros Hp Ht Hc. revert h. induction arrivals as [|a rest IH]; intros h.
  - cbn [app handle_events]. unfold bind, ret.
    destruct (for_await w tail iter_end l h) as [[r h1] t1]. reflexivity.
  - cbn [forallb] in Hp. apply andb_true_iff in Hp as [Ha Hrest].
    cbn [app]. rewrite (for_await_cons_plain w a _ iter_end l h Ha Ht Hc).
    cbn [handle_events]. unfold bind.
    rewrite not_awaited_handleStreamEvent.
    rewrite (IH Hrest). unfold bind.
    destruct (handle_events rest (handler_of (handleStreamEvent (arr_event a) (arr_now a) h)))
      as [[[[]|e|] h1] t1]; try reflexivity.
    destruct (for_await w tail iter_end l h1) as [[r h2] t2].
    rewrite app_assoc. reflexivity.
Qed.

(** ** Accumulation of the text and throttling of the pushes *)

Lemma handleStreamEvent_text_delta (value : string) (now : Z) (h : Handler) :
  handleStreamEvent (text_delta value) now h
  = (Ok tt,
     set_chunk_counter (chunk_counter h + 1)
       (if now - last_update_time h >? 1000
        then set_last_update_time now
               (set_message_text_field (msg_text (message h) ++ value) h)
        else set_message_text_field (msg_text (message h) ++ value) h),
     if now - last_update_time h >? 1000
     then [PartialUpdateMessage (msg_id (message h)) (msg_text (message h) ++ value) None]
     else []).
Proof.
  unfold handleStreamEvent, text_delta, bind, get, modify, emit, ret. cbn.
  destruct (now - last_update_time h >? 1000); reflexivity.
Qed.

Lemma append_empty_r (s : string) : s ++ EmptyString = s.
Proof. induction s as [|c s IH]; cbn; congruence. Qed.

Lemma append_assoc (s1 s2 s3 : string) : (s1 ++ s2) ++ s3 = s1 ++ (s2 ++ s3).
Proof. induction s1 as [|c s1 IH]; cbn; congruence. Qed.

Lemma handle_deltas_text (deltas : list (string * Z)) (h : Handler) :
  msg_text (message (handler_of (handle_events (map delta_arrival deltas) h)))
  = msg_text (message h) ++ concat_all (map fst deltas).
Proof.
  revert h. induction deltas as [|[value now] rest IH]; intros h.
  - cbn. symmetry. apply append_empty_r.
  - cbn [map]. rewrite handle_events_cons. cbn [handler_of fst snd].
    fold (handler_of (handle_events (map delta_arrival rest)
            (handler_of (handleStreamEvent (arr_event (delta_arrival (value, now)))
                                           (arr_now (delta_arrival (value, now))) h)))).
    rewrite IH. cbn [delta_arrival arr_event arr_now fst snd concat_all].
    rewrite handleStreamEvent_text_delta. cbn [handler_of fst snd].
    destruct (now - last_update_time h >? 1000); cbn; apply append_assoc.
Qed.

Lemma deltas_plain (deltas : list (string * Z)) :
  forallb (fun a => is_plain (arr_event a)) (map delta_arrival deltas) = true.
Proof. induction deltas as [|d rest IH]; [reflexivity|]. cbn. exact IH. Qed.

Lemma pushed_texts_app (t1 t2 : Trace) :
  pushed_texts (t1 ++ t2)%list = (pushed_texts t1 ++ pushed_texts t2)%list.
Proof.
  induction t1 as [|e t1 IH]; [reflexivity|].
  destruct e; cbn; rewrite ?IH; reflexivity.
Qed.

Lemma while_completed (w : World) (fuel : nat) (l : Locals) (h : Handler) :
  isCompleted l = true -> while_not_completed w fuel l h = (Ok tt, h, []).
Proof. intros Hc. destruct fuel; cbn; rewrite Hc; reflexivity. Qed.

(** The run of a stream that answers with text only. *)
Lemma run_text_stream (w : World) (deltas : list (string * Z)) (block : ContentBlock)
      (rest : list ContentBlock) (t_message : Z) (data : Run) (t_run : Z)
      (fuel : nat) (h : Handler) :
  is_done h = false ->
  run w (text_run_stream deltas (block :: rest) t_message data t_run) (S fuel) h
  = (Ok tt,
     set_is_done true (handler_of (handle_events (map delta_arrival deltas) h)),
     (trace_of (handle_events (map delta_arrival deltas) h)
        ++ [PartialUpdateMessage (msg_id (message h))
              (match block with
               | TextContent value => value
               | OtherContent _ =>
                   msg_text (message (handler_of (handle_events (map delta_arrival deltas) h)))
               end) None;
            SendEvent "ai_indicator.clear" None (msg_cid (message h)) (msg_id (message h));
            ChatClientOff "ai_indicator.stop";
            OnDispose])%list).
Proof.
  intros Hd.
  pose proof (handle_events_returns (map delta_arrival deltas) h) as (_ & D & I & C).
  unfold run, text_run_stream, try_finally, try_catch.
  cbn [while_not_completed isCompleted currentStream toolOutputs next_pass
       pass_events pass_end].
  unfold bind at 1.
  rewrite for_await_plain by (auto using deltas_plain).
  unfold bind at 1. rewrite handle_events_eq.
  set (h1 := handler_of (handle_events (map delta_arrival deltas) h)) in *.
  set (t1 := trace_of (handle_events (map delta_arrival deltas) h)).
  cbn [for_await arr_event arr_now requires_tool_outputs isCompleted toolOutputs
       currentStream].
  unfold bind at 1. rewrite not_awaited_handleStreamEvent, handleStreamEvent_completed.
  cbn [handler_of trace_of fst snd]. unfold bind at 1.
  rewrite not_awaited_handleStreamEvent.
  cbn -[dispose while_not_completed].
  rewrite while_completed by reflexivity.
  rewrite dispose_fresh by congruence.
  rewrite I, C. repeat rewrite <- app_assoc. reflexivity.
Qed.

(** C4. Whatever the clock readings, and so whatever pushes the throttle let
    through, the text accumulated over a sequence of text deltas is the text
    the message had followed by the delta values in arrival order.  Over a
    whole run that answers with text, the last text pushed is the final
    content of the message-completed event when its first block is a text
    block, and the accumulated text otherwise. *)
Theorem accumulated_text_is_concatenation
        (w : World) (deltas : list (string * Z)) (block : ContentBlock)
        (rest : list ContentBlock) (t_message : Z) (data : Run) (t_run : Z)
        (fuel : nat) (thread_id cid id : string) (h : Handler) :
  msg_text (message (handler_of (handle_events (map delta_arrival deltas) h)))
  = msg_text (message h) ++ concat_all (map fst deltas)
  /\ result_of (run w (text_run_stream deltas (block :: rest) t_message data t_run)
                    (S fuel) (new_handler thread_id (mkMessage cid id EmptyString)))
     = Ok tt
  /\ msg_text (message (handler_of
       (run w (text_run_stream deltas (block :: rest) t_message data t_run)
            (S fuel) (new_handler thread_id (mkMessage cid id EmptyString)))))
     = concat_all (map fst deltas)
  /\ last (pushed_texts (trace_of
       (run w (text_run_stream deltas (block :: rest) t_message data t_run)
            (S fuel) (new_handler thread_id (mkMessage cid id EmptyString)))))
       EmptyString
     = match block with
       | TextContent value => value
       | OtherContent _ => concat_all (map fst deltas)
       end.
Proof.
  split; [apply handle_deltas_text|].
  rewrite run_text_stream by reflexivity.
  cbn [result_of handler_of trace_of fst snd].
  split; [reflexivity|]. split.
  - cbn [set_is_done message]. apply handle_deltas_text.
  - rewrite pushed_texts_app. cbn [pushed_texts].
    rewrite last_last. destruct block; [reflexivity|]. apply handle_deltas_text.
Qed.

Example scenario_A :
  run Sample.world
      [mkPass [mkArrival (ThreadRunCreated Sample.run_1) 5000;
               mkArrival (text_delta "Hello") 5010;
               mkArrival (text_delta " world") 5020;
               mkArrival (text_delta "!") 5030;
               mkArrival (ThreadMessageCompleted [TextContent "Hello world!"]) 5040;
               mkArrival (ThreadRunCompleted Sample.run_1) 5050] IterDone]
      1 Sample.handler
  = (Ok tt,
     mkHandler EmptyString 3 "run_1" true 5010 "thread_1"
               (mkMessage "messaging:c1" "m1" "Hello world!"),
     [PartialUpdateMessage "m1" "Hello" None;
      PartialUpdateMessage "m1" "Hello world!" None;
      SendEvent "ai_indicator.clear" None "messaging:c1" "m1";
      ChatClientOff "ai_indicator.stop";
      OnDispose]).
Proof. reflexivity. Qed.

(** One call of [handleStreamEvent]: either a delta pushed, the clock read
    more than 1000 past the recorded time and is now the recorded time, or
    the recorded time is unchanged. *)
Lemma handleStreamEvent_throttle (event : AssistantStreamEvent) (now : Z) (h : Handler) :
  (is_delta event && existsb is_partial_update (trace_of (handleStreamEvent event now h))
   = true
   /\ now - last_update_time h > 1000
   /\ last_update_time (handler_of (handleStreamEvent event now h)) = now)
  \/ (is_delta event && existsb is_partial_update (trace_of (handleStreamEvent event now h))
      = false
      /\ last_update_time (handler_of (handleStreamEvent event now h)) = last_update_time h).
Proof.
  destruct event as [d|c|c|s|d|d|d|t]; cbn; auto.
  - destruct c as [[|[[v|]|ty] bs]|]; cbn; auto.
    destruct (now - last_update_time h >? 1000) eqn:E; cbn; auto.
    left. apply Z.gtb_lt in E. repeat split. lia.
  - destruct c; cbn; auto.
  - destruct s; cbn; auto.
Qed.

Lemma delta_push_times_sorted (arrivals : list Arrival) (h : Handler) :
  StronglySorted (fun t1 t2 => t2 - t1 > 1000) (delta_push_times arrivals h)
  /\ Forall (fun t => t - last_update_time h > 1000) (delta_push_times arrivals h).
Proof.
  revert h. induction arrivals as [|a rest IH]; intros h.
  - cbn. split; constructor.
  - cbn [delta_push_times].
    destruct (IH (handler_of (handleStreamEvent (arr_event a) (arr_now a) h))) as [S F].
    destruct (handleStreamEvent_throttle (arr_event a) (arr_now a) h)
      as [(P & G & L) | (P & L)]; rewrite P; rewrite L in F; cbn [app].
    + split.
      * constructor; [exact S | exact F].
      * constructor; [exact G|].
        eapply Forall_impl; [|exact F]. cbn. intros t Ht. lia.
    + split; assumption.
Qed.

(** C5. The clock readings at which delta events pushed the accumulated text
    are pairwise more than 1000ms apart, the first of them more than 1000ms
    after the recorded time the sequence started with.  A delta event pushes
    only when the clock reads more than 1000ms past the last recorded push,
    and a text delta does push then.  The push of a message-completed event
    is made whatever the clock and the recorded time are. *)
Theorem pushes_are_throttled (arrivals : list Arrival) (h : Handler) :
  StronglySorted (fun t1 t2 => t2 - t1 > 1000) (delta_push_times arrivals h)
  /\ Forall (fun t => t - last_update_time h > 1000) (delta_push_times arrivals h)
  /\ (forall content now h',
        existsb is_partial_update
                (trace_of (handleStreamEvent (ThreadMessageDelta content) now h')) = true ->
        now - last_update_time h' > 1000)
  /\ (forall value now h',
        existsb is_partial_update (trace_of (handleStreamEvent (text_delta value) now h'))
        = (now - last_update_time h' >? 1000))
  /\ (forall block rest now h',
        existsb is_partial_update
                (trace_of (handleStreamEvent (ThreadMessageCompleted (block :: rest)) now h'))
        = true).
Proof.
  destruct (delta_push_times_sorted arrivals h) as [S F].
  repeat split; try assumption.
  - intros content now h' Hp.
    destruct (handleStreamEvent_throttle (ThreadMessageDelta content) now h')
      as [(_ & G & _) | (P & _)]; [exact G|].
    cbn [is_delta andb] in P. congruence.
  - intros value now h'. rewrite handleStreamEvent_text_delta. cbn [trace_of snd].
    destruct (now - last_update_time h' >? 1000); reflexivity.
Qed.

Example throttle_lets_two_pushes_through :
  delta_push_times
    [mkArrival (text_delta "a") 5000; mkArrival (text_delta "b") 5400;
     mkArrival (text_delta "c") 6000; mkArrival (text_delta "d") 6001;
     mkArrival (text_delta "e") 6900]
    Sample.handler
  = [5000; 6001].
Proof. reflexivity. Qed.

(** ** The error path *)

(** The effects of [handleError], for a thrown value whose properties can be
    read, on a handler that is not disposed. *)
Lemma handleError_fresh (message_of : option string) (toString : string) (h : Handler) :
  is_done h = false ->
  handleError (mkJsError message_of toString) h
  = (Ok tt, set_is_done true h,
     [SendEvent "ai_indicator.update" (Some "AI_STATE_ERROR")
                (msg_cid (message h)) (msg_id (message h));
      PartialUpdateMessage (msg_id (message h))
        (match message_of with
         | Some m => m
         | None => "An error occurred while generating the message."
         end)
        (Some toString);
      ChatClientOff "ai_indicator.stop";
      OnDispose]).
Proof.
  intros Hd. unfold handleError, bind, get, emit. rewrite Hd. cbn -[dispose].
  rewrite dispose_fresh by exact Hd. destruct message_of; reflexivity.
Qed.

(** For [undefined] or [null] the ERROR signal is sent and reading the
    message throws: nothing is overwritten and the handler is not disposed. *)
Lemma handleError_nullish (is_null : bool) (h : Handler) :
  is_done h = false ->
  handleError (JsNullish is_null) h
  = (Throw (TypeError (if is_null
                       then "Cannot read properties of null (reading 'message')"
                       else "Cannot read properties of undefined (reading 'message')")),
     h,
     [SendEvent "ai_indicator.update" (Some "AI_STATE_ERROR")
                (msg_cid (message h)) (msg_id (message h))]).
Proof.
  intros Hd. unfold handleError, bind, get, emit, throw. rewrite Hd. reflexivity.
Qed.

Lemma handleError_done (error : JsError) (h : Handler) :
  is_done h = true -> handleError error h = (Ok tt, h, []).
Proof. intros Hd. unfold handleError, bind, get, ret. rewrite Hd. reflexivity. Qed.





Example scenario_E :
  run Sample.world
      [mkPass [mkArrival (ThreadRunFailed (mkRun "run_1" None (Some "rate limited"))) 5010;
               mkArrival (text_delta "late") 9000]
              IterDone]
      3 Sample.handler
  = (Ok tt, set_is_done true Sample.handler,
     [SendEvent "ai_indicator.update" (Some "AI_STATE_ERROR") "messaging:c1" "m1";
      PartialUpdateMessage "m1" "rate limited" (Some "Error: rate limited");
      ChatClientOff "ai_indicator.stop";
      OnDispose]).
Proof. reflexivity. Qed.

(** ** The tool invoker *)

(** C7, as the code has it.  Without a key (unset or empty)
    [performWebSearch] returns the serialized not-configured error and makes
    no call.  With a key and a query a template literal can print (every
    string is one), one request is made: when it resolves the serialized
    response data is returned; when axios rejects it, the serialized error
    object carrying the status and the response data (the message when there
    is no data or the data is falsy); on another failure the serialized
    generic error object.  The function throws where the claim has it return:
    the log of the rejected request prints the response data inside the
    [catch], and for a response body that hides [toString] that throws a
    TypeError, as does the first log for such a query. *)
Theorem performWebSearch_outcomes (w : World) (query : option JsValue) (h : Handler) :
  (TAVILY_API_KEY w = None \/ TAVILY_API_KEY w = Some EmptyString ->
   performWebSearch w query h
   = (Ok (JSON_stringify w
            (JObj [("error",
                    JStr "Web Search is not available. The API Key is not configured.")])),
      h, []))
  /\ (forall key,
        TAVILY_API_KEY w = Some key -> key <> EmptyString ->
        (forall x, query = Some x -> converts_to_string x = false ->
           performWebSearch w query h
           = (Throw (TypeError "Cannot convert object to primitive value"), h, []))
        /\ (query = None \/ (exists x, query = Some x /\ converts_to_string x = true) ->
            match axios_post w query key with
            | AxiosResolved data =>
                performWebSearch w query h
                = (Ok (JSON_stringify w data), h,
                   [ConsoleLog (LogPerformingSearch query);
                    AxiosPost "https://api.tavily.com/search" query ("Bearer " ++ key);
                    ConsoleLog (LogSearchSuccessful query)])
            | AxiosRejected response message =>
                forall status details,
                  status = match response with
                           | Some (code, _) => NilZero.string_of_int (Z.to_int code)
                           | None => "undefined"
                           end ->
                  details = match response with
                            | Some (_, JNull) => JStr message
                            | Some (_, JBool false) => JStr message
                            | Some (_, JNum 0) => JStr message
                            | Some (_, JStr EmptyString) => JStr message
                            | Some (_, data) => data
                            | None => JStr message
                            end ->
                  performWebSearch w query h
                  = if converts_to_string details
                    then (Ok (JSON_stringify w
                                (JObj [("error",
                                        JStr ("Failed to perform web search with status "
                                                ++ status));
                                       ("details", details)])),
                          h,
                          [ConsoleLog (LogPerformingSearch query);
                           AxiosPost "https://api.tavily.com/search" query ("Bearer " ++ key);
                           ConsoleLog (LogSearchFailed query);
                           ConsoleError (LogAxiosError details)])
                    else (Throw (TypeError "Cannot convert object to primitive value"),
                          h,
                          [ConsoleLog (LogPerformingSearch query);
                           AxiosPost "https://api.tavily.com/search" query ("Bearer " ++ key);
                           ConsoleLog (LogSearchFailed query)])
            | OtherRejected error =>
                performWebSearch w query h
                = (Ok (JSON_stringify w
                         (JObj [("error",
                                 JStr "An unexpected error occurred during web search.")])),
                   h,
                   [ConsoleLog (LogPerformingSearch query);
                    AxiosPost "https://api.tavily.com/search" query ("Bearer " ++ key);
                    ConsoleError (LogUnexpectedSearchError query error)])
            end))
  /\ (forall s, converts_to_string (JStr s) = true)
  /\ performWebSearch Sample.world_odd_error_body (Some (JStr "weather")) Sample.handler
     = (Throw (TypeError "Cannot convert object to primitive value"),
        Sample.handler,
        [ConsoleLog (LogPerformingSearch (Some (JStr "weather")));
         AxiosPost "https://api.tavily.com/search" (Some (JStr "weather")) "Bearer tvly-key";
         ConsoleLog (LogSearchFailed (Some (JStr "weather")))]).
Proof.
  split; [|split; [|split; [reflexivity | reflexivity]]].
  - intros Hk. unfold performWebSearch, configured_key.
    destruct Hk as [Hk | Hk]; rewrite Hk; reflexivity.
  - intros key Hk Hne. unfold performWebSearch, configured_key. rewrite Hk.
    apply String.eqb_neq in Hne. rewrite Hne. split.
    + intros x -> Hx. unfold bind, template_literal. rewrite Hx. reflexivity.
    + intros Hq.
      assert (T : template_literal query h = (Ok tt, h, [])).
      { destruct Hq as [-> | (x & -> & Hx)]; [reflexivity|].
        unfold template_literal. rewrite Hx. reflexivity. }
      unfold bind. rewrite T.
      destruct (axios_post w query key) as [data|response message|error].
      * reflexivity.
      * intros status details -> ->.
        assert (R : response_details response message
                    = match response with
                      | Some (_, JNull) => JStr message
                      | Some (_, JBool false) => JStr message
                      | Some (_, JNum 0) => JStr message
                      | Some (_, JStr EmptyString) => JStr message
                      | Some (_, data) => data
                      | None => JStr message
                      end).
        { unfold response_details. destruct response as [[code data]|]; [|reflexivity].
          destruct data as [|[|]|[|p|p]|[|c s]|items|fields]; reflexivity. }
        unfold search_failed_payload, status_text. rewrite R.
        unfold emit, template_literal. cbn [app].
        destruct (converts_to_string _); reflexivity.
      * reflexivity.
Qed.

Example scenario_C :
  performWebSearch Sample.world_without_key (Some (JStr "weather")) Sample.handler
  = (Ok (Sample.stringify not_configured_payload), Sample.handler, []).
Proof. reflexivity. Qed.

Example search_provider_down :
  result_of (performWebSearch Sample.world_search_down (Some (JStr "weather")) Sample.handler)
  = Ok (Sample.stringify
          (JObj [("error", JStr "Failed to perform web search with status 429");
                 ("details", JStr "slow down")])).
Proof. reflexivity. Qed.

(** [performWebSearch] leaves the handler as it was, submits nothing, and
    what it returns is a serialized JSON value. *)
Lemma performWebSearch_eq (w : World) (query : option JsValue) (h : Handler) :
  exists r t,
    performWebSearch w query h = (r, h, t)
    /\ existsb is_submit t = false
    /\ r <> OutOfFuel
    /\ (forall s, r = Ok s -> exists payload, s = JSON_stringify w payload).
Proof.
  unfold performWebSearch. destruct (configured_key w) as [key|].
  2:{ cbn. do 2 eexists. repeat split; try discriminate.
      intros s E. inversion E. eauto. }
  unfold bind at 1. unfold template_literal.
  destruct query as [x|]; [destruct (converts_to_string x)|].
  2:{ cbn. do 2 eexists. repeat split; discriminate. }
  all: destruct (axios_post w _ key) as [data|response message|error]; cbn;
    try (do 2 eexists; repeat split; try discriminate;
         intros s E; inversion E; eauto; fail).
  all: unfold bind, emit, template_literal;
    destruct (converts_to_string (response_details response message)); cbn;
    do 2 eexists; repeat split; try discriminate;
    intros s E; inversion E; eauto.
Qed.

(** ** The batch of tool outputs *)

(** Reading a property: the value of the first field of that name. *)
Lemma get_field_find (k : string) (fields : list (string * JsValue)) :
  get_field k fields = option_map snd (find (fun field => (k =? fst field)%string) fields).
Proof.
  induction fields as [|[k' v] rest IH]; [reflexivity|].
  cbn [get_field find fst]. destruct (k =? k')%string; [reflexivity | exact IH].
Qed.

Lemma web_search_output_spec (w : World) (toolCall : ToolCall) (h : Handler) :
  exists out t,
    web_search_output w toolCall h = (Ok out, h, t)
    /\ existsb is_submit t = false
    /\ tool_call_id out = tc_id toolCall
    /\ (exists payload, output out = JSON_stringify w payload)
    /\ output out
       = match JSON_parse w (tc_function_arguments toolCall) with
         | inl _ => JSON_stringify w (JObj [("error", JStr "Failed to call tool")])
         | inr JNull => JSON_stringify w (JObj [("error", JStr "Failed to call tool")])
         | inr args =>
             match result_of (performWebSearch w
                                (match args with
                                 | JObj fields =>
                                     option_map snd
                                       (find (fun field => ("query" =? fst field)%string)
                                             fields)
                                 | _ => None
                                 end) h) with
             | Ok searchResult => searchResult
             | _ => JSON_stringify w (JObj [("error", JStr "Failed to call tool")])
             end
         end.
Proof.
  assert (G : forall query,
             exists out t,
               try_catch
                 (searchResult <- performWebSearch w query;;
                  ret (mkToolOutput (tc_id toolCall) searchResult))
                 (fun error =>
                    emit (ConsoleError (LogToolCallError error));;
                    ret (mkToolOutput (tc_id toolCall)
                           (JSON_stringify w tool_failed_payload))) h
               = (Ok out, h, t)
               /\ existsb is_submit t = false
               /\ tool_call_id out = tc_id toolCall
               /\ (exists payload, output out = JSON_stringify w payload)
               /\ output out
                  = match result_of (performWebSearch w query h) with
                    | Ok searchResult => searchResult
                    | _ => JSON_stringify w (JObj [("error", JStr "Failed to call tool")])
                    end).
  { intros query. unfold try_catch, bind.
    destruct (performWebSearch_eq w query h) as (r & t & E & Hs & Hf & Hj).
    rewrite E. cbn [result_of fst]. destruct r as [s|e|]; [| |contradiction].
    - cbn. do 2 eexists.
      split; [reflexivity|]. split; [rewrite app_nil_r; exact Hs|]. split; [reflexivity|].
      split; [apply Hj; reflexivity | reflexivity].
    - cbn. do 2 eexists.
      split; [reflexivity|]. split.
      { rewrite existsb_app, Hs. reflexivity. }
      split; [reflexivity|]. split; [exists tool_failed_payload|]; reflexivity. }
  unfold web_search_output.
  destruct (JSON_parse w (tc_function_arguments toolCall)) as [syntax_error|args].
  { cbn. do 2 eexists. repeat split. exists tool_failed_payload. reflexivity. }
  destruct args as [|b|n|s|items|fields]; cbn [get_query]; try exact (G None).
  - cbn. do 2 eexists. repeat split. exists tool_failed_payload. reflexivity.
  - rewrite get_field_find. exact (G _).
Qed.

Lemma collect_tool_outputs_spec (w : World) (toolCalls : list ToolCall)
      (acc : list ToolOutput) (h : Handler) :
  exists outs t,
    collect_tool_outputs w toolCalls acc h = (Ok (acc ++ outs)%list, h, t)
    /\ existsb is_submit t = false
    /\ Forall2 (fun toolCall out =>
                  tool_call_id out = tc_id toolCall
                  /\ (exists payload, output out = JSON_stringify w payload)
                  /\ output out
                     = match JSON_parse w (tc_function_arguments toolCall) with
                       | inl _ =>
                           JSON_stringify w (JObj [("error", JStr "Failed to call tool")])
                       | inr JNull =>
                           JSON_stringify w (JObj [("error", JStr "Failed to call tool")])
                       | inr args =>
                           match result_of (performWebSearch w
                                              (match args with
                                               | JObj fields =>
                                                   option_map snd
                                                     (find (fun field =>
                                                              ("query" =? fst field)%string)
                                                           fields)
                                               | _ => None
                                               end) h) with
                           | Ok searchResult => searchResult
                           | _ =>
                               JSON_stringify w (JObj [("error", JStr "Failed to call tool")])
                           end
                       end)
               (filter (fun toolCall => (tc_function_name toolCall =? "web_search")%string)
                       toolCalls)
               outs.
Proof.
  revert acc. induction toolCalls as [|toolCall rest IH]; intros acc.
  - exists [], []. cbn. rewrite app_nil_r. repeat split. constructor.
  - cbn [collect_tool_outputs filter].
    destruct (tc_function_name toolCall =? "web_search")%string.
    + destruct (web_search_output_spec w toolCall h) as (out & t & E & Hs & Hid & Hj & Ho).
      destruct (IH (acc ++ [out])%list) as (outs & t' & E' & Hs' & F).
      exists (out :: outs), (t ++ t')%list.
      unfold bind. rewrite E, E'. rewrite <- app_assoc. cbn [app].
      repeat split.
      * rewrite existsb_app, Hs, Hs'. reflexivity.
      * constructor; auto.
    + apply IH.
Qed.

(** A requires-action event at the head of an iteration: the batch is
    collected and the loop is left, with the stream that was current. *)
Lemma for_await_requires_action (w : World) (id : string) (toolCalls : list ToolCall)
      (error : option string) (now : Z) (rest : list Arrival) (iter_end : IterationEnd)
      (l : Locals) (h : Handler) :
  exists outs t,
    for_await w (mkArrival (requires_action_event id toolCalls error) now :: rest)
              iter_end l h
    = (Ok (mkLocals (isCompleted l) outs (currentStream l)), set_run_id id h, t)
    /\ existsb is_submit t = false
    /\ Forall2 (fun toolCall out =>
                  tool_call_id out = tc_id toolCall
                  /\ (exists payload, output out = JSON_stringify w payload)
                  /\ output out
                     = match JSON_parse w (tc_function_arguments toolCall) with
                       | inl _ =>
                           JSON_stringify w (JObj [("error", JStr "Failed to call tool")])
                       | inr JNull =>
                           JSON_stringify w (JObj [("error", JStr "Failed to call tool")])
                       | inr args =>
                           match result_of (performWebSearch w
                                              (match args with
                                               | JObj fields =>
                                                   option_map snd
                                                     (find (fun field =>
                                                              ("query" =? fst field)%string)
                                                           fields)
                                               | _ => None
                                               end) (set_run_id id h)) with
                           | Ok searchResult => searchResult
                           | _ =>
                               JSON_stringify w (JObj [("error", JStr "Failed to call tool")])
                           end
                       end)
               (filter (fun toolCall => (tc_function_name toolCall =? "web_search")%string)
                       toolCalls)
               outs.
Proof.
  destruct (collect_tool_outputs_spec w toolCalls [] (set_run_id id h))
    as (outs & t & E & Hs & F).
  exists outs. eexists. cbn [app] in E. split; [|split; [|exact F]].
  - cbn [for_await arr_event arr_now requires_action_event requires_tool_outputs
         required_action ra_type ra_tool_calls].
    cbn [String.eqb Ascii.eqb Bool.eqb].
    unfold bind at 1. rewrite not_awaited_handleStreamEvent.
    cbn -[collect_tool_outputs]. unfold bind. rewrite E. cbn. rewrite app_nil_r.
    reflexivity.
  - cbn. exact Hs.
Qed.

(** [performWebSearch] does not look at the handler. *)
Lemma performWebSearch_any_handler (w : World) (query : option JsValue) (h h' : Handler) :
  result_of (performWebSearch w query h) = result_of (performWebSearch w query h').
Proof.
  unfold performWebSearch. destruct (configured_key w) as [key|]; [|reflexivity].
  unfold bind at 1 3. unfold template_literal.
  destruct query as [x|]; [destruct (converts_to_string x)|]; try reflexivity;
    (destruct (axios_post w _ key) as [data|response message|error]; cbn; try reflexivity;
     unfold bind, emit, template_literal;
     destruct (converts_to_string (response_details response message)); reflexivity).
Qed.

(** C2.  On a requires-action event the batch collected holds, in the order
    of the calls, one output for each tool call that names [web_search], the
    one function the assistant is created with, under that call's identifier.
    Every output is a serialized JSON value: what the search returned, or the
    error object [{"error":"Failed to call tool"}] when the arguments do not
    parse, parse to [null], or the search throws.  So when every call of the
    batch names [web_search] the batch has exactly one output per call; a
    call naming another function is skipped. *)
Theorem one_output_per_web_search_call
        (w : World) (id : string) (toolCalls : list ToolCall) (error : option string)
        (now : Z) (rest : list Arrival) (iter_end : IterationEnd) (l : Locals)
        (h : Handler) :
  exists outs t,
    for_await w (mkArrival (requires_action_event id toolCalls error) now :: rest)
              iter_end l h
    = (Ok (mkLocals (isCompleted l) outs (currentStream l)), set_run_id id h, t)
    /\ Forall2 (fun toolCall out =>
                  tool_call_id out = tc_id toolCall
                  /\ (exists payload, output out = JSON_stringify w payload)
                  /\ output out
                     = match JSON_parse w (tc_function_arguments toolCall) with
                       | inl _ =>
                           JSON_stringify w (JObj [("error", JStr "Failed to call tool")])
                       | inr JNull =>
                           JSON_stringify w (JObj [("error", JStr "Failed to call tool")])
                       | inr args =>
                           match result_of (performWebSearch w
                                              (match args with
                                               | JObj fields =>
                                                   option_map snd
                                                     (find (fun field =>
                                                              ("query" =? fst field)%string)
                                                           fields)
                                               | _ => None
                                               end) h) with
                           | Ok searchResult => searchResult
                           | _ =>
                               JSON_stringify w (JObj [("error", JStr "Failed to call tool")])
                           end
                       end)
               (filter (fun toolCall => (tc_function_name toolCall =? "web_search")%string)
                       toolCalls)
               outs
    /\ (Forall (fun toolCall => tc_function_name toolCall = "web_search") toolCalls ->
        List.length outs = List.length toolCalls
        /\ map tool_call_id outs = map tc_id toolCalls).
Proof.
  destruct (for_await_requires_action w id toolCalls error now rest iter_end l h)
    as (outs & t & E & _ & F).
  exists outs, t. split; [exact E|].
  assert (F' : Forall2 (fun toolCall out =>
                  tool_call_id out = tc_id toolCall
                  /\ (exists payload, output out = JSON_stringify w payload)
                  /\ output out
                     = match JSON_parse w (tc_function_arguments toolCall) with
                       | inl _ =>
                           JSON_stringify w (JObj [("error", JStr "Failed to call tool")])
                       | inr JNull =>
                           JSON_stringify w (JObj [("error", JStr "Failed to call tool")])
                       | inr args =>
                           match result_of (performWebSearch w
                                              (match args with
                                               | JObj fields =>
                                                   option_map snd
                                                     (find (fun field =>
                                                              ("query" =? fst field)%string)
                                                           fields)
                                               | _ => None
                                               end) h) with
                           | Ok searchResult => searchResult
                           | _ =>
                               JSON_stringify w (JObj [("error", JStr "Failed to call tool")])
                           end
                       end)
               (filter (fun toolCall => (tc_function_name toolCall =? "web_search")%string)
                       toolCalls)
               outs).
  { eapply Forall2_impl; [|exact F]. intros c o (Hid & Hj & Ho).
    split; [exact Hid|]. split; [exact Hj|]. rewrite Ho.
    destruct (JSON_parse w (tc_function_arguments c)) as [e|args]; [reflexivity|].
    destruct args; try reflexivity;
      rewrite (performWebSearch_any_handler w _ (set_run_id id h) h); reflexivity. }
  split; [exact F'|].
  intros Hall.
  assert (Hf : filter (fun toolCall => (tc_function_name toolCall =? "web_search")%string)
                      toolCalls = toolCalls).
  { clear - Hall. induction Hall as [|c cs Hc _ IH]; [reflexivity|].
    cbn [filter]. apply String.eqb_eq in Hc. rewrite Hc, IH. reflexivity. }
  rewrite Hf in F'. clear - F'.
  induction F' as [|c o cs os (Hid & _) _ [IHl IHm]]; [split; reflexivity|].
  cbn. split; congruence.
Qed.

Lemma one_output_per_web_search_call_witness :
  exists outs,
    result_of (for_await Sample.world
                 [mkArrival (requires_action_event "run_1"
                               [Sample.web_search_call;
                                mkToolCall "call_3" "web_search" "null"] None) 10]
                 IterDone (mkLocals false [] []) Sample.handler)
    = Ok (mkLocals false outs [])
    /\ List.length outs = 2%nat
    /\ map tool_call_id outs = ["call_1"; "call_3"].
Proof.
  destruct (one_output_per_web_search_call
              Sample.world "run_1"
              [Sample.web_search_call; mkToolCall "call_3" "web_search" "null"] None
              10 [] IterDone (mkLocals false [] []) Sample.handler)
    as (outs & t & E & _ & H).
  exists outs. rewrite E. split; [reflexivity|].
  apply H. repeat constructor.
Defined.

(** A call that names another function gets no output. *)
Lemma other_tool_gets_no_output :
  for_await Sample.world
            [mkArrival (requires_action_event "run_1"
                          [Sample.web_search_call; Sample.other_tool_call] None) 10]
            IterDone (mkLocals false [] []) Sample.handler
  = (Ok (mkLocals false
           [mkToolOutput "call_1"
              (Sample.stringify (JObj [("answer", JStr "sunny")]))]
           []),
     set_run_id "run_1" Sample.handler,
     [SendEvent "ai_indicator.update" (Some "AI_STATE_EXTERNAL_SOURCES")
                "messaging:c1" "m1";
      ConsoleLog (LogPerformingSearch (Some (JStr "weather")));
      AxiosPost "https://api.tavily.com/search" (Some (JStr "weather")) "Bearer tvly-key";
      ConsoleLog (LogSearchSuccessful (Some (JStr "weather")))])
  /\ List.length [mkToolOutput "call_1"
                    (Sample.stringify (JObj [("answer", JStr "sunny")]))]
     <> List.length [Sample.web_search_call; Sample.other_tool_call].
Proof. split; [reflexivity | discriminate]. Qed.

Example undecodable_arguments_get_error_output :
  result_of (collect_tool_outputs Sample.world
               [mkToolCall "call_3" "web_search" "null";
                mkToolCall "call_4" "web_search" "{query"]
               [] Sample.handler)
  = Ok [mkToolOutput "call_3" (Sample.stringify tool_failed_payload);
        mkToolOutput "call_4" (Sample.stringify tool_failed_payload)].
Proof. reflexivity. Qed.

(** ** Resumption of the run *)

(** Once the stream has nothing more to yield and the run is not completed,
    the loop goes on without any effect. *)
Lemma while_idle (w : World) (fuel : nat) (outs : list ToolOutput) (h : Handler) :
  while_not_completed w fuel (mkLocals false outs []) h = (OutOfFuel, h, []).
Proof.
  induction fuel as [|fuel IH]; [reflexivity|].
  cbn [while_not_completed isCompleted currentStream toolOutputs next_pass
       pass_events pass_end for_await].
  unfold bind, ret. rewrite IH. reflexivity.
Qed.

(** C1, as the code has it.  The submission of the batch stands inside the
    loop over the events, after the [break]s.  On a requires-action event the
    loop is left with the batch collected, nothing submitted, and the stream
    that was current still current.  In scenario B, where the stream yields
    the requires-action event alone, the batch is never submitted and the run
    never completes, however long it goes on. *)
Theorem break_does_not_resubmit
        (w : World) (id : string) (toolCalls : list ToolCall) (error : option string)
        (now : Z) (rest : list Arrival) (iter_end : IterationEnd) (l : Locals)
        (h : Handler) (fuel : nat) :
  (exists outs t,
     for_await w (mkArrival (requires_action_event id toolCalls error) now :: rest)
               iter_end l h
     = (Ok (mkLocals (isCompleted l) outs (currentStream l)), set_run_id id h, t)
     /\ existsb is_submit t = false)
  /\ run Sample.world Sample.scenario_B_stream (S fuel) Sample.handler
     = (OutOfFuel,
        set_run_id "run_1" Sample.handler,
        [SendEvent "ai_indicator.update" (Some "AI_STATE_EXTERNAL_SOURCES")
                   "messaging:c1" "m1";
         ConsoleLog (LogPerformingSearch (Some (JStr "weather")));
         AxiosPost "https://api.tavily.com/search" (Some (JStr "weather"))
                   "Bearer tvly-key";
         ConsoleLog (LogSearchSuccessful (Some (JStr "weather")))])
  /\ count is_submit
           (trace_of (run Sample.world Sample.scenario_B_stream (S fuel) Sample.handler))
     = 0%nat.
Proof.
  split.
  { destruct (for_await_requires_action w id toolCalls error now rest iter_end l h)
      as (outs & t & E & Hs & _).
    exists outs, t. split; assumption. }
  assert (E : run Sample.world Sample.scenario_B_stream (S fuel) Sample.handler
              = (OutOfFuel,
                 set_run_id "run_1" Sample.handler,
                 [SendEvent "ai_indicator.update" (Some "AI_STATE_EXTERNAL_SOURCES")
                            "messaging:c1" "m1";
                  ConsoleLog (LogPerformingSearch (Some (JStr "weather")));
                  AxiosPost "https://api.tavily.com/search" (Some (JStr "weather"))
                            "Bearer tvly-key";
                  ConsoleLog (LogSearchSuccessful (Some (JStr "weather")))])).
  { unfold run, try_finally, try_catch, Sample.scenario_B_stream.
    cbn [while_not_completed isCompleted currentStream toolOutputs next_pass
         pass_events pass_end].
    unfold bind at 1.
    match goal with
    | |- context [for_await ?a ?b ?c ?d ?e] =>
        let v := eval vm_compute in (for_await a b c d e) in
        change (for_await a b c d e) with v
    end.
    cbv beta iota. rewrite while_idle. reflexivity. }
  rewrite E. split; reflexivity.
Qed.

(** The batch is submitted only when the stream, iterated again, yields an
    event on which the loop goes on; the stream returned is iterated once the
    iteration under way has ended. *)
Example resubmission_waits_for_an_event :
  run Sample.world
      (Sample.scenario_B_stream
         ++ [mkPass [mkArrival (text_delta "x") 20; mkArrival (text_delta "y") 30]
                    IterDone])%list
      3 Sample.handler
  = (Ok tt,
     mkHandler EmptyString 2 "run_1" true 0 "thread_1"
               (mkMessage "messaging:c1" "m1" "xy"),
     [SendEvent "ai_indicator.update" (Some "AI_STATE_EXTERNAL_SOURCES")
                "messaging:c1" "m1";
      ConsoleLog (LogPerformingSearch (Some (JStr "weather")));
      AxiosPost "https://api.tavily.com/search" (Some (JStr "weather")) "Bearer tvly-key";
      ConsoleLog (LogSearchSuccessful (Some (JStr "weather")));
      SubmitToolOutputsStream "run_1" "thread_1"
        [mkToolOutput "call_1" (Sample.stringify (JObj [("answer", JStr "sunny")]))];
      ChatClientOff "ai_indicator.stop";
      OnDispose]).
Proof. reflexivity. Qed.

(** ** What every method of the handler keeps *)

Lemma count_app (p : Effect -> bool) (t1 t2 : Trace) :
  count p (t1 ++ t2)%list = (count p t1 + count p t2)%nat.
Proof. unfold count. rewrite filter_app, length_app. reflexivity. Qed.

Lemma keeps_refl (h : Handler) : keeps h h [].
Proof.
  unfold keeps, count. cbn. destruct (is_done h); repeat split; auto.
Qed.

Lemma keeps_trans (h h1 h2 : Handler) (t1 t2 : Trace) :
  keeps h h1 t1 -> keeps h1 h2 t2 -> keeps h h2 (t1 ++ t2)%list.
Proof.
  intros (I1 & C1 & T1 & D1 & N1 & O1 & X1 & A1 & R1)
         (I2 & C2 & T2 & D2 & N2 & O2 & X2 & A2 & R2).
  unfold keeps. rewrite !count_app.
  rewrite I1, C1, T1 in *.
  split; [congruence|]. split; [congruence|]. split; [congruence|].
  split; [auto|]. split; [|split; [lia|split; [lia|split]]].
  - rewrite N1, N2.
    destruct (is_done h); [rewrite D1 by reflexivity; reflexivity|].
    destruct (is_done h1); [rewrite D2 by reflexivity; reflexivity|].
    reflexivity.
  - apply Forall_app. split; assumption.
  - apply Forall_app. split; assumption.
Qed.

Lemma kept_at_ret {A} (a : A) (h : Handler) : kept_at (ret a) h.
Proof. apply keeps_refl. Qed.

Lemma kept_at_bind {A B} (m : M A) (k : A -> M B) (h : Handler) :
  kept_at m h ->
  (forall a h1 t1, m h = (Ok a, h1, t1) -> kept_at (k a) h1) ->
  kept_at (bind m k) h.
Proof.
  unfold kept_at, bind, handler_of, trace_of. intros Hm Hk.
  destruct (m h) as [[[a|e|] h1] t1]; cbn in *; try exact Hm.
  specialize (Hk a h1 t1 eq_refl).
  destruct (k a h1) as [[r h2] t2]. cbn in *.
  eapply keeps_trans; eassumption.
Qed.

Lemma kept_at_get {A} (k : Handler -> M A) (h : Handler) :
  kept_at (k h) h -> kept_at (bind get k) h.
Proof.
  intros Hk. apply kept_at_bind; [apply keeps_refl|].
  intros a h1 t1 E. inversion E; subst. exact Hk.
Qed.

Lemma kept_at_try_catch {A} (m : M A) (handler : JsError -> M A) (h : Handler) :
  kept_at m h ->
  (forall e h1 t1, m h = (Throw e, h1, t1) -> kept_at (handler e) h1) ->
  kept_at (try_catch m handler) h.
Proof.
  unfold kept_at, try_catch, handler_of, trace_of. intros Hm Hk.
  destruct (m h) as [[[a|e|] h1] t1]; cbn in *; try exact Hm.
  specialize (Hk e h1 t1 eq_refl).
  destruct (handler e h1) as [[r h2] t2]. cbn in *.
  eapply keeps_trans; eassumption.
Qed.

Lemma kept_at_try_finally {A} (m : M A) (fin : M unit) (h : Handler) :
  kept_at m h -> (forall h1, kept_at fin h1) -> kept_at (try_finally m fin) h.
Proof.
  unfold kept_at, try_finally, handler_of, trace_of. intros Hm Hk.
  destruct (m h) as [[[a|e|] h1] t1]; cbn in *; try exact Hm;
    specialize (Hk h1); destruct (fin h1) as [[[[]|e'|] h2] t2]; cbn in *;
    eapply keeps_trans; eassumption.
Qed.

Lemma kept_at_not_awaited {A} (m : M A) (h : Handler) :
  kept_at m h -> kept_at (not_awaited m) h.
Proof.
  unfold kept_at, not_awaited, handler_of, trace_of. intros Hm.
  destruct (m h) as [[[a|e|] h1] t1]; cbn in *; exact Hm.
Qed.

(** A call that ends nothing, on the handler's own message and thread. *)
Lemma kept_at_emit (e : Effect) (h : Handler) :
  is_on_dispose e = false -> is_off e = false -> is_terminal e = false ->
  addressed_to (msg_cid (message h)) (msg_id (message h)) e ->
  on_thread (openAiThread_id h) e ->
  kept_at (emit e) h.
Proof.
  intros Hd Ho Ht Ha Hr. unfold kept_at, keeps, emit, count. cbn.
  rewrite Hd, Ho, Ht. cbn. destruct (is_done h); repeat split; auto.
Qed.

Lemma kept_at_set_run_id (id : string) (h : Handler) : kept_at (modify (set_run_id id)) h.
Proof.
  unfold kept_at, keeps, modify, count. cbn. destruct (is_done h); repeat split; auto.
Qed.

Lemma dispose_kept (h : Handler) : kept_at dispose h.
Proof.
  unfold kept_at. destruct (is_done h) eqn:D.
  - rewrite dispose_done by exact D. apply keeps_refl.
  - rewrite dispose_fresh by exact D. unfold keeps, count. cbn. rewrite D.
    repeat split; auto; repeat constructor.
Qed.

Lemma handleError_kept (error : JsError) (h : Handler) : kept_at (handleError error) h.
Proof.
  unfold kept_at. destruct (is_done h) eqn:D.
  - rewrite handleError_done by exact D. apply keeps_refl.
  - destruct error as [message_of toString|is_null].
    + rewrite handleError_fresh by exact D. unfold keeps, count. cbn. rewrite D.
      repeat split; auto; repeat constructor; cbn; auto.
    + rewrite handleError_nullish by exact D. unfold keeps, count. cbn. rewrite D.
      repeat split; auto; repeat constructor; cbn; auto.
Qed.

Lemma handleStopGenerating_kept (w : World) (mid : option string) (h : Handler) :
  kept_at (handleStopGenerating w mid) h.
Proof.
  unfold kept_at, handleStopGenerating, bind, get, try_catch, cancel_run, emit.
  cbn. destruct (is_done h) eqn:D; cbn.
  - unfold keeps, count. cbn. rewrite D. repeat split; auto.
  - destruct (message_id_differs mid (msg_id (message h))); cbn.
    + unfold keeps, count. cbn. rewrite D. repeat split; auto.
    + destruct (runs_cancel w (run_id h) (openAiThread_id h)); cbn;
        unfold dispose, bind, get, modify, emit; rewrite D; cbn;
        unfold keeps, count; cbn; rewrite D;
        repeat split; auto; repeat constructor; cbn; auto.
Qed.

Lemma handleStreamEvent_kept (event : AssistantStreamEvent) (now : Z) (h : Handler) :
  kept_at (handleStreamEvent event now) h.
Proof.
  unfold kept_at, keeps, count.
  destruct event as [d|c|c|s|d|d|d|t]; cbn;
    try (destruct (is_done h); repeat split; auto; fail).
  - destruct c as [[|[[v|]|ty] bs]|]; cbn;
      try (destruct (is_done h); repeat split; auto; fail).
    destruct (now - last_update_time h >? 1000); cbn;
      destruct (is_done h); repeat split; auto; repeat constructor; cbn; auto.
  - destruct c as [|[v|ty] bs]; cbn;
      destruct (is_done h); repeat split; auto; repeat constructor; cbn; auto.
  - destruct s; cbn; destruct (is_done h); repeat split; auto;
      repeat constructor; cbn; auto.
Qed.

Lemma performWebSearch_search_only (w : World) (query : option JsValue) (h : Handler) :
  forallb is_search_effect (trace_of (performWebSearch w query h)) = true.
Proof.
  unfold performWebSearch. destruct (configured_key w) as [key|]; [|reflexivity].
  unfold bind at 1. unfold template_literal.
  destruct query as [x|]; [destruct (converts_to_string x)|]; try reflexivity;
    (destruct (axios_post w _ key) as [data|response message|error]; try reflexivity;
     unfold bind, emit, template_literal;
     destruct (converts_to_string (response_details response message)); reflexivity).
Qed.

Lemma web_search_output_search_only (w : World) (toolCall : ToolCall) (h : Handler) :
  forallb is_search_effect (trace_of (web_search_output w toolCall h)) = true.
Proof.
  unfold web_search_output, try_catch.
  destruct (JSON_parse w (tc_function_arguments toolCall)) as [e|args]; [reflexivity|].
  destruct (get_query args) as [e|query]; [reflexivity|].
  unfold bind. pose proof (performWebSearch_search_only w query h) as Hs.
  destruct (performWebSearch_eq w query h) as (r & t & E & _ & Hf & _).
  rewrite E in *. cbn in Hs. destruct r as [s|e|]; [| |contradiction]; cbn.
  - rewrite app_nil_r. exact Hs.
  - rewrite forallb_app, Hs. reflexivity.
Qed.

Lemma collect_tool_outputs_search_only (w : World) (toolCalls : list ToolCall)
      (acc : list ToolOutput) (h : Handler) :
  forallb is_search_effect (trace_of (collect_tool_outputs w toolCalls acc h)) = true.
Proof.
  revert acc. induction toolCalls as [|toolCall rest IH]; intros acc; [reflexivity|].
  cbn [collect_tool_outputs].
  destruct (tc_function_name toolCall =? "web_search")%string; [|apply IH].
  unfold bind.
  pose proof (web_search_output_search_only w toolCall h) as Hs.
  destruct (web_search_output_spec w toolCall h) as (out & t & E & _).
  rewrite E in *. cbn in Hs.
  specialize (IH (acc ++ [out])%list).
  destruct (collect_tool_outputs w rest (acc ++ [out]) h) as [[r h2] t2].
  cbn in *. rewrite forallb_app, Hs, IH. reflexivity.
Qed.

Lemma search_effects_count (p : Effect -> bool) (t : Trace) :
  (forall e, is_search_effect e = true -> p e = false) ->
  forallb is_search_effect t = true -> count p t = 0%nat.
Proof.
  intros Hp. induction t as [|e t IH]; [reflexivity|].
  cbn [forallb]. intros H. apply andb_true_iff in H as [He Ht].
  unfold count in *. cbn [filter]. rewrite (Hp e He). apply IH. exact Ht.
Qed.

Lemma keeps_search_effects (h : Handler) (t : Trace) :
  forallb is_search_effect t = true -> keeps h h t.
Proof.
  intros Hs. unfold keeps.
  rewrite (search_effects_count is_on_dispose), (search_effects_count is_off),
          (search_effects_count is_terminal); try exact Hs;
    try (intros [] He; try discriminate; reflexivity).
  destruct (is_done h); repeat split; auto;
    apply Forall_forall; intros e He;
    rewrite forallb_forall in Hs; specialize (Hs e He);
    destruct e; try discriminate; exact I.
Qed.

Lemma collect_tool_outputs_kept (w : World) (toolCalls : list ToolCall) (h : Handler) :
  kept_at (collect_tool_outputs w toolCalls []) h.
Proof.
  unfold kept_at.
  pose proof (collect_tool_outputs_search_only w toolCalls [] h) as Hs.
  destruct (collect_tool_outputs_spec w toolCalls [] h) as (outs & t & E & _).
  rewrite E in *. cbn in *. apply keeps_search_effects. exact Hs.
Qed.

Lemma for_await_kept (w : World) (events : list Arrival) (iter_end : IterationEnd)
      (l : Locals) (h : Handler) :
  kept_at (for_await w events iter_end l) h.
Proof.
  revert l h. induction events as [|a rest IH]; intros l h.
  - cbn [for_await]. destruct iter_end; apply keeps_refl.
  - cbn [for_await]. apply kept_at_bind.
    { apply kept_at_not_awaited, handleStreamEvent_kept. }
    intros _ h1 t1 _.
    destruct (requires_tool_outputs (arr_event a)) as [[data toolCalls]|].
    + apply kept_at_bind; [apply kept_at_set_run_id|].
      intros _ h2 t2 _. apply kept_at_get.
      apply kept_at_bind.
      { apply kept_at_emit; cbn; auto. }
      intros u3 h3 t3 E3. inversion E3; subst h3.
      apply kept_at_bind; [apply collect_tool_outputs_kept|].
      intros outs h4 t4 _. apply kept_at_ret.
    + destruct (arr_event a);
        try (destruct (isCompleted l); [apply kept_at_ret|];
             destruct (toolOutputs l); [apply IH|];
             apply kept_at_get; apply kept_at_bind;
             [apply kept_at_emit; cbn; auto | intros; apply IH]).
      * apply kept_at_ret.
      * apply kept_at_bind; [apply handleError_kept|]. intros. apply kept_at_ret.
Qed.

Lemma while_not_completed_kept (w : World) (fuel : nat) (l : Locals) (h : Handler) :
  kept_at (while_not_completed w fuel l) h.
Proof.
  revert l h. induction fuel as [|fuel IH]; intros l h; cbn [while_not_completed];
    destruct (isCompleted l); try apply keeps_refl.
  destruct (next_pass (currentStream l)) as [p remaining].
  apply kept_at_bind; [apply for_await_kept|]. intros. apply IH.
Qed.

Lemma run_kept (w : World) (assistantStream : AssistantStream) (fuel : nat) (h : Handler) :
  kept_at (run w assistantStream fuel) h.
Proof.
  unfold run. apply kept_at_try_finally; [|apply dispose_kept].
  apply kept_at_try_catch; [apply while_not_completed_kept|].
  intros e h1 t1 _. apply kept_at_bind.
  - apply kept_at_emit; cbn; auto.
  - intros. apply handleError_kept.
Qed.

Lemma perform_kept (w : World) (op : Op) (h : Handler) : kept_at (perform w op) h.
Proof.
  destruct op; cbn [perform].
  - apply dispose_kept.
  - apply handleStopGenerating_kept.
  - apply kept_at_not_awaited, handleStreamEvent_kept.
  - apply handleError_kept.
  - apply run_kept.
Qed.

Lemma perform_all_kept (w : World) (ops : list Op) (h : Handler) :
  kept_at (perform_all w ops) h.
Proof.
  revert h. induction ops as [|op rest IH]; intros h; cbn [perform_all].
  - apply keeps_refl.
  - apply kept_at_bind; [apply perform_kept|]. intros. apply IH.
Qed.

(** X1. Through any sequence of calls on a handler, the disposal callback is
    invoked at most once and the stop listener is deregistered as often;
    this happens exactly when the sequence takes the handler from live to
    disposed, and a disposed handler is never live again. *)
Theorem disposal_happens_once (w : World) (ops : list Op) (h : Handler) :
  (count is_on_dispose (trace_of (perform_all w ops h)) <= 1)%nat
  /\ count is_off (trace_of (perform_all w ops h))
     = count is_on_dispose (trace_of (perform_all w ops h))
  /\ (count is_on_dispose (trace_of (perform_all w ops h)) = 1%nat
      <-> is_done h = false /\ is_done (handler_of (perform_all w ops h)) = true)
  /\ (is_done h = true -> is_done (handler_of (perform_all w ops h)) = true).
Proof.
  destruct (perform_all_kept w ops h) as (_ & _ & _ & D & N & O & _).
  rewrite O, N. repeat split; auto.
  - destruct (is_done h); [lia|]. destruct (is_done _); lia.
  - destruct (is_done h); [discriminate|reflexivity].
  - destruct (is_done h); [discriminate|].
    destruct (is_done (handler_of _)); [reflexivity|discriminate].
  - intros [H1 H2]. rewrite H1, H2. reflexivity.
Qed.

(** ** Calls that overlap *)

(** Resumed with nothing in between, the calls cut at their [await]s are the
    methods. *)
Lemma handleStopGenerating_resumed (w : World) (event_message_id : option string)
      (h : Handler) :
  resume_to_end w 3 (StopCalled event_message_id) h
  = handleStopGenerating w event_message_id h.
Proof.
  unfold handleStopGenerating, resume_to_end, resume.
  repeat (progress (unfold try_catch, cancel_run, bind, get, emit, ret, throw;
                    cbn -[dispose message_id_differs])).
  destruct (is_done h || message_id_differs event_message_id (msg_id (message h)));
    [reflexivity|].
  destruct (runs_cancel w (run_id h) (openAiThread_id h)) as [error|];
    repeat (progress (unfold try_catch, cancel_run, bind, get, emit, ret, throw;
                      cbn -[dispose message_id_differs]));
    destruct (dispose h) as [[[[]|e|] h1] t1]; cbn; rewrite ?app_nil_r; reflexivity.
Qed.

Lemma handleError_resumed (w : World) (error : JsError) (h : Handler) :
  resume_to_end w 3 (ErrorCalled error) h = handleError error h.
Proof.
  unfold handleError, resume_to_end, resume.
  repeat (progress (unfold bind, get, emit, ret, throw; cbn -[dispose])).
  destruct (is_done h); [reflexivity|].
  destruct error as [message_of toString|is_null];
    repeat (progress (unfold bind, get, emit, ret, throw; cbn -[dispose]));
    [|reflexivity].
  destruct (dispose h) as [[[[]|e|] h1] t1]; cbn; rewrite ?app_nil_r; reflexivity.
Qed.

Lemma dispose_resumed (w : World) (h : Handler) :
  resume_to_end w 1 DisposeCalled h = dispose h.
Proof.
  cbn [resume_to_end resume]. unfold bind, ret.
  destruct (dispose h) as [[[[]|e|] h1] t1]; cbn; rewrite ?app_nil_r; reflexivity.
Qed.

(** One step of a call in progress: it returns, it disposes only a live
    handler, and it uses up what it makes of terminal calls. *)
Lemma resume_step (w : World) (c : CallState) (h : Handler) :
  exists c' h' t,
    try_catch (resume w c) (fun _ => ret Over) h = (Ok c', h', t)
    /\ (is_done h = true -> is_done h' = true)
    /\ count is_on_dispose t = (if is_done h then 0 else if is_done h' then 1 else 0)%nat
    /\ count is_off t = count is_on_dispose t
    /\ (count is_terminal t + terminal_left (is_done h') c'
        <= terminal_left (is_done h) c)%nat.
Proof.
  assert (Dp : forall k : CallState,
             exists h' t,
               try_catch (dispose;; ret k) (fun _ => ret Over) h = (Ok k, h', t)
               /\ (is_done h = true -> is_done h' = true)
               /\ count is_on_dispose t
                  = (if is_done h then 0 else if is_done h' then 1 else 0)%nat
               /\ count is_off t = count is_on_dispose t
               /\ count is_terminal t = 0%nat).
  { intros k. unfold try_catch, bind. destruct (is_done h) eqn:D.
    - rewrite dispose_done by exact D. cbn. exists h, []. cbn. rewrite D.
      repeat split; auto.
    - rewrite dispose_fresh by exact D. cbn.
      exists (set_is_done true h), [ChatClientOff "ai_indicator.stop"; OnDispose].
      cbn. repeat split; auto. }
  destruct c as [mid|outcome| |error|error| | |event now| ]; cbn [resume].
  - unfold try_catch, bind, get, emit, ret. cbn.
    destruct (is_done h) eqn:D; cbn.
    + do 3 eexists. split; [reflexivity|]. rewrite D. cbn. repeat split; auto.
    + destruct (message_id_differs mid (msg_id (message h))); cbn;
        do 3 eexists; (split; [reflexivity|]); rewrite D; cbn; repeat split; auto.
  - unfold try_catch, bind, get, emit, ret.
    destruct outcome as [error|]; cbn; do 3 eexists; (split; [reflexivity|]);
      destruct (is_done h); cbn; repeat split; auto.
  - destruct (Dp Over) as (h' & t & E & D & N & O & X).
    exists Over, h', t. rewrite X. cbn. repeat split; auto; lia.
  - unfold try_catch, bind, get, emit, ret. cbn.
    destruct (is_done h) eqn:D; cbn; do 3 eexists; (split; [reflexivity|]);
      rewrite D; cbn; repeat split; auto.
  - unfold try_catch, bind, get, emit, ret, throw.
    destruct error as [message_of toString|is_null]; cbn;
      do 3 eexists; (split; [reflexivity|]); destruct (is_done h); cbn; repeat split; auto.
  - destruct (Dp Over) as (h' & t & E & D & N & O & X).
    exists Over, h', t. rewrite X. cbn. repeat split; auto; lia.
  - destruct (Dp Over) as (h' & t & E & D & N & O & X).
    exists Over, h', t. rewrite X. cbn. repeat split; auto; lia.
  - clear Dp. pose proof (handleStreamEvent_returns event now h) as Hr.
    pose proof (handleStreamEvent_kept event now h) as (_ & _ & _ & D & N & O & X & _).
    pose proof (handleStreamEvent_keeps event now h) as (Dk & _).
    unfold kept_at, try_catch, bind, ret, result_of, handler_of, trace_of in *.
    destruct (handleStreamEvent event now h) as [[[[]|e|] h1] t1]; cbn in *;
      [| |contradiction];
      rewrite ?app_nil_r; exists Over, h1, t1;
      (split; [reflexivity|]); rewrite Dk in *;
      destruct (is_done h); cbn in *; unfold count in *; repeat split; auto; lia.
  - unfold try_catch, ret. do 3 eexists. split; [reflexivity|].
    destruct (is_done h); cbn; repeat split; auto.
Qed.

Lemma terminal_left_done (done done' : bool) (c : CallState) :
  (done = true -> done' = true) ->
  (terminal_left done' c <= terminal_left done c)%nat.
Proof.
  intros H. destruct c; cbn; try lia.
  - destruct done; [rewrite H by reflexivity; lia|]. destruct done'; lia.
  - destruct done; [rewrite H by reflexivity; lia|]. destruct done'; lia.
Qed.

Lemma terminal_left_all_done (done done' : bool) (calls : list CallState) :
  (done = true -> done' = true) ->
  (list_sum (map (terminal_left done') calls)
   <= list_sum (map (terminal_left done) calls))%nat.
Proof.
  intros H. induction calls as [|c rest IH]; cbn [map list_sum fold_right]; [lia|].
  fold (list_sum (map (terminal_left done') rest)).
  fold (list_sum (map (terminal_left done) rest)).
  pose proof (terminal_left_done done done' c H). lia.
Qed.

Lemma terminal_left_replace (done : bool) (i : nat) (c c' : CallState)
      (calls : list CallState) :
  nth_error calls i = Some c ->
  (list_sum (map (terminal_left done) (replace_nth i c' calls)) + terminal_left done c
   = list_sum (map (terminal_left done) calls) + terminal_left done c')%nat.
Proof.
  revert i. induction calls as [|y rest IH]; intros i Hn.
  - destruct i; discriminate.
  - destruct i as [|j]; cbn [nth_error replace_nth map list_sum fold_right] in *.
    + inversion Hn; subst. lia.
    + specialize (IH j Hn). unfold list_sum in IH. lia.
Qed.

Lemma interleave_bound (w : World) (schedule : list nat) (calls : list CallState)
      (h : Handler) :
  exists calls' h' t,
    interleave w calls schedule h = (Ok calls', h', t)
    /\ (is_done h = true -> is_done h' = true)
    /\ count is_on_dispose t = (if is_done h then 0 else if is_done h' then 1 else 0)%nat
    /\ count is_off t = count is_on_dispose t
    /\ (count is_terminal t + list_sum (map (terminal_left (is_done h')) calls')
        <= list_sum (map (terminal_left (is_done h)) calls))%nat.
Proof.
  revert calls h. induction schedule as [|i later IH]; intros calls h.
  - exists calls, h, []. cbn. destruct (is_done h); repeat split; auto.
  - cbn [interleave]. destruct (nth_error calls i) as [c|] eqn:Hn; [|apply IH].
    destruct (resume_step w c h) as (c' & h1 & t1 & E1 & D1 & N1 & O1 & X1).
    destruct (IH (replace_nth i c' calls) h1) as (calls' & h2 & t2 & E2 & D2 & N2 & O2 & X2).
    exists calls', h2, (t1 ++ t2)%list.
    unfold bind. rewrite E1, E2. split; [reflexivity|].
    rewrite !count_app.
    split; [auto|]. split; [|split; [lia|]].
    + rewrite N1, N2.
      destruct (is_done h); [rewrite D1 by reflexivity; reflexivity|].
      destruct (is_done h1); [rewrite D2 by reflexivity; reflexivity|].
      reflexivity.
    + assert (S1 : (list_sum (map (terminal_left (is_done h1)) (replace_nth i c' calls))
                    + terminal_left (is_done h) c
                    <= list_sum (map (terminal_left (is_done h)) calls)
                       + terminal_left (is_done h1) c')%nat).
      { clear - Hn D1. revert i Hn. induction calls as [|y rest IHc]; intros i Hn.
        - destruct i; discriminate.
        - destruct i as [|j]; cbn [nth_error replace_nth map list_sum fold_right] in *.
          + inversion Hn; subst.
            pose proof (terminal_left_all_done (is_done h) (is_done h1) rest D1) as A.
            unfold list_sum in A. lia.
          + specialize (IHc j Hn). unfold list_sum in IHc.
            pose proof (terminal_left_done (is_done h) (is_done h1) y D1). lia. }
      lia.
Qed.

(** X2. The methods test [is_done] on entry only, so calls that overlap at
    their [await]s can each end the reply.  Over calls of the stop listener,
    [handleError], [dispose] and [handleStreamEvent] resumed in any order,
    the disposal callback is still invoked at most once, with one
    deregistration; the run is cancelled or the reply overwritten at most
    once per call, not once in all; and calls made on a disposed handler do
    neither. *)
Theorem overlapping_calls_end_the_reply
        (w : World) (calls : list CallState) (schedule : list nat) (h : Handler) :
  forallb just_called calls = true ->
  (count is_on_dispose (trace_of (interleave w calls schedule h)) <= 1)%nat
  /\ count is_off (trace_of (interleave w calls schedule h))
     = count is_on_dispose (trace_of (interleave w calls schedule h))
  /\ (count is_terminal (trace_of (interleave w calls schedule h)) <= List.length calls)%nat
  /\ (is_done h = true ->
      count is_terminal (trace_of (interleave w calls schedule h)) = 0%nat)
  /\ (forall e,
        is_terminal e = match e with
                        | RunsCancel _ _ => true
                        | PartialUpdateMessage _ _ (Some _) => true
                        | _ => false
                        end).
Proof.
  intros Hc.
  cut ((count is_on_dispose (trace_of (interleave w calls schedule h)) <= 1)%nat
       /\ count is_off (trace_of (interleave w calls schedule h))
          = count is_on_dispose (trace_of (interleave w calls schedule h))
       /\ (count is_terminal (trace_of (interleave w calls schedule h))
           <= List.length calls)%nat
       /\ (is_done h = true ->
           count is_terminal (trace_of (interleave w calls schedule h)) = 0%nat)).
  { intros (H1 & H2 & H3 & H4). repeat (split; [assumption|]).
    intros e. destruct e; reflexivity. }
  destruct (interleave_bound w schedule calls h) as (calls' & h' & t & E & D & N & O & X).
  rewrite E. cbn [trace_of snd].
  assert (B : forall done,
             (list_sum (map (terminal_left done) calls)
              <= (if done then 0 else List.length calls))%nat).
  { intros done. clear - Hc.
    induction calls as [|c rest IH]; cbn [forallb map list_sum fold_right List.length] in *.
    - destruct done; lia.
    - apply andb_true_iff in Hc as [Hj Hr]. specialize (IH Hr). unfold list_sum in IH.
      destruct c; try discriminate; destruct done; cbn [terminal_left] in *; lia. }
  split; [|split; [exact O|split]].
  - rewrite N. destruct (is_done h); [lia|]. destruct (is_done h'); lia.
  - specialize (B (is_done h)). destruct (is_done h); cbv beta iota in B; lia.
  - intros Hd. specialize (B (is_done h)). rewrite Hd in *. cbv beta iota in B. lia.
Qed.

(** A stop request suspended at the cancellation while the run fails: the
    run is cancelled and the reply is overwritten, and the signal that clears
    the indicator is sent once the handler is disposed. *)
Lemma overlapping_calls_end_the_reply_witness :
  interleave Sample.world
             [StopCalled (Some "m1"); ErrorCalled (new_Error "rate limited")]
             [0%nat; 1%nat; 1%nat; 1%nat; 0%nat; 0%nat] Sample.handler
  = (Ok [Over; Over], set_is_done true Sample.handler,
     [RunsCancel EmptyString "thread_1";
      SendEvent "ai_indicator.update" (Some "AI_STATE_ERROR") "messaging:c1" "m1";
      PartialUpdateMessage "m1" "rate limited" (Some "Error: rate limited");
      ChatClientOff "ai_indicator.stop";
      OnDispose;
      SendEvent "ai_indicator.clear" None "messaging:c1" "m1"])
  /\ count is_terminal
       (trace_of (interleave Sample.world
                    [StopCalled (Some "m1"); ErrorCalled (new_Error "rate limited")]
                    [0%nat; 1%nat; 1%nat; 1%nat; 0%nat; 0%nat] Sample.handler))
     = 2%nat
  /\ ((count is_on_dispose
         (trace_of (interleave Sample.world
                      [StopCalled (Some "m1"); ErrorCalled (new_Error "rate limited")]
                      [0%nat; 1%nat; 1%nat; 1%nat; 0%nat; 0%nat] Sample.handler))
       <= 1)%nat
      /\ count is_off
           (trace_of (interleave Sample.world
                        [StopCalled (Some "m1"); ErrorCalled (new_Error "rate limited")]
                        [0%nat; 1%nat; 1%nat; 1%nat; 0%nat; 0%nat] Sample.handler))
         = count is_on_dispose
             (trace_of (interleave Sample.world
                          [StopCalled (Some "m1"); ErrorCalled (new_Error "rate limited")]
                          [0%nat; 1%nat; 1%nat; 1%nat; 0%nat; 0%nat] Sample.handler))
      /\ (count is_terminal
            (trace_of (interleave Sample.world
                         [StopCalled (Some "m1"); ErrorCalled (new_Error "rate limited")]
                         [0%nat; 1%nat; 1%nat; 1%nat; 0%nat; 0%nat] Sample.handler))
          <= List.length [StopCalled (Some "m1"); ErrorCalled (new_Error "rate limited")])%nat
      /\ (is_done Sample.handler = true ->
          count is_terminal
            (trace_of (interleave Sample.world
                         [StopCalled (Some "m1"); ErrorCalled (new_Error "rate limited")]
                         [0%nat; 1%nat; 1%nat; 1%nat; 0%nat; 0%nat] Sample.handler))
          = 0%nat)
      /\ (forall e,
            is_terminal e = match e with
                            | RunsCancel _ _ => true
                            | PartialUpdateMessage _ _ (Some _) => true
                            | _ => false
                            end)).
Proof.
  split; [reflexivity|]. split; [reflexivity|].
  apply (overlapping_calls_end_the_reply Sample.world
           [StopCalled (Some "m1"); ErrorCalled (new_Error "rate limited")]
           [0%nat; 1%nat; 1%nat; 1%nat; 0%nat; 0%nat] Sample.handler).
  reflexivity.
Defined.

(** Two stop signals in quick succession: the run is cancelled twice, the
    handler is disposed once. *)
Example two_overlapping_stops :
  trace_of (interleave Sample.world [StopCalled (Some "m1"); StopCalled (Some "m1")]
                       [0%nat; 1%nat; 0%nat; 1%nat; 0%nat; 1%nat] Sample.handler)
  = [RunsCancel EmptyString "thread_1";
     RunsCancel EmptyString "thread_1";
     SendEvent "ai_indicator.clear" None "messaging:c1" "m1";
     SendEvent "ai_indicator.clear" None "messaging:c1" "m1";
     ChatClientOff "ai_indicator.stop";
     OnDispose].
Proof. reflexivity. Qed.

(** X3. Through any sequence of calls, every channel event and every message
    update the handler makes names its own reply message, and every
    cancellation and submission names its own thread; the message and the
    thread of the handler never change. *)
Theorem calls_stay_on_own_message (w : World) (ops : list Op) (h : Handler) :
  Forall (addressed_to (msg_cid (message h)) (msg_id (message h)))
         (trace_of (perform_all w ops h))
  /\ Forall (on_thread (openAiThread_id h)) (trace_of (perform_all w ops h))
  /\ msg_id (message (handler_of (perform_all w ops h))) = msg_id (message h)
  /\ msg_cid (message (handler_of (perform_all w ops h))) = msg_cid (message h)
  /\ openAiThread_id (handler_of (perform_all w ops h)) = openAiThread_id h.
Proof.
  destruct (perform_all_kept w ops h) as (I & C & T & _ & _ & _ & _ & A & R).
  repeat split; assumption.
Qed.

Lemma run_result (w : World) (assistantStream : AssistantStream) (fuel : nat) (h : Handler) :
  (result_of (run w assistantStream fuel h) <> OutOfFuel ->
   is_done (handler_of (run w assistantStream fuel h)) = true)
  /\ (result_of (run w assistantStream fuel h) = Ok tt ->
      is_done (handler_of (run w assistantStream fuel h)) = true)
  /\ (forall e,
        result_of (run w assistantStream fuel h) = Throw e ->
        exists is_null : bool,
          e = TypeError (if is_null
                         then "Cannot read properties of null (reading 'message')"
                         else "Cannot read properties of undefined (reading 'message')")
          /\ In (ConsoleError (LogRunError (JsNullish is_null)))
                (trace_of (run w assistantStream fuel h))).
Proof.
  unfold run, try_finally, try_catch, result_of, handler_of, trace_of.
  destruct (while_not_completed w fuel (mkLocals false [] assistantStream) h)
    as [[[[]|e|] h1] t1]; cbn -[dispose handleError].
  - destruct (is_done h1) eqn:D.
    + rewrite dispose_done by exact D. cbn.
      split; [auto|]. split; [auto|]. intros e He. discriminate.
    + rewrite dispose_fresh by exact D. cbn.
      split; [auto|]. split; [auto|]. intros e He. discriminate.
  - unfold bind, emit. destruct (is_done h1) eqn:D.
    + rewrite handleError_done by exact D. cbn -[dispose].
      rewrite dispose_done by exact D. cbn.
      split; [auto|]. split; [auto|]. intros e' He. discriminate.
    + destruct e as [message_of toString|is_null].
      * rewrite handleError_fresh by exact D. cbn -[dispose].
        rewrite dispose_done by reflexivity. cbn.
        split; [auto|]. split; [auto|]. intros e' He. discriminate.
      * rewrite handleError_nullish by exact D. cbn -[dispose].
        rewrite dispose_fresh by exact D. cbn.
        split; [auto|]. split; [auto|]. intros e' He. inversion He; subst e'.
        exists is_null. split; [reflexivity|].
        rewrite !in_app_iff. cbn [In]. tauto.
  - split; [intros H; contradiction|]. split; [discriminate|]. intros e He. discriminate.
Qed.

(** X4. [run] ends with the handler disposed, whether it returns or throws.
    The one exception it lets out is the TypeError [handleError] raises on
    reading the message of a caught [undefined] or [null], the value its
    [catch] logged; every other failure of the stream is resolved inside. *)
Theorem run_returns_disposed (w : World) (assistantStream : AssistantStream)
        (fuel : nat) (h : Handler) :
  (result_of (run w assistantStream fuel h) <> OutOfFuel ->
   is_done (handler_of (run w assistantStream fuel h)) = true)
  /\ (forall e,
        result_of (run w assistantStream fuel h) = Throw e ->
        exists is_null : bool,
          e = TypeError (if is_null
                         then "Cannot read properties of null (reading 'message')"
                         else "Cannot read properties of undefined (reading 'message')")
          /\ In (ConsoleError (LogRunError (JsNullish is_null)))
                (trace_of (run w assistantStream fuel h)))
  /\ (forall message_of toString later,
        result_of (run w (mkPass [] (IterThrows (mkJsError message_of toString)) :: later)
                       (S fuel) h)
        = Ok tt)
  /\ (forall is_null later,
        is_done h = false ->
        result_of (run w (mkPass [] (IterThrows (JsNullish is_null)) :: later) (S fuel) h)
        = Throw (TypeError (if is_null
                            then "Cannot read properties of null (reading 'message')"
                            else "Cannot read properties of undefined (reading 'message')"))).
Proof.
  destruct (run_result w assistantStream fuel h) as (D & _ & T).
  split; [exact D|]. split; [exact T|]. split.
  - intros message_of toString later.
    unfold run, try_finally, try_catch, result_of.
    cbn -[dispose handleError]. unfold bind, emit.
    destruct (is_done h) eqn:Hd.
    + rewrite handleError_done by exact Hd. cbn -[dispose].
      rewrite dispose_done by exact Hd. reflexivity.
    + rewrite handleError_fresh by exact Hd. cbn -[dispose].
      rewrite dispose_done by reflexivity. reflexivity.
  - intros is_null later Hd.
    unfold run, try_finally, try_catch, result_of.
    cbn -[dispose handleError]. unfold bind, emit.
    rewrite handleError_nullish by exact Hd. cbn -[dispose].
    rewrite dispose_fresh by exact Hd. reflexivity.
Qed.

(** ** More on the handling of stream events *)

Lemma handleStreamEvent_appends (event : AssistantStreamEvent) (now : Z) (h : Handler) :
  msg_text (message (handler_of (handleStreamEvent event now h)))
  = msg_text (message h)
      ++ match appended_text event with Some text => text | None => EmptyString end
  /\ chunk_counter (handler_of (handleStreamEvent event now h))
     = chunk_counter h + match appended_text event with Some _ => 1 | None => 0 end
  /\ run_id (handler_of (handleStreamEvent event now h))
     = match event with
       | ThreadRunCreated data => run_data_id data
       | _ => run_id h
       end.
Proof.
  destruct event as [d|c|c|s|d|d|d|t]; cbn;
    try (rewrite append_empty_r, Z.add_0_r; auto; fail).
  - destruct c as [[|[[v|]|ty] bs]|]; cbn;
      try (rewrite append_empty_r, Z.add_0_r; auto; fail).
    destruct (now - last_update_time h >? 1000); cbn; auto.
  - destruct c; cbn; rewrite append_empty_r, Z.add_0_r; auto.
  - destruct s; cbn; rewrite append_empty_r, Z.add_0_r; auto.
Qed.

Lemma handle_events_kept (arrivals : list Arrival) (h : Handler) :
  kept_at (handle_events arrivals) h.
Proof.
  revert h. induction arrivals as [|a rest IH]; intros h; cbn [handle_events].
  - apply keeps_refl.
  - apply kept_at_bind; [apply kept_at_not_awaited, handleStreamEvent_kept|].
    intros. apply IH.
Qed.



Lemma handler_of_bind {A B} (m : M A) (k : A -> M B) (h h1 : Handler) (a : A) (t1 : Trace) :
  m h = (Ok a, h1, t1) -> handler_of (bind m k h) = handler_of (k a h1).
Proof.
  intros E. unfold bind, handler_of. rewrite E.
  destruct (k a h1) as [[r h2] t2]. reflexivity.
Qed.

(** The run identifier after the [for await] loop went over the events of an
    iteration. *)
Lemma for_await_run_id (w : World) (events : list Arrival) (iter_end : IterationEnd)
      (l : Locals) (h : Handler) :
  isCompleted l = false ->
  run_id (handler_of (for_await w events iter_end l h)) = tracked_run_id events (run_id h).
Proof.
  revert l h. induction events as [|a rest IH]; intros l h Hl.
  - cbn. destruct iter_end; reflexivity.
  - assert (Plain : forall h1,
               run_id (handler_of
                         ((if isCompleted l then ret l
                           else
                             match toolOutputs l with
                             | [] => for_await w rest iter_end l
                             | _ :: _ =>
                                 h0 <- get;;
                                 emit (SubmitToolOutputsStream (run_id h0) (openAiThread_id h0)
                                                               (toolOutputs l));;
                                 for_await w rest iter_end
                                   (mkLocals (isCompleted l) []
                                      (submitToolOutputsStream w (run_id h0)
                                         (openAiThread_id h0) (toolOutputs l)))
                             end) h1))
               = tracked_run_id rest (run_id h1)).
    { intros h1. rewrite Hl. destruct (toolOutputs l) as [|o os].
      - apply IH. exact Hl.
      - rewrite (handler_of_bind get _ h1 h1 h1 []) by reflexivity.
        rewrite (handler_of_bind (emit _) _ h1 h1 tt [_]) by reflexivity.
        apply IH. reflexivity. }
    cbn [for_await].
    rewrite (handler_of_bind _ _ h _ tt _ (not_awaited_handleStreamEvent _ _ h)).
    destruct (handleStreamEvent_appends (arr_event a) (arr_now a) h) as (_ & _ & R).
    remember (handler_of (handleStreamEvent (arr_event a) (arr_now a) h)) as h1 eqn:Eh1.
    clear Eh1.
    cbn [tracked_run_id].
    destruct (arr_event a) as [d|c|c|sd|d|d|d|tag] eqn:Ea; cbn [requires_tool_outputs];
      try (rewrite Plain, R; reflexivity).
    + destruct (required_action d) as [ra|]; [|rewrite Plain, R; reflexivity].
      destruct (ra_type ra =? "submit_tool_outputs")%string;
        [|rewrite Plain, R; reflexivity].
      rewrite (handler_of_bind (modify _) _ h1 (set_run_id (run_data_id d) h1) tt [])
        by reflexivity.
      rewrite (handler_of_bind get _ _ (set_run_id (run_data_id d) h1)
                               (set_run_id (run_data_id d) h1) []) by reflexivity.
      rewrite (handler_of_bind (emit _) _ _ (set_run_id (run_data_id d) h1) tt [_])
        by reflexivity.
      destruct (collect_tool_outputs_spec w (ra_tool_calls ra) []
                                          (set_run_id (run_data_id d) h1))
        as (outs & t & E & _).
      cbn [app] in E. rewrite (handler_of_bind _ _ _ _ _ _ E). reflexivity.
    + cbn. exact R.
    + destruct (is_done h1) eqn:D.
      * rewrite (handler_of_bind _ _ _ _ _ _ (handleError_done _ h1 D)). cbn. exact R.
      * unfold new_Error.
        rewrite (handler_of_bind _ _ _ _ _ _ (handleError_fresh _ _ h1 D)). cbn. exact R.
Qed.

(** X6. Once the loop of [run] has gone over the events of an iteration, the
    run identifier is the one it tracked: that of the last run-created
    event, replaced by that of the event that asks for tool outputs, on
    which the loop stops, or the one held before when there was neither.  A
    stop signal for the handler's message, while the handler is live, then
    asks first for the cancellation of that run on the handler's thread. *)
Theorem stop_cancels_tracked_run (w : World) (events : list Arrival)
        (iter_end : IterationEnd) (l : Locals) (h : Handler) :
  isCompleted l = false ->
  is_done (handler_of (for_await w events iter_end l h)) = false ->
  run_id (handler_of (for_await w events iter_end l h)) = tracked_run_id events (run_id h)
  /\ exists rest,
       trace_of (handleStopGenerating w (Some (msg_id (message h)))
                   (handler_of (for_await w events iter_end l h)))
       = RunsCancel (tracked_run_id events (run_id h)) (openAiThread_id h) :: rest.
Proof.
  intros Hl Hd.
  pose proof (for_await_run_id w events iter_end l h Hl) as R.
  destruct (for_await_kept w events iter_end l h) as (I & _ & T & _).
  split; [exact R|].
  remember (handler_of (for_await w events iter_end l h)) as h1 eqn:Eh1. clear Eh1.
  assert (M : message_id_differs (Some (msg_id (message h))) (msg_id (message h1)) = false).
  { apply message_id_differs_false. congruence. }
  unfold handleStopGenerating, bind, get, try_catch, cancel_run, emit.
  cbn -[message_id_differs dispose].
  rewrite Hd, M. cbn -[dispose]. rewrite R, T.
  destruct (runs_cancel w (tracked_run_id events (run_id h)) (openAiThread_id h));
    cbn -[dispose]; destruct (dispose h1) as [[r h2] t2]; cbn; eauto.
Qed.

Lemma stop_cancels_tracked_run_witness :
  run_id (handler_of (for_await Sample.world
            [mkArrival (ThreadRunCreated Sample.run_1) 5000;
             mkArrival (requires_action_event "run_2" [Sample.web_search_call] None) 5010]
            IterDone (mkLocals false [] []) Sample.handler))
  = "run_2"
  /\ exists rest,
       trace_of (handleStopGenerating Sample.world (Some "m1")
                   (handler_of (for_await Sample.world
                      [mkArrival (ThreadRunCreated Sample.run_1) 5000;
                       mkArrival (requires_action_event "run_2" [Sample.web_search_call] None)
                                 5010]
                      IterDone (mkLocals false [] []) Sample.handler)))
       = RunsCancel "run_2" "thread_1" :: rest.
Proof.
  apply (stop_cancels_tracked_run Sample.world
           [mkArrival (ThreadRunCreated Sample.run_1) 5000;
            mkArrival (requires_action_event "run_2" [Sample.web_search_call] None) 5010]
           IterDone (mkLocals false [] []) Sample.handler);
    reflexivity.
Defined.

(** ** Completion and pending tool outputs *)

Lemma submit_free_count (t : Trace) : existsb is_submit t = false -> count is_submit t = 0%nat.
Proof.
  induction t as [|e t IH]; [reflexivity|]. cbn [existsb]. intros H.
  apply orb_false_iff in H as [He Ht]. unfold count in *. cbn [filter].
  rewrite He. apply IH. exact Ht.
Qed.

Lemma handle_events_submit_free (arrivals : list Arrival) (h : Handler) :
  count is_submit (trace_of (handle_events arrivals h)) = 0%nat.
Proof.
  revert h. induction arrivals as [|a rest IH]; intros h; [reflexivity|].
  rewrite handle_events_cons. cbn [trace_of snd]. rewrite count_app.
  fold (trace_of (handle_events rest
          (handler_of (handleStreamEvent (arr_event a) (arr_now a) h)))).
  rewrite IH, Nat.add_0_r. clear IH.
  destruct (arr_event a) as [d|c|c|s|d|d|d|t]; cbn; try reflexivity.
  - destruct c as [[|[[v|]|ty] bs]|]; cbn; try reflexivity.
    destruct (arr_now a - last_update_time h >? 1000); reflexivity.
  - destruct c; reflexivity.
  - destruct s; reflexivity.
Qed.

(** X7. On a handler that is not disposed, a run-completed event, reached
    after events that do not leave the loop, ends the run: the handler is
    disposed and [run] returns, with no call besides those of the events
    before and the disposal.  The events after it and the later iterations of
    the stream are not looked at. *)
Theorem completion_ends_the_run
        (w : World) (pre post : list Arrival) (data : Run) (now : Z)
        (iter_end : IterationEnd) (later : AssistantStream) (fuel : nat) (h : Handler) :
  is_done h = false ->
  forallb (fun a => is_plain (arr_event a)) pre = true ->
  run w (mkPass (pre ++ mkArrival (ThreadRunCompleted data) now :: post) iter_end :: later)
      (S fuel) h
  = (Ok tt,
     set_is_done true (handler_of (handle_events pre h)),
     (trace_of (handle_events pre h) ++ [ChatClientOff "ai_indicator.stop"; OnDispose])%list).
Proof.
  intros Hd Hp.
  pose proof (handle_events_returns pre h) as (_ & D & _).
  unfold run, try_finally, try_catch.
  cbn [while_not_completed isCompleted currentStream toolOutputs next_pass
       pass_events pass_end].
  unfold bind at 1. rewrite for_await_plain by auto.
  unfold bind at 1. rewrite handle_events_eq.
  set (h1 := handler_of (handle_events pre h)) in *.
  set (t1 := trace_of (handle_events pre h)).
  cbn [for_await arr_event arr_now requires_tool_outputs isCompleted toolOutputs
       currentStream].
  unfold bind at 1. rewrite not_awaited_handleStreamEvent.
  cbn -[dispose while_not_completed].
  rewrite while_completed by reflexivity.
  rewrite dispose_fresh by congruence.
  repeat rewrite <- app_assoc. reflexivity.
Qed.

Lemma completion_ends_the_run_witness :
  run Sample.world
      [mkPass ([mkArrival (text_delta "Hel") 5000]
                 ++ mkArrival (ThreadRunCompleted Sample.run_1) 5010
                 :: [mkArrival (text_delta "late") 9000])
              IterDone]
      1 Sample.handler
  = (Ok tt,
     set_is_done true
       (handler_of (handle_events [mkArrival (text_delta "Hel") 5000] Sample.handler)),
     (trace_of (handle_events [mkArrival (text_delta "Hel") 5000] Sample.handler)
        ++ [ChatClientOff "ai_indicator.stop"; OnDispose])%list).
Proof.
  apply (completion_ends_the_run Sample.world [mkArrival (text_delta "Hel") 5000]
           [mkArrival (text_delta "late") 9000] Sample.run_1 5010 IterDone [] 0
           Sample.handler); reflexivity.
Defined.

(** X8. When the stream, iterated again after a batch of tool outputs was
    collected, starts with a run-completed event, [run] returns with the
    handler disposed and the batch is never submitted. *)
Theorem completion_drops_pending_outputs
        (w : World) (id : string) (toolCalls : list ToolCall) (error : option string)
        (now : Z) (rest1 : list Arrival) (end1 : IterationEnd)
        (data : Run) (now2 : Z) (rest2 : list Arrival) (end2 : IterationEnd)
        (later : AssistantStream) (fuel : nat) (h : Handler) :
  result_of (run w (mkPass (mkArrival (requires_action_event id toolCalls error) now :: rest1)
                           end1
                      :: mkPass (mkArrival (ThreadRunCompleted data) now2 :: rest2) end2
                      :: later)
                 (S (S fuel)) h) = Ok tt
  /\ count is_submit
           (trace_of (run w (mkPass (mkArrival (requires_action_event id toolCalls error) now
                                       :: rest1) end1
                               :: mkPass (mkArrival (ThreadRunCompleted data) now2 :: rest2)
                                         end2
                               :: later)
                          (S (S fuel)) h)) = 0%nat
  /\ is_done (handler_of
                (run w (mkPass (mkArrival (requires_action_event id toolCalls error) now
                                  :: rest1) end1
                          :: mkPass (mkArrival (ThreadRunCompleted data) now2 :: rest2) end2
                          :: later)
                     (S (S fuel)) h)) = true.
Proof.
  assert (X : exists h' tr,
             run w (mkPass (mkArrival (requires_action_event id toolCalls error) now :: rest1)
                           end1
                      :: mkPass (mkArrival (ThreadRunCompleted data) now2 :: rest2) end2
                      :: later)
                 (S (S fuel)) h = (Ok tt, h', tr)
             /\ count is_submit tr = 0%nat /\ is_done h' = true).
  { unfold run, try_finally, try_catch.
    cbn [while_not_completed isCompleted currentStream toolOutputs next_pass
         pass_events pass_end].
    destruct (for_await_requires_action w id toolCalls error now rest1 end1
                (mkLocals false []
                   (mkPass (mkArrival (ThreadRunCompleted data) now2 :: rest2) end2 :: later)) h)
      as (outs & t & E & Hs & _).
    unfold bind at 1. rewrite E.
    cbn [isCompleted currentStream toolOutputs next_pass pass_events pass_end].
    unfold bind at 1.
    cbn [for_await arr_event arr_now requires_tool_outputs isCompleted toolOutputs
         currentStream].
    unfold bind at 1. rewrite not_awaited_handleStreamEvent.
    cbn -[dispose while_not_completed].
    rewrite while_completed by reflexivity.
    apply submit_free_count in Hs.
    destruct (is_done (set_run_id id h)) eqn:D.
    - rewrite dispose_done by exact D. do 2 eexists. split; [reflexivity|].
      rewrite !app_nil_r. split; assumption.
    - rewrite dispose_fresh by exact D. do 2 eexists. split; [reflexivity|].
      rewrite !count_app, Hs. split; reflexivity. }
  destruct X as (h' & tr & E & Hc & Hd). rewrite E. repeat split; assumption.
Qed.

(** X9. While a batch of tool outputs is pending, the first event on which
    the loop goes on submits the batch, once: under the run identifier the
    handler holds after that event was handled, on the handler's thread.  The
    events that follow in the same iteration are handled without a further
    submission, and the stream returned is the current one when the iteration
    ends. *)
Theorem pending_outputs_go_with_next_event
        (w : World) (a : Arrival) (rest : list Arrival) (out : ToolOutput)
        (outs : list ToolOutput) (stream : AssistantStream) (h : Handler) :
  is_plain (arr_event a) = true ->
  forallb (fun a' => is_plain (arr_event a')) rest = true ->
  for_await w (a :: rest) IterDone (mkLocals false (out :: outs) stream) h
  = (Ok (mkLocals false []
           (submitToolOutputsStream w
              (run_id (handler_of (handleStreamEvent (arr_event a) (arr_now a) h)))
              (openAiThread_id h) (out :: outs))),
     handler_of (handle_events (a :: rest) h),
     (trace_of (handleStreamEvent (arr_event a) (arr_now a) h)
        ++ SubmitToolOutputsStream
             (run_id (handler_of (handleStreamEvent (arr_event a) (arr_now a) h)))
             (openAiThread_id h) (out :: outs)
        :: trace_of (handle_events rest
                       (handler_of (handleStreamEvent (arr_event a) (arr_now a) h))))%list)
  /\ count is_submit
           (trace_of (for_await w (a :: rest) IterDone
                                (mkLocals false (out :: outs) stream) h)) = 1%nat.
Proof.
  intros Ha Hrest.
  assert (E : for_await w (a :: rest) IterDone (mkLocals false (out :: outs) stream) h
              = (Ok (mkLocals false []
                       (submitToolOutputsStream w
                          (run_id (handler_of (handleStreamEvent (arr_event a) (arr_now a) h)))
                          (openAiThread_id h) (out :: outs))),
                 handler_of (handle_events (a :: rest) h),
                 (trace_of (handleStreamEvent (arr_event a) (arr_now a) h)
                    ++ SubmitToolOutputsStream
                         (run_id (handler_of (handleStreamEvent (arr_event a) (arr_now a) h)))
                         (openAiThread_id h) (out :: outs)
                    :: trace_of (handle_events rest
                         (handler_of (handleStreamEvent (arr_event a) (arr_now a) h))))%list)).
  { destruct (handleStreamEvent_kept (arr_event a) (arr_now a) h) as (_ & _ & T & _).
    rewrite handle_events_cons. cbn [handler_of fst snd].
    fold (handler_of (handle_events rest
            (handler_of (handleStreamEvent (arr_event a) (arr_now a) h)))).
    cbn [for_await]. unfold bind at 1. rewrite not_awaited_handleStreamEvent.
    remember (handler_of (handleStreamEvent (arr_event a) (arr_now a) h)) as h1 eqn:Eh1.
    remember (trace_of (handleStreamEvent (arr_event a) (arr_now a) h)) as t1 eqn:Et1.
    clear Eh1 Et1.
    assert (K : forall l,
               match requires_tool_outputs (arr_event a) with
               | Some (data, toolCalls) =>
                   modify (set_run_id (run_data_id data));;
                   h0 <- get;;
                   emit (SendEvent "ai_indicator.update" (Some "AI_STATE_EXTERNAL_SOURCES")
                                   (msg_cid (message h0)) (msg_id (message h0)));;
                   outs0 <- collect_tool_outputs w toolCalls [];;
                   ret (mkLocals (isCompleted l) outs0 (currentStream l))
               | None =>
                   match arr_event a with
                   | ThreadRunCompleted _ =>
                       ret (mkLocals true (toolOutputs l) (currentStream l))
                   | ThreadRunFailed data =>
                       handleError (new_Error (failure_message data));;
                       ret (mkLocals true (toolOutputs l) (currentStream l))
                   | _ =>
                       if isCompleted l then ret l
                       else
                         match toolOutputs l with
                         | [] => for_await w rest IterDone l
                         | _ :: _ =>
                             h0 <- get;;
                             emit (SubmitToolOutputsStream (run_id h0) (openAiThread_id h0)
                                                           (toolOutputs l));;
                             for_await w rest IterDone
                               (mkLocals (isCompleted l) []
                                  (submitToolOutputsStream w (run_id h0) (openAiThread_id h0)
                                                           (toolOutputs l)))
                         end
                   end
               end
               = if isCompleted l then ret l
                 else
                   match toolOutputs l with
                   | [] => for_await w rest IterDone l
                   | _ :: _ =>
                       h0 <- get;;
                       emit (SubmitToolOutputsStream (run_id h0) (openAiThread_id h0)
                                                     (toolOutputs l));;
                       for_await w rest IterDone
                         (mkLocals (isCompleted l) []
                            (submitToolOutputsStream w (run_id h0) (openAiThread_id h0)
                                                     (toolOutputs l)))
                   end).
    { intros l. unfold is_plain in Ha.
      destruct (requires_tool_outputs (arr_event a)) as [[d c]|].
      - destruct (arr_event a); discriminate.
      - destruct (arr_event a); try discriminate; reflexivity. }
    cbn beta iota. rewrite K. cbn [isCompleted toolOutputs].
    unfold bind, get, emit. cbn beta iota.
    rewrite <- (app_nil_r rest) at 1.
    rewrite for_await_plain by auto.
    unfold bind. rewrite handle_events_eq. cbn [for_await]. unfold ret.
    rewrite T, app_nil_r. reflexivity. }
  split; [exact E|].
  rewrite E. cbn [trace_of snd]. rewrite count_app.
  change (SubmitToolOutputsStream ?r ?t ?o :: ?x) with ([SubmitToolOutputsStream r t o] ++ x)%list.
  rewrite count_app, handle_events_submit_free.
  pose proof (handle_events_submit_free [a] h) as S1.
  rewrite handle_events_cons in S1. cbn [trace_of snd handle_events ret] in S1.
  rewrite app_nil_r in S1. unfold trace_of in *. rewrite S1. reflexivity.
Qed.

Lemma pending_outputs_go_with_next_event_witness :
  for_await Sample.world
            (mkArrival (ThreadRunCreated (mkRun "run_2" None None)) 20
               :: [mkArrival (text_delta "x") 30])
            IterDone
            (mkLocals false (mkToolOutput "call_1" "sunny" :: []) []) Sample.handler
  = (Ok (mkLocals false []
           (submitToolOutputsStream Sample.world
              (run_id (handler_of (handleStreamEvent
                                     (arr_event (mkArrival (ThreadRunCreated
                                                   (mkRun "run_2" None None)) 20))
                                     (arr_now (mkArrival (ThreadRunCreated
                                                 (mkRun "run_2" None None)) 20))
                                     Sample.handler)))
              (openAiThread_id Sample.handler) (mkToolOutput "call_1" "sunny" :: []))),
     handler_of (handle_events
                   (mkArrival (ThreadRunCreated (mkRun "run_2" None None)) 20
                      :: [mkArrival (text_delta "x") 30]) Sample.handler),
     (trace_of (handleStreamEvent
                  (arr_event (mkArrival (ThreadRunCreated (mkRun "run_2" None None)) 20))
                  (arr_now (mkArrival (ThreadRunCreated (mkRun "run_2" None None)) 20))
                  Sample.handler)
        ++ SubmitToolOutputsStream
             (run_id (handler_of (handleStreamEvent
                                    (arr_event (mkArrival (ThreadRunCreated
                                                  (mkRun "run_2" None None)) 20))
                                    (arr_now (mkArrival (ThreadRunCreated
                                                (mkRun "run_2" None None)) 20))
                                    Sample.handler)))
             (openAiThread_id Sample.handler) (mkToolOutput "call_1" "sunny" :: [])
        :: trace_of (handle_events [mkArrival (text_delta "x") 30]
                       (handler_of (handleStreamEvent
                                      (arr_event (mkArrival (ThreadRunCreated
                                                    (mkRun "run_2" None None)) 20))
                                      (arr_now (mkArrival (ThreadRunCreated
                                                  (mkRun "run_2" None None)) 20))
                                      Sample.handler))))%list)
  /\ count is_submit
           (trace_of (for_await Sample.world
                        (mkArrival (ThreadRunCreated (mkRun "run_2" None None)) 20
                           :: [mkArrival (text_delta "x") 30])
                        IterDone
                        (mkLocals false (mkToolOutput "call_1" "sunny" :: []) [])
                        Sample.handler)) = 1%nat.
Proof.
  apply (pending_outputs_go_with_next_event Sample.world
           (mkArrival (ThreadRunCreated (mkRun "run_2" None None)) 20)
           [mkArrival (text_delta "x") 30] (mkToolOutput "call_1" "sunny") [] []
           Sample.handler); reflexivity.
Defined.

Example batch_goes_to_the_run_created_last :
  trace_of (for_await Sample.world
              [mkArrival (ThreadRunCreated (mkRun "run_2" None None)) 20]
              IterDone (mkLocals false [mkToolOutput "call_1" "sunny"] [])
              (set_run_id "run_1" Sample.handler))
  = [SubmitToolOutputsStream "run_2" "thread_1" [mkToolOutput "call_1" "sunny"]].
Proof. reflexivity. Qed.

(** ** Search requests of a batch *)

Lemma performWebSearch_requests (w : World) (query : option JsValue) (h : Handler) :
  filter is_axios_post (trace_of (performWebSearch w query h))
  = match configured_key w with
    | None => []
    | Some key =>
        match query with
        | Some x =>
            if converts_to_string x
            then [AxiosPost "https://api.tavily.com/search" query ("Bearer " ++ key)]
            else []
        | None => [AxiosPost "https://api.tavily.com/search" None ("Bearer " ++ key)]
        end
    end.
Proof.
  unfold performWebSearch. destruct (configured_key w) as [key|]; [|reflexivity].
  unfold bind at 1. unfold template_literal.
  destruct query as [x|]; [destruct (converts_to_string x)|]; try reflexivity;
    (destruct (axios_post w _ key) as [data|response message|error]; try reflexivity;
     unfold bind, emit, template_literal;
     destruct (converts_to_string (response_details response message)); reflexivity).
Qed.

Lemma web_search_output_requests (w : World) (toolCall : ToolCall) (h : Handler) :
  filter is_axios_post (trace_of (web_search_output w toolCall h))
  = match configured_key w with
    | None => []
    | Some key => call_requests w key toolCall
    end.
Proof.
  assert (G : forall query,
             filter is_axios_post
               (trace_of
                  (try_catch
                     (searchResult <- performWebSearch w query;;
                      ret (mkToolOutput (tc_id toolCall) searchResult))
                     (fun error =>
                        emit (ConsoleError (LogToolCallError error));;
                        ret (mkToolOutput (tc_id toolCall)
                               (JSON_stringify w tool_failed_payload))) h))
             = filter is_axios_post (trace_of (performWebSearch w query h))).
  { intros query. unfold try_catch, bind.
    destruct (performWebSearch_eq w query h) as (r & t & E & _ & Hf & _).
    rewrite E. destruct r as [s|e|]; [| |contradiction]; cbn.
    - rewrite app_nil_r. reflexivity.
    - rewrite filter_app. cbn. rewrite app_nil_r. reflexivity. }
  unfold web_search_output, call_requests.
  destruct (JSON_parse w (tc_function_arguments toolCall)) as [e|args].
  { cbn. destruct (configured_key w); reflexivity. }
  destruct args as [|b|n|s|items|fields]; cbn [get_query];
    try (rewrite G, performWebSearch_requests; reflexivity).
  - cbn. destruct (configured_key w); reflexivity.
  - rewrite G, performWebSearch_requests, get_field_find.
    destruct (configured_key w) as [key|]; [|reflexivity].
    destruct (find _ fields) as [[k query]|]; reflexivity.
Qed.

Lemma collect_tool_outputs_requests (w : World) (toolCalls : list ToolCall)
      (acc : list ToolOutput) (h : Handler) :
  filter is_axios_post (trace_of (collect_tool_outputs w toolCalls acc h))
  = match configured_key w with
    | None => []
    | Some key =>
        flat_map (fun toolCall =>
                    if (tc_function_name toolCall =? "web_search")%string
                    then call_requests w key toolCall else [])
                 toolCalls
    end.
Proof.
  revert acc. induction toolCalls as [|toolCall rest IH]; intros acc.
  - cbn. destruct (configured_key w); reflexivity.
  - cbn [collect_tool_outputs flat_map].
    destruct (tc_function_name toolCall =? "web_search")%string.
    + unfold bind.
      pose proof (web_search_output_requests w toolCall h) as Hq.
      destruct (web_search_output_spec w toolCall h) as (out & t & E & _).
      rewrite E in *. cbn [trace_of snd] in Hq.
      specialize (IH (acc ++ [out])%list).
      destruct (collect_tool_outputs w rest (acc ++ [out]) h) as [[r h2] t2].
      cbn [trace_of snd] in *. rewrite filter_app, Hq, IH.
      destruct (configured_key w) as [key|]; reflexivity.
    + rewrite IH. destruct (configured_key w) as [key|]; reflexivity.
Qed.

(** X10. The search requests made for a batch of tool calls are, in the
    order of the calls, one for each call that names [web_search], whose
    arguments parse to a value other than [null], and whose query a template
    literal can print; the request carries the [query] property of the
    parsed object (none when the value is not an object or has no such
    property) and the key as bearer.  A call whose arguments do not parse or
    parse to [null], whose query is an object that hides [toString] (or an
    array holding one), or that names another function makes no request, and
    without a key no request is made at all. *)
Theorem one_request_per_decodable_call (w : World) (toolCalls : list ToolCall) (h : Handler) :
  filter is_axios_post (trace_of (collect_tool_outputs w toolCalls [] h))
  = match TAVILY_API_KEY w with
    | None => []
    | Some key =>
        if (key =? EmptyString)%string then []
        else
          flat_map
            (fun toolCall =>
               if (tc_function_name toolCall =? "web_search")%string
               then
                 match JSON_parse w (tc_function_arguments toolCall) with
                 | inl _ => []
                 | inr JNull => []
                 | inr (JObj fields) =>
                     match find (fun field => ("query" =? fst field)%string) fields with
                     | Some (_, query) =>
                         if converts_to_string query
                         then [AxiosPost "https://api.tavily.com/search" (Some query)
                                         ("Bearer " ++ key)]
                         else []
                     | None =>
                         [AxiosPost "https://api.tavily.com/search" None ("Bearer " ++ key)]
                     end
                 | inr _ =>
                     [AxiosPost "https://api.tavily.com/search" None ("Bearer " ++ key)]
                 end
               else [])
            toolCalls
    end
  /\ (forall fields,
        converts_to_string (JObj fields)
        = match find (fun field => ("toString" =? fst field)%string) fields with
          | Some _ => false
          | None => true
          end)
  /\ (forall items, converts_to_string (JArr items) = forallb converts_to_string items)
  /\ (forall s, converts_to_string (JStr s) = true)
  /\ (forall n, converts_to_string (JNum n) = true)
  /\ (forall b, converts_to_string (JBool b) = true)
  /\ converts_to_string JNull = true.
Proof.
  split; [|split; [|split; [|repeat split]]].
  - rewrite collect_tool_outputs_requests. unfold configured_key, call_requests.
    destruct (TAVILY_API_KEY w) as [key|]; [|reflexivity].
    destruct (key =? EmptyString)%string; reflexivity.
  - intros fields. cbn [converts_to_string]. rewrite get_field_find.
    destruct (find _ fields); reflexivity.
  - intros items. cbn [converts_to_string].
    induction items as [|x rest IH]; [reflexivity|].
    cbn [forallb]. rewrite <- IH. reflexivity.
Qed.

Example requests_of_a_mixed_batch :
  filter is_axios_post
         (trace_of (collect_tool_outputs Sample.world
                      [Sample.web_search_call;
                       mkToolCall "call_3" "web_search" "null";
                       Sample.other_tool_call;
                       mkToolCall "call_5" "web_search" "{query";
                       mkToolCall "call_6" "web_search" Sample.odd_query_args;
                       mkToolCall "call_7" "web_search" "7"]
                      [] Sample.handler))
  = [AxiosPost "https://api.tavily.com/search" (Some (JStr "weather")) "Bearer tvly-key";
     AxiosPost "https://api.tavily.com/search" None "Bearer tvly-key"].
Proof. reflexivity. Qed.

(** The query that cannot be printed: the first log of [performWebSearch]
    throws, the error output is substituted and no request is made. *)
Example unprintable_query_gets_error_output :
  collect_tool_outputs Sample.world
    [mkToolCall "call_6" "web_search" Sample.odd_query_args] [] Sample.handler
  = (Ok [mkToolOutput "call_6"
           (Sample.stringify (JObj [("error", JStr "Failed to call tool")]))],
     Sample.handler,
     [ConsoleError (LogToolCallError (TypeError "Cannot convert object to primitive value"))]).
Proof. reflexivity. Qed.

(** ** The agent *)

(** X11. [init] registers the listener for new messages exactly when it
    succeeds, and then the agent holds its client, its assistant and its
    thread.  Without an API key (unset or empty) it throws before any call
    and leaves the process as it was.  It never touches the handlers. *)
Theorem init_listens_only_when_ready (aw : Agent.AgentWorld) (p : Agent.Process) :
  (Agent.result_in (Agent.init aw p) = Ok tt
   <-> In (Agent.ChatClientOn "message.new") (Agent.calls_of (Agent.init aw p)))
  /\ (Agent.result_in (Agent.init aw p) = Ok tt ->
      Agent.initialized (Agent.agent (Agent.process_after (Agent.init aw p))) = true)
  /\ (Agent.OPENAI_API_KEY aw = None \/ Agent.OPENAI_API_KEY aw = Some EmptyString ->
      Agent.init aw p = (Throw (new_Error "Open AI API Key is required"), p, []))
  /\ Agent.handlers (Agent.agent (Agent.process_after (Agent.init aw p)))
     = Agent.handlers (Agent.agent p)
  /\ Agent.objects (Agent.process_after (Agent.init aw p)) = Agent.objects p.
Proof.
  unfold Agent.init, Agent.configured_api_key.
  destruct (Agent.OPENAI_API_KEY aw) as [key|] eqn:K.
  - destruct (key =? EmptyString)%string eqn:E.
    + apply String.eqb_eq in E. subst key. cbn.
      repeat split; try discriminate; try contradiction; auto.
    + apply String.eqb_neq in E.
      destruct (Agent.assistants_create aw) as [e|aid];
        [|destruct (Agent.threads_create aw) as [e|tid]]; cbn;
        (split; [split; [try discriminate; auto | intros H; repeat destruct H as [H|H];
                                                   try discriminate; try contradiction; auto]|]);
        (split; [try discriminate; auto|]);
        (split; [intros [H|H]; congruence|]); split; reflexivity.
  - cbn. repeat split; try discriminate; try contradiction; auto.
Qed.

Example init_scenario :
  Agent.init AgentSample.world (Agent.new_process 0)
  = (Ok tt,
     Agent.mkProcess (Agent.mkAgent (Some "sk-key") (Some "asst_1") (Some "thread_1") 0 []) [],
     [Agent.AssistantsCreate "AI Writing Assistant"
        (Agent.getWritingAssistantPrompt "November 3, 2026" None) "gpt-4.1";
      Agent.ThreadsCreate;
      Agent.ChatClientOn "message.new"]).
Proof. reflexivity. Qed.

(** X12. An agent that is initialized ignores, without any call and without
    any change (its last-interaction time included), an event with no
    message, a message marked as generated by the AI, whatever its text (so
    the replies the agent sends itself), and a message with no text or an
    empty one.  An agent that is not initialized only logs that it is not. *)
Theorem ignored_messages_change_nothing
        (aw : Agent.AgentWorld) (m : Agent.NewMessage) (now : Z) (p : Agent.Process) :
  (Agent.initialized (Agent.agent p) = true ->
   Agent.handleMessage aw None now p = (Ok tt, p, [])
   /\ (Agent.nm_ai_generated m = Some true
       \/ Agent.nm_text m = None
       \/ Agent.nm_text m = Some EmptyString ->
       Agent.handleMessage aw (Some m) now p = (Ok tt, p, [])))
  /\ (Agent.initialized (Agent.agent p) = false ->
      Agent.handleMessage aw (Some m) now p
      = (Ok tt, p, [Agent.AgentConsoleLog "AI is not initialized"])).
Proof.
  unfold Agent.initialized, Agent.handleMessage, Agent.p_bind, Agent.p_get.
  destruct (Agent.openAI (Agent.agent p)) as [key|];
    destruct (Agent.openAIThread (Agent.agent p)) as [tid|];
    destruct (Agent.assistant (Agent.agent p)) as [aid|];
    (split; [intros H; try discriminate | intros H; try discriminate; try reflexivity]).
  split; [reflexivity|].
  intros [G | [T | T]].
  - rewrite G. reflexivity.
  - rewrite T. destruct (Agent.nm_ai_generated m) as [[|]|]; reflexivity.
  - rewrite T. destruct (Agent.nm_ai_generated m) as [[|]|]; reflexivity.
Qed.

Example own_reply_is_ignored :
  Agent.handleMessage AgentSample.world
                      (Some (Agent.mkNewMessage (Some "a reply") (Some true) None))
                      2000 AgentSample.ready
  = (Ok tt, AgentSample.ready, []).
Proof. reflexivity. Qed.






(** ** Handlers and the agent that holds them *)

Lemma removeHandler_idempotent (ref : nat) (a : Agent.OpenAIAgent) :
  Agent.removeHandler ref (Agent.removeHandler ref a) = Agent.removeHandler ref a.
Proof.
  unfold Agent.removeHandler, Agent.set_handlers. cbn. f_equal.
  induction (Agent.handlers a) as [|r rs IH]; [reflexivity|].
  cbn. destruct (r =? ref)%nat eqn:E; cbn; [exact IH|]. rewrite E. cbn. f_equal. exact IH.
Qed.

Lemma run_callbacks_spec (ref : nat) (t : Trace) (a : Agent.OpenAIAgent) :
  Agent.run_callbacks ref t a
  = if (count is_on_dispose t =? 0)%nat then a else Agent.removeHandler ref a.
Proof.
  unfold Agent.run_callbacks. revert a. induction t as [|e t IH]; intros a; [reflexivity|].
  cbn [fold_left]. rewrite IH.
  assert (C : count is_on_dispose (e :: t)
              = if is_on_dispose e then S (count is_on_dispose t) else count is_on_dispose t).
  { unfold count. cbn [filter]. destruct (is_on_dispose e); reflexivity. }
  rewrite C. destruct (is_on_dispose e); [|reflexivity]. cbn [Nat.eqb].
  destruct (count is_on_dispose t =? 0)%nat; [reflexivity|].
  apply removeHandler_idempotent.
Qed.

Lemma nth_error_store (ref : nat) (h : Handler) (objs : list Agent.HandlerObject) (r : nat) :
  nth_error (Agent.store ref h objs) r
  = if (r =? ref)%nat
    then option_map (fun o => Agent.mkHandlerObject h (Agent.ho_assistantStream o))
                    (nth_error objs r)
    else nth_error objs r.
Proof.
  revert ref r. induction objs as [|o rest IH]; intros ref r.
  - cbn. destruct r, ref; cbn; try reflexivity; destruct (r =? ref)%nat; reflexivity.
  - destruct ref, r; cbn; try reflexivity. apply IH.
Qed.

Lemma In_removeHandler (ref r : nat) (a : Agent.OpenAIAgent) :
  In r (Agent.handlers (Agent.removeHandler ref a)) <-> In r (Agent.handlers a) /\ r <> ref.
Proof.
  unfold Agent.removeHandler. cbn. rewrite filter_In, negb_true_iff, Nat.eqb_neq. tauto.
Qed.

(** What a method [m] of the handler under [ref] leaves, when [m] keeps what
    every method keeps. *)
Lemma on_handler_spec (ref : nat) (m : M unit) (p : Agent.Process) (o : Agent.HandlerObject) :
  nth_error (Agent.objects p) ref = Some o ->
  kept_at m (Agent.ho_fields o) ->
  Agent.fields_at ref (Agent.process_after (Agent.on_handler ref m p))
  = Some (handler_of (m (Agent.ho_fields o)))
  /\ (forall r, r <> ref ->
        nth_error (Agent.objects (Agent.process_after (Agent.on_handler ref m p))) r
        = nth_error (Agent.objects p) r)
  /\ Agent.agent (Agent.process_after (Agent.on_handler ref m p))
     = (if negb (is_done (Agent.ho_fields o)) && is_done (handler_of (m (Agent.ho_fields o)))
        then Agent.removeHandler ref (Agent.agent p)
        else Agent.agent p)
  /\ Agent.calls_of (Agent.on_handler ref m p)
     = map (Agent.HandlerCall ref) (trace_of (m (Agent.ho_fields o))).
Proof.
  intros Hn (_ & _ & _ & D & N & _).
  unfold Agent.on_handler, Agent.fields_at, Agent.process_after, Agent.calls_of,
    handler_of, trace_of in *.
  rewrite Hn. destruct (m (Agent.ho_fields o)) as [[r h'] t]. cbn [fst snd] in *.
  split; [|split; [|split; [|reflexivity]]].
  - cbn [Agent.objects]. rewrite nth_error_store, Nat.eqb_refl, Hn. reflexivity.
  - intros r' Hr. cbn [Agent.objects]. rewrite nth_error_store. apply Nat.eqb_neq in Hr. rewrite Hr. reflexivity.
  - cbn [Agent.agent]. rewrite run_callbacks_spec, N.
    destruct (is_done (Agent.ho_fields o)); [reflexivity|].
    destruct (is_done h'); reflexivity.
Qed.

(** X16. Whatever sequence of calls a stored handler receives, the agent is
    changed in one way only: when the sequence takes the handler from live
    to disposed, the handler is removed from the agent's handlers, the
    others staying in their order; otherwise the agent is as it was.  The
    other stored handlers are not touched. *)
Theorem disposed_handler_leaves_the_agent
        (w : World) (ref : nat) (ops : list Op) (p : Agent.Process) (o : Agent.HandlerObject) :
  nth_error (Agent.objects p) ref = Some o ->
  Agent.fields_at ref (Agent.process_after (Agent.on_handler ref (perform_all w ops) p))
  = Some (handler_of (perform_all w ops (Agent.ho_fields o)))
  /\ (forall r, r <> ref ->
        nth_error (Agent.objects
                     (Agent.process_after (Agent.on_handler ref (perform_all w ops) p))) r
        = nth_error (Agent.objects p) r)
  /\ Agent.agent (Agent.process_after (Agent.on_handler ref (perform_all w ops) p))
     = (if negb (is_done (Agent.ho_fields o))
           && is_done (handler_of (perform_all w ops (Agent.ho_fields o)))
        then Agent.set_handlers
               (filter (fun handler => negb (handler =? ref)%nat)
                       (Agent.handlers (Agent.agent p)))
               (Agent.agent p)
        else Agent.agent p).
Proof.
  intros Hn.
  destruct (on_handler_spec ref (perform_all w ops) p o Hn (perform_all_kept w ops _))
    as (F & O & A & _).
  repeat split; assumption.
Qed.

Lemma disposed_handler_leaves_the_agent_witness :
  Agent.fields_at 0
    (Agent.process_after
       (Agent.on_handler 0 (perform_all Sample.world [OpStopGenerating (Some "m1")])
          (Agent.mkProcess (Agent.mkAgent (Some "sk-key") (Some "asst_1") (Some "thread_1")
                                          1000 [0%nat])
                           [Agent.mkHandlerObject Sample.handler AgentSample.stream])))
  = Some (handler_of (perform_all Sample.world [OpStopGenerating (Some "m1")]
                        (Agent.ho_fields
                           (Agent.mkHandlerObject Sample.handler AgentSample.stream))))
  /\ (forall r, r <> 0%nat ->
        nth_error (Agent.objects
          (Agent.process_after
             (Agent.on_handler 0 (perform_all Sample.world [OpStopGenerating (Some "m1")])
                (Agent.mkProcess (Agent.mkAgent (Some "sk-key") (Some "asst_1")
                                                (Some "thread_1") 1000 [0%nat])
                                 [Agent.mkHandlerObject Sample.handler AgentSample.stream]))))
                  r
        = nth_error (Agent.objects
            (Agent.mkProcess (Agent.mkAgent (Some "sk-key") (Some "asst_1")
                                            (Some "thread_1") 1000 [0%nat])
                             [Agent.mkHandlerObject Sample.handler AgentSample.stream])) r)
  /\ Agent.agent
       (Agent.process_after
          (Agent.on_handler 0 (perform_all Sample.world [OpStopGenerating (Some "m1")])
             (Agent.mkProcess (Agent.mkAgent (Some "sk-key") (Some "asst_1")
                                             (Some "thread_1") 1000 [0%nat])
                              [Agent.mkHandlerObject Sample.handler AgentSample.stream])))
     = (if negb (is_done (Agent.ho_fields
                            (Agent.mkHandlerObject Sample.handler AgentSample.stream)))
           && is_done (handler_of (perform_all Sample.world [OpStopGenerating (Some "m1")]
                                     (Agent.ho_fields
                                        (Agent.mkHandlerObject Sample.handler
                                                               AgentSample.stream))))
        then Agent.set_handlers
               (filter (fun handler => negb (handler =? 0)%nat)
                       (Agent.handlers
                          (Agent.agent
                             (Agent.mkProcess (Agent.mkAgent (Some "sk-key") (Some "asst_1")
                                                             (Some "thread_1") 1000 [0%nat])
                                [Agent.mkHandlerObject Sample.handler AgentSample.stream]))))
               (Agent.agent
                  (Agent.mkProcess (Agent.mkAgent (Some "sk-key") (Some "asst_1")
                                                  (Some "thread_1") 1000 [0%nat])
                     [Agent.mkHandlerObject Sample.handler AgentSample.stream]))
        else Agent.agent
               (Agent.mkProcess (Agent.mkAgent (Some "sk-key") (Some "asst_1")
                                               (Some "thread_1") 1000 [0%nat])
                  [Agent.mkHandlerObject Sample.handler AgentSample.stream])).
Proof.
  apply (disposed_handler_leaves_the_agent Sample.world 0
           [OpStopGenerating (Some "m1")]
           (Agent.mkProcess (Agent.mkAgent (Some "sk-key") (Some "asst_1") (Some "thread_1")
                                           1000 [0%nat])
                            [Agent.mkHandlerObject Sample.handler AgentSample.stream])
           (Agent.mkHandlerObject Sample.handler AgentSample.stream)).
  reflexivity.
Defined.

Lemma on_handler_dispose_live (ref : nat) (p : Agent.Process) (o : Agent.HandlerObject) :
  nth_error (Agent.objects p) ref = Some o ->
  is_done (Agent.ho_fields o) = false ->
  Agent.on_handler ref dispose p
  = (Ok tt,
     Agent.mkProcess (Agent.removeHandler ref (Agent.agent p))
                     (Agent.store ref (set_is_done true (Agent.ho_fields o)) (Agent.objects p)),
     [Agent.HandlerCall ref (ChatClientOff "ai_indicator.stop");
      Agent.HandlerCall ref OnDispose]).
Proof.
  intros Hn Hd. unfold Agent.on_handler. rewrite Hn, (dispose_fresh _ Hd). reflexivity.
Qed.

Lemma forEach_dispose_spec (refs : list nat) (p : Agent.Process) :
  NoDup refs ->
  (forall ref, In ref refs ->
               exists o, nth_error (Agent.objects p) ref = Some o
                         /\ is_done (Agent.ho_fields o) = false) ->
  Agent.result_in (Agent.forEach_dispose refs p) = Ok tt
  /\ Agent.calls_of (Agent.forEach_dispose refs p)
     = flat_map (fun ref => [Agent.HandlerCall ref (ChatClientOff "ai_indicator.stop");
                             Agent.HandlerCall ref OnDispose]) refs
  /\ (forall r, In r refs ->
        Agent.fields_at r (Agent.process_after (Agent.forEach_dispose refs p))
        = option_map (set_is_done true) (Agent.fields_at r p))
  /\ (forall r, ~ In r refs ->
        nth_error (Agent.objects (Agent.process_after (Agent.forEach_dispose refs p))) r
        = nth_error (Agent.objects p) r)
  /\ Agent.set_handlers [] (Agent.agent (Agent.process_after (Agent.forEach_dispose refs p)))
     = Agent.set_handlers [] (Agent.agent p).
Proof.
  revert p. induction refs as [|ref rest IH]; intros p Hnd Hlive.
  - cbn. repeat split; auto. intros r [].
  - inversion Hnd as [|x xs Hnotin Hnd']; subst.
    destruct (Hlive ref (or_introl eq_refl)) as (o & Hn & Hd).
    cbn [Agent.forEach_dispose]. unfold Agent.p_bind.
    rewrite (on_handler_dispose_live ref p o Hn Hd).
    set (p1 := Agent.mkProcess (Agent.removeHandler ref (Agent.agent p))
                 (Agent.store ref (set_is_done true (Agent.ho_fields o)) (Agent.objects p))).
    assert (Hlive1 : forall r, In r rest ->
              exists o', nth_error (Agent.objects p1) r = Some o'
                         /\ is_done (Agent.ho_fields o') = false).
    { intros r Hr. destruct (Hlive r (or_intror Hr)) as (o' & Hn' & Hd').
      exists o'. split; [|exact Hd']. unfold p1. cbn [Agent.objects].
      rewrite nth_error_store.
      destruct (r =? ref)%nat eqn:E; [|exact Hn'].
      apply Nat.eqb_eq in E. subst r. contradiction. }
    destruct (IH p1 Hnd' Hlive1) as (R & C & F & O & A).
    unfold Agent.result_in, Agent.calls_of, Agent.process_after in *.
    destruct (Agent.forEach_dispose rest p1) as [[r2 p2] t2]. cbn [fst snd] in *.
    subst r2 t2. cbn [flat_map app].
    split; [reflexivity|]. split; [reflexivity|]. split; [|split].
    + intros r [Hr | Hr].
      * subst r. unfold Agent.fields_at in *. rewrite (O ref Hnotin).
        unfold p1. cbn [Agent.objects]. rewrite nth_error_store, Nat.eqb_refl, Hn.
        reflexivity.
      * rewrite (F r Hr). unfold Agent.fields_at, p1. cbn [Agent.objects].
        rewrite nth_error_store.
        destruct (r =? ref)%nat eqn:E; [|reflexivity].
        apply Nat.eqb_eq in E. subst r. contradiction.
    + intros r Hr. rewrite O by (intros H; apply Hr; right; exact H).
      unfold p1. cbn [Agent.objects]. rewrite nth_error_store.
      destruct (r =? ref)%nat eqn:E; [|reflexivity].
      apply Nat.eqb_eq in E. subst r. exfalso. apply Hr. left. reflexivity.
    + rewrite A. reflexivity.
Qed.

(** X17. [dispose] of an agent whose handlers are all stored, live and held
    once: the listener for new messages is removed and the user is
    disconnected, then every handler is disposed, in the order of the array
    and each once (its stop listener removed, its disposal callback run);
    the agent ends with no handler and its other fields as they were, and
    the stored handlers it did not hold are left as they were. *)
Theorem agent_dispose_disposes_every_handler (p : Agent.Process) :
  Agent.holds_live_handlers p ->
  Agent.result_in (Agent.dispose p) = Ok tt
  /\ Agent.calls_of (Agent.dispose p)
     = (Agent.ChatClientOffAgent "message.new" :: Agent.DisconnectUser
          :: flat_map (fun ref => [Agent.HandlerCall ref (ChatClientOff "ai_indicator.stop");
                                   Agent.HandlerCall ref OnDispose])
                      (Agent.handlers (Agent.agent p)))
  /\ Agent.agent (Agent.process_after (Agent.dispose p))
     = Agent.set_handlers [] (Agent.agent p)
  /\ (forall r, In r (Agent.handlers (Agent.agent p)) ->
        Agent.fields_at r (Agent.process_after (Agent.dispose p))
        = option_map (set_is_done true) (Agent.fields_at r p))
  /\ (forall r, ~ In r (Agent.handlers (Agent.agent p)) ->
        nth_error (Agent.objects (Agent.process_after (Agent.dispose p))) r
        = nth_error (Agent.objects p) r).
Proof.
  intros [Hnd Hlive].
  destruct (forEach_dispose_spec (Agent.handlers (Agent.agent p)) p Hnd Hlive)
    as (R & C & F & O & A).
  unfold Agent.dispose, Agent.p_bind, Agent.p_emit, Agent.p_get, Agent.modify_agent.
  unfold Agent.result_in, Agent.calls_of, Agent.process_after in *.
  destruct (Agent.forEach_dispose (Agent.handlers (Agent.agent p)) p) as [[r2 p2] t2].
  cbn [fst snd] in *. subst r2 t2. cbn [fst snd app Agent.agent Agent.objects].
  rewrite app_nil_r.
  split; [reflexivity|]. split; [reflexivity|]. split; [exact A|]. split; assumption.
Qed.

Lemma agent_dispose_disposes_every_handler_witness :
  Agent.result_in
    (Agent.dispose
       (Agent.mkProcess (Agent.mkAgent (Some "sk-key") (Some "asst_1") (Some "thread_1")
                                       1000 [1%nat; 2%nat])
          [Agent.mkHandlerObject (set_is_done true Sample.handler) AgentSample.stream;
           Agent.mkHandlerObject Sample.handler AgentSample.stream;
           Agent.mkHandlerObject Sample.handler AgentSample.stream])) = Ok tt
  /\ Agent.calls_of
       (Agent.dispose
          (Agent.mkProcess (Agent.mkAgent (Some "sk-key") (Some "asst_1") (Some "thread_1")
                                          1000 [1%nat; 2%nat])
             [Agent.mkHandlerObject (set_is_done true Sample.handler) AgentSample.stream;
              Agent.mkHandlerObject Sample.handler AgentSample.stream;
              Agent.mkHandlerObject Sample.handler AgentSample.stream]))
     = (Agent.ChatClientOffAgent "message.new" :: Agent.DisconnectUser
          :: flat_map (fun ref => [Agent.HandlerCall ref (ChatClientOff "ai_indicator.stop");
                                   Agent.HandlerCall ref OnDispose])
                      [1%nat; 2%nat]).
Proof.
  pose proof (agent_dispose_disposes_every_handler
                (Agent.mkProcess (Agent.mkAgent (Some "sk-key") (Some "asst_1")
                                                (Some "thread_1") 1000 [1%nat; 2%nat])
                   [Agent.mkHandlerObject (set_is_done true Sample.handler) AgentSample.stream;
                    Agent.mkHandlerObject Sample.handler AgentSample.stream;
                    Agent.mkHandlerObject Sample.handler AgentSample.stream])) as H.
  assert (L : Agent.holds_live_handlers
                (Agent.mkProcess (Agent.mkAgent (Some "sk-key") (Some "asst_1")
                                                (Some "thread_1") 1000 [1%nat; 2%nat])
                   [Agent.mkHandlerObject (set_is_done true Sample.handler) AgentSample.stream;
                    Agent.mkHandlerObject Sample.handler AgentSample.stream;
                    Agent.mkHandlerObject Sample.handler AgentSample.stream])).
  { split.
    - repeat constructor; cbn; intuition discriminate.
    - intros ref [H1 | [H2 | []]]; subst ref; cbn; eexists; split; reflexivity. }
  destruct (H L) as (R & C & _). split; [exact R | exact C].
Defined.

Lemma on_handler_keeps_live (ref : nat) (m : M unit) (p : Agent.Process) :
  (forall h, kept_at m h) ->
  Agent.holds_live_handlers p ->
  Agent.holds_live_handlers (Agent.process_after (Agent.on_handler ref m p)).
Proof.
  intros Hk [Hnd Hlive].
  destruct (nth_error (Agent.objects p) ref) as [o|] eqn:Hn.
  2:{ unfold Agent.on_handler, Agent.process_after. rewrite Hn. cbn. split; assumption. }
  destruct (on_handler_spec ref m p o Hn (Hk _)) as (F & O & A & _).
  set (p' := Agent.process_after (Agent.on_handler ref m p)) in *.
  unfold Agent.holds_live_handlers. rewrite A.
  destruct (negb (is_done (Agent.ho_fields o)) && is_done (handler_of (m (Agent.ho_fields o))))
    eqn:Flip.
  - split.
    + unfold Agent.removeHandler. cbn. apply NoDup_filter. exact Hnd.
    + intros r Hr. apply In_removeHandler in Hr as [Hr Hne].
      rewrite (O r Hne). apply Hlive. exact Hr.
  - split; [exact Hnd|]. intros r Hr.
    destruct (Nat.eq_dec r ref) as [->|Hne].
    + destruct (Hlive ref Hr) as (o0 & Hn0 & Hd0).
      rewrite Hn in Hn0. inversion Hn0; subst o0. rewrite Hd0 in Flip. cbn in Flip.
      unfold Agent.fields_at in F.
      destruct (nth_error (Agent.objects p') ref) as [o'|]; [|discriminate].
      cbn in F. inversion F as [F']. exists o'. split; [reflexivity|].
      rewrite F'. exact Flip.
    + rewrite (O r Hne). apply Hlive. exact Hr.
Qed.

Lemma forEach_dispose_ok (refs : list nat) (p : Agent.Process) :
  Agent.result_in (Agent.forEach_dispose refs p) = Ok tt.
Proof.
  revert p. induction refs as [|ref rest IH]; intros p; [reflexivity|].
  cbn [Agent.forEach_dispose]. unfold Agent.p_bind, Agent.result_in in *.
  destruct (Agent.on_handler ref dispose p) as [[r1 p1] t1].
  specialize (IH p1). destruct (Agent.forEach_dispose rest p1) as [[r2 p2] t2].
  cbn in *. exact IH.
Qed.

Lemma dispose_leaves_no_handler (p : Agent.Process) :
  Agent.handlers (Agent.agent (Agent.process_after (Agent.dispose p))) = [].
Proof.
  unfold Agent.dispose, Agent.p_bind, Agent.p_emit, Agent.p_get, Agent.modify_agent,
    Agent.process_after.
  pose proof (forEach_dispose_ok (Agent.handlers (Agent.agent p)) p) as R.
  unfold Agent.result_in in R.
  destruct (Agent.forEach_dispose (Agent.handlers (Agent.agent p)) p) as [[r2 p2] t2].
  cbn in R. subst r2. reflexivity.
Qed.

Lemma handleMessage_frame (aw : Agent.AgentWorld) (e_message : option Agent.NewMessage)
      (now : Z) (p : Agent.Process) :
  Agent.process_after (Agent.handleMessage aw e_message now p) = p
  \/ Agent.process_after (Agent.handleMessage aw e_message now p)
     = Agent.mkProcess (Agent.set_lastInteractions now (Agent.agent p)) (Agent.objects p)
  \/ exists o,
       is_done (Agent.ho_fields o) = false
       /\ Agent.process_after (Agent.handleMessage aw e_message now p)
          = Agent.mkProcess
              (Agent.set_handlers
                 (Agent.handlers (Agent.agent p) ++ [List.length (Agent.objects p)])%list
                 (Agent.set_lastInteractions now (Agent.agent p)))
              (Agent.objects p ++ [o])%list.
Proof.
  unfold Agent.handleMessage, Agent.p_bind, Agent.p_get, Agent.process_after.
  destruct (Agent.openAI (Agent.agent p)) as [key|]; [|left; reflexivity].
  destruct (Agent.openAIThread (Agent.agent p)) as [tid|]; [|left; reflexivity].
  destruct (Agent.assistant (Agent.agent p)) as [aid|]; [|left; reflexivity].
  destruct e_message as [m|]; [|left; reflexivity].
  destruct (Agent.nm_ai_generated m) as [[|]|]; try (left; reflexivity);
    (destruct (Agent.nm_text m) as [text|]; [|left; reflexivity];
     destruct (text =? EmptyString)%string; [left; reflexivity|];
     cbn; destruct (Agent.messages_create aw tid text); cbn;
     [ right; left; reflexivity
     | right; right; eexists; split; [|reflexivity]; reflexivity ]).
Qed.

Lemma handleMessage_keeps_live (aw : Agent.AgentWorld) (e_message : option Agent.NewMessage)
      (now : Z) (p : Agent.Process) :
  Agent.holds_live_handlers p ->
  Agent.holds_live_handlers (Agent.process_after (Agent.handleMessage aw e_message now p)).
Proof.
  intros [Hnd Hlive].
  destruct (handleMessage_frame aw e_message now p) as [E | [E | (o & Hd & E)]]; rewrite E.
  - split; assumption.
  - split; assumption.
  - split; cbn [Agent.agent Agent.objects Agent.set_handlers Agent.handlers].
    + apply NoDup_app; [exact Hnd | repeat constructor; intros [] |].
      intros r Hr [Hq | []]. subst r.
      destruct (Hlive _ Hr) as (o0 & Hn & _).
      assert (List.length (Agent.objects p) < List.length (Agent.objects p))%nat
        by (apply nth_error_Some; congruence).
      lia.
    + intros r Hr. apply in_app_or in Hr as [Hr | [Hr | []]].
      * destruct (Hlive r Hr) as (o0 & Hn & Hd0). exists o0. split; [|exact Hd0].
        rewrite nth_error_app1; [exact Hn | apply nth_error_Some; congruence].
      * subst r. exists o. split; [|exact Hd].
        rewrite nth_error_app2 by lia. rewrite Nat.sub_diag. reflexivity.
Qed.

Lemma init_keeps_live (aw : Agent.AgentWorld) (p : Agent.Process) :
  Agent.holds_live_handlers p ->
  Agent.holds_live_handlers (Agent.process_after (Agent.init aw p)).
Proof.
  intros H. unfold Agent.init, Agent.process_after.
  destruct (Agent.configured_api_key aw); [|exact H].
  destruct (Agent.assistants_create aw); [exact H|].
  destruct (Agent.threads_create aw); exact H.
Qed.

Lemma step_keeps_live (w : World) (aw : Agent.AgentWorld) (op : Agent.ProcessOp)
      (p : Agent.Process) :
  Agent.holds_live_handlers p -> Agent.holds_live_handlers (Agent.step w aw op p).
Proof.
  intros H. destruct op; cbn [Agent.step].
  - apply init_keeps_live. exact H.
  - apply handleMessage_keeps_live. exact H.
  - apply on_handler_keeps_live; [intros; apply perform_all_kept | exact H].
  - unfold Agent.run_handler.
    destruct (nth_error (Agent.objects p) ref) as [o|]; [|exact H].
    apply on_handler_keeps_live; [intros; apply run_kept | exact H].
  - split.
    + change (snd (fst (Agent.dispose p))) with (Agent.process_after (Agent.dispose p)).
      rewrite dispose_leaves_no_handler. constructor.
    + change (snd (fst (Agent.dispose p))) with (Agent.process_after (Agent.dispose p)).
      rewrite dispose_leaves_no_handler. intros r [].
Qed.

(** X18. Whatever the process does from its start (initializations, new
    messages, calls on stored handlers in any order, runs of handlers,
    disposals of the agent), the agent only ever holds handlers that are
    stored and not disposed, and holds none twice: a handler that is disposed,
    by whichever path, is no longer among the agent's handlers. *)
Theorem agent_holds_only_live_handlers
        (w : World) (aw : Agent.AgentWorld) (ops : list Agent.ProcessOp) (now : Z) :
  Agent.holds_live_handlers (Agent.steps w aw ops (Agent.new_process now)).
Proof.
  assert (G : forall p, Agent.holds_live_handlers p ->
                        Agent.holds_live_handlers (Agent.steps w aw ops p)).
  { induction ops as [|op rest IH]; intros p H; [exact H|].
    cbn [Agent.steps fold_left]. apply IH. apply step_keeps_live. exact H. }
  apply G. split; [constructor | intros r []].
Qed.

Example two_replies_one_finished :
  Agent.handlers
    (Agent.agent
       (Agent.steps Sample.world AgentSample.world
          [Agent.DoInit;
           Agent.DoMessage (Some AgentSample.user_message) 2000;
           Agent.DoMessage (Some AgentSample.user_message) 3000;
           Agent.DoRun 0 1]
          (Agent.new_process 0)))
  = [1%nat].
Proof. reflexivity. Qed.

(** X19. In a process whose agent holds only live handlers, when the run of
    a stored handler returns, that handler is disposed and is no longer
    among the agent's handlers, which are otherwise the same, in the same
    order. *)
Theorem finished_run_leaves_the_agent
        (w : World) (ref : nat) (fuel : nat) (p : Agent.Process) (o : Agent.HandlerObject) :
  Agent.holds_live_handlers p ->
  nth_error (Agent.objects p) ref = Some o ->
  Agent.result_in (Agent.run_handler w ref fuel p) = Ok tt ->
  (exists h, Agent.fields_at ref (Agent.process_after (Agent.run_handler w ref fuel p))
             = Some h /\ is_done h = true)
  /\ ~ In ref (Agent.handlers
                 (Agent.agent (Agent.process_after (Agent.run_handler w ref fuel p))))
  /\ Agent.handlers (Agent.agent (Agent.process_after (Agent.run_handler w ref fuel p)))
     = filter (fun handler => negb (handler =? ref)%nat) (Agent.handlers (Agent.agent p)).
Proof.
  intros [Hnd Hlive] Hn Hr.
  unfold Agent.run_handler in *. rewrite Hn in *.
  destruct (on_handler_spec ref (run w (Agent.ho_assistantStream o) fuel) p o Hn
              (run_kept w _ fuel _)) as (F & _ & A & _).
  destruct (run_result w (Agent.ho_assistantStream o) fuel (Agent.ho_fields o))
    as (_ & Hdone & _).
  assert (Hok : result_of (run w (Agent.ho_assistantStream o) fuel (Agent.ho_fields o)) = Ok tt).
  { unfold Agent.on_handler, Agent.result_in, result_of in *. rewrite Hn in Hr.
    destruct (run w (Agent.ho_assistantStream o) fuel (Agent.ho_fields o)) as [[r h'] t].
    exact Hr. }
  specialize (Hdone Hok).
  split; [eexists; split; [exact F | exact Hdone]|].
  rewrite A, Hdone, andb_true_r.
  destruct (is_done (Agent.ho_fields o)) eqn:D; cbn [negb].
  - assert (Hnot : ~ In ref (Agent.handlers (Agent.agent p))).
    { intros Hin. destruct (Hlive ref Hin) as (o0 & Hn0 & Hd0). congruence. }
    split; [exact Hnot|].
    symmetry. apply forallb_filter_id. apply forallb_forall. intros r Hin.
    apply negb_true_iff, Nat.eqb_neq. intros ->. contradiction.
  - split; [|reflexivity].
    intros Hin. apply In_removeHandler in Hin as [_ Hne]. congruence.
Qed.

Lemma finished_run_leaves_the_agent_witness :
  (exists h, Agent.fields_at 0
               (Agent.process_after
                  (Agent.run_handler Sample.world 0 1
                     (Agent.mkProcess (Agent.mkAgent (Some "sk-key") (Some "asst_1")
                                                     (Some "thread_1") 1000 [0%nat; 1%nat])
                        [Agent.mkHandlerObject Sample.handler AgentSample.stream;
                         Agent.mkHandlerObject Sample.handler AgentSample.stream])))
             = Some h /\ is_done h = true)
  /\ ~ In 0%nat
          (Agent.handlers
             (Agent.agent
                (Agent.process_after
                   (Agent.run_handler Sample.world 0 1
                      (Agent.mkProcess (Agent.mkAgent (Some "sk-key") (Some "asst_1")
                                                      (Some "thread_1") 1000 [0%nat; 1%nat])
                         [Agent.mkHandlerObject Sample.handler AgentSample.stream;
                          Agent.mkHandlerObject Sample.handler AgentSample.stream])))))
  /\ Agent.handlers
       (Agent.agent
          (Agent.process_after
             (Agent.run_handler Sample.world 0 1
                (Agent.mkProcess (Agent.mkAgent (Some "sk-key") (Some "asst_1")
                                                (Some "thread_1") 1000 [0%nat; 1%nat])
                   [Agent.mkHandlerObject Sample.handler AgentSample.stream;
                    Agent.mkHandlerObject Sample.handler AgentSample.stream]))))
     = filter (fun handler => negb (handler =? 0)%nat)
              (Agent.handlers
                 (Agent.agent
                    (Agent.mkProcess (Agent.mkAgent (Some "sk-key") (Some "asst_1")
                                                    (Some "thread_1") 1000 [0%nat; 1%nat])
                       [Agent.mkHandlerObject Sample.handler AgentSample.stream;
                        Agent.mkHandlerObject Sample.handler AgentSample.stream]))).
Proof.
  apply (finished_run_leaves_the_agent Sample.world 0 1
           (Agent.mkProcess (Agent.mkAgent (Some "sk-key") (Some "asst_1")
                                           (Some "thread_1") 1000 [0%nat; 1%nat])
              [Agent.mkHandlerObject Sample.handler AgentSample.stream;
               Agent.mkHandlerObject Sample.handler AgentSample.stream])
           (Agent.mkHandlerObject Sample.handler AgentSample.stream)).
  - split.
    + repeat constructor; cbn; intuition discriminate.
    + intros ref [H1 | [H2 | []]]; subst ref; cbn; eexists; split; reflexivity.
  - reflexivity.
  - reflexivity.
Defined.

(** ** What the partial pushes carry *)

(** X20. Every partial push made while text deltas arrive carries the whole
    text accumulated so far, the delta that triggered it included: the
    deltas the throttle kept back are in the next push, none is lost. *)
Theorem every_push_carries_the_whole_text (deltas : list (string * Z)) (h : Handler) :
  Forall (fun text =>
            exists k, (0 < k <= List.length deltas)%nat
                      /\ text = msg_text (message h)
                                  ++ concat_all (map fst (firstn k deltas)))
         (pushed_texts (trace_of (handle_events (map delta_arrival deltas) h))).
Proof.
  revert h. induction deltas as [|[value now] rest IH]; intros h; [constructor|].
  cbn [map]. rewrite handle_events_cons. cbn [trace_of snd].
  rewrite pushed_texts_app. apply Forall_app. split.
  - cbn [delta_arrival arr_event arr_now fst snd].
    rewrite handleStreamEvent_text_delta. cbn [snd].
    destruct (now - last_update_time h >? 1000); [|constructor].
    repeat constructor. exists 1%nat. cbn. rewrite append_empty_r.
    split; [lia | reflexivity].
  - fold (trace_of (handle_events (map delta_arrival rest)
            (handler_of (handleStreamEvent (arr_event (delta_arrival (value, now)))
                                           (arr_now (delta_arrival (value, now))) h)))).
    eapply Forall_impl; [|apply IH].
    intros text (k & Hk & ->). exists (S k). split; [cbn; lia|].
    destruct (handleStreamEvent_appends (arr_event (delta_arrival (value, now)))
                                        (arr_now (delta_arrival (value, now))) h) as (T & _).
    rewrite T. cbn. apply append_assoc.
Qed.

Example pushes_of_five_deltas :
  pushed_texts
    (trace_of (handle_events
                 (map delta_arrival
                      [("a", 5000); ("b", 5400); ("c", 6000); ("d", 6001); ("e", 6900)])
                 Sample.handler))
  = ["a"; "abcd"].
Proof. reflexivity. Qed.
